(** * kenco_backend: the M-Pesa payment lifecycle

    A shallow embedding of the payment flow of [server.js] and of the
    [MpesaService] class (services/mpesa.js): phone normalisation, amount
    validation, STK push initiation inside a store transaction, the
    status poll ([checkAndUpdatePaymentStatus]) and the gateway callback.

    Conventions.
    - JavaScript values that reach the code from JSON are [jsval];
      amounts are [jsnum] (a finite double is modelled by the rational it
      denotes, [Math.floor] and the comparisons being exact on doubles).
      Where the code multiplies and subtracts doubles (the weighted choice
      of [checkPaymentStatus]) the numbers are binary64 floats.
    - [async] handlers run in the monad [M]: a state monad over the
      connection ([world]) whose results are [Ok] or [Throw]. Handlers of
      requests that overlap are [job]s, cut at their [await]s and
      interleaved on the one connection.
    - What the code obtains from outside (random numbers, the gateway's
      HTTP answers, the clock, store failures) is passed in as an oracle. *)

From Stdlib Require Import Floats.PrimFloat.
From Stdlib Require Import ZArith QArith Qround List String Ascii Bool Lia.
From Stdlib Require Import DecimalString.
Import ListNotations.

Local Open Scope string_scope.
Local Open Scope Z_scope.

(* ------------------------------------------------------------------ *)
(** ** JavaScript values *)

Module Js.

Inductive jsval : Type :=
| JUndefined
| JNull
| JNum (n : Z)
| JStr (s : string).

(** Numbers as [Number(x)] yields them. *)
Inductive jsnum : Type :=
| NaN
| PosInf
| NegInf
| Fin (q : Q).

Inductive exn : Type :=
| Error (message : string)
| TypeError (message : string).

Definition message_of (e : exn) : string :=
  match e with Error m => m | TypeError m => m end.

Inductive outcome (A : Type) : Type :=
| Ok (a : A)
| Throw (e : exn).
Arguments Ok {A} a.
Arguments Throw {A} e.

Definition Z_toString (n : Z) : string := NilZero.string_of_int (Z.to_int n).

(** [String(v)], as a template literal converts its holes. *)
Definition String_of (v : jsval) : string :=
  match v with
  | JUndefined => "undefined"
  | JNull => "null"
  | JNum n => Z_toString n
  | JStr s => s
  end.

(** [v.toString()]: a [TypeError] on [undefined] and [null]. *)
Definition toString (v : jsval) : outcome string :=
  match v with
  | JUndefined => Throw (TypeError "Cannot read properties of undefined (reading 'toString')")
  | JNull => Throw (TypeError "Cannot read properties of null (reading 'toString')")
  | JNum n => Ok (Z_toString n)
  | JStr s => Ok s
  end.

(** Truthiness, for [!x], [x || y] and [x && y]. *)
Definition truthy (v : jsval) : bool :=
  match v with
  | JUndefined | JNull => false
  | JNum n => negb (n =? 0)
  | JStr s => negb (String.eqb s "")
  end.

Definition js_or (a b : jsval) : jsval := if truthy a then a else b.

(** Strict equality [===]. *)
Definition strict_eq (a b : jsval) : bool :=
  match a, b with
  | JUndefined, JUndefined => true
  | JNull, JNull => true
  | JNum x, JNum y => x =? y
  | JStr x, JStr y => String.eqb x y
  | _, _ => false
  end.

(** [s.substring(n)] *)
Fixpoint substring_from (n : nat) (s : string) : string :=
  match n, s with
  | O, _ => s
  | S n', EmptyString => EmptyString
  | S n', String _ t => substring_from n' t
  end.

(** [s.substring(0, n)] *)
Definition substring_to (n : nat) (s : string) : string := String.substring 0 n s.

Definition startsWith (s p : string) : bool := String.prefix p s.

(** [s.includes(p)] *)
Fixpoint includes (s p : string) : bool :=
  String.prefix p s ||
  match s with
  | EmptyString => false
  | String _ t => includes t p
  end.

Definition is_digit (c : ascii) : bool :=
  ((48 <=? nat_of_ascii c) && (nat_of_ascii c <=? 57))%nat.

(** [s.replace(/\D/g, '')] *)
Fixpoint strip_non_digits (s : string) : string :=
  match s with
  | EmptyString => EmptyString
  | String c t => if is_digit c then String c (strip_non_digits t) else strip_non_digits t
  end.

Fixpoint all_digits (s : string) : bool :=
  match s with
  | EmptyString => true
  | String c t => is_digit c && all_digits t
  end.

(** [Math.floor] *)
Definition Math_floor (x : jsnum) : jsnum :=
  match x with
  | Fin q => Fin (inject_Z (Qfloor q))
  | other => other
  end.

Definition isNaN (x : jsnum) : bool :=
  match x with NaN => true | _ => false end.

(** [x < y] on numbers; every comparison with [NaN] is false. *)
Definition num_lt (x y : jsnum) : bool :=
  match x, y with
  | NaN, _ | _, NaN => false
  | Fin a, Fin b => negb (Qle_bool b a)
  | NegInf, NegInf => false
  | NegInf, _ => true
  | _, NegInf => false
  | PosInf, _ => false
  | Fin _, PosInf => true
  end.

Definition num_gt (x y : jsnum) : bool := num_lt y x.

(** [!x] on a number: [0] and [NaN] are falsy. *)
Definition num_falsy (x : jsnum) : bool :=
  match x with
  | NaN => true
  | Fin q => Qeq_bool q 0
  | _ => false
  end.

Definition of_Z (z : Z) : jsnum := Fin (inject_Z z).

End Js.
Import Js.

(* ------------------------------------------------------------------ *)
(** ** services/mpesa.js: the pure part of [MpesaService] *)

Module MpesaService.

Inductive environment : Type := sandbox | production.

(** [formatPhoneNumber(phone)] *)
Definition formatPhoneNumber (phone : string) : outcome string :=
  let formatted := strip_non_digits phone in
  let prefixed :=
    if startsWith formatted "0" then Ok ("254" ++ substring_from 1 formatted)
    else if startsWith formatted "7" || startsWith formatted "1" then Ok ("254" ++ formatted)
    else if negb (startsWith formatted "254") then Throw (Error "Invalid phone number format")
    else Ok formatted in
  match prefixed with
  | Throw e => Throw e
  | Ok formatted =>
      if negb (Nat.eqb (String.length formatted) 12)
      then Throw (Error "Phone number must be 12 digits in 254XXXXXXXXX format")
      else Ok formatted
  end.

(** The amount check of [initiatePayment]:
    [const amount = Math.floor(paymentRequest.amount); if (amount < 1) throw]. *)
Definition checked_amount (a : jsnum) : outcome jsnum :=
  let amount := Math_floor a in
  if num_lt amount (of_Z 1) then Throw (Error "Amount must be at least 1 KES")
  else Ok amount.

(** [accountReference] is cut to 12 characters, [transactionDesc] to 13. *)
Definition truncate (limit : nat) (s : string) : string :=
  if (limit <? String.length s)%nat then substring_to limit s else s.

(** *** The gateway calls

    [Math.random], the clock and the answers of the HTTP calls are given
    by an [oracle]. *)

(** What an [axios] call brings back: [response.data], or an error with
    its [message] and, when the server answered, [error.response.data]
    read at [errorMessage] and [ResponseDescription]. *)
Inductive http (A : Type) : Type :=
| Http_ok (data : A)
| Http_error (message : string) (response_data : option (jsval * jsval)).
Arguments Http_ok {A} data.
Arguments Http_error {A} message response_data.

Module PushAck.
Record t : Type := mk {
  MerchantRequestID : jsval;
  CheckoutRequestID : jsval;
  ResponseCode : jsval;
  ResponseDescription : jsval;
  CustomerMessage : jsval
}.
End PushAck.

Module Status.
Record t : Type := mk {
  MerchantRequestID : jsval;
  CheckoutRequestID : jsval;
  ResultCode : string;
  ResultDesc : jsval;
  Amount : jsval;
  MpesaReceiptNumber : jsval;
  TransactionDate : jsval;
  PhoneNumber : jsval;
  Balance : jsval
}.
End Status.

Module Item.
Record t : Type := mk { Name : jsval; Value : jsval }.
End Item.

(** [callbackData.Body.stkCallback]; [CallbackMetadata] is [None] when
    [CallbackMetadata?.Item] is missing. *)
Module StkCallback.
Record t : Type := mk {
  MerchantRequestID : jsval;
  CheckoutRequestID : jsval;
  ResultCode : jsval;
  ResultDesc : jsval;
  CallbackMetadata : option (list Item.t)
}.
End StkCallback.

Module PaymentRequest.
Record t : Type := mk {
  phone : string;
  amount : jsnum;
  accountReference : string;
  transactionDesc : string;
  callbackUrl : string
}.
End PaymentRequest.

(** How [getAccessToken] comes by its token. *)
Inductive token_source : Type :=
| Awaited (accessToken : jsval)
    (* a refresh was in flight: [this.accessToken] once it is over *)
| Cached (accessToken : string)
| Refreshed (simulated : string) (answer : http jsval).

Record oracle : Type := mkOracle {
  token : token_source;
  (* initiatePayment, sandbox *)
  shouldFail : option string;      (* [Math.random() < 0.05] and the [desc] drawn *)
  merchantRequestId : string;
  checkoutRequestId : string;
  (* initiatePayment, production *)
  stkpush : http PushAck.t;
  (* checkPaymentStatus, sandbox *)
  random : float;                  (* [Math.random()] of the weighted choice *)
  sim_merchantRequestId : string;
  sim_amount : Z;
  sim_receipt : string;            (* [generateMpesaReceiptNumber()] *)
  sim_timestamp : string;          (* [generateTimestamp()] *)
  sim_phone : string;
  sim_balance : Z
}.

(** [getAccessToken()] *)
Definition getAccessToken (env : environment) (o : oracle) : outcome jsval :=
  match token o with
  | Awaited t => Ok t
  | Cached t => Ok (JStr t)
  | Refreshed simulated answer =>
      match env with
      | sandbox => Ok (JStr simulated)
      | production =>
          match answer with
          | Http_ok access_token => Ok access_token
          | Http_error _ _ => Throw (Error "Failed to authenticate with M-Pesa API")
          end
      end
  end.

(** What the [try] block of [initiatePayment] may throw. *)
Inductive thrown : Type :=
| Plain (e : exn)
| Axios (message : string) (response_data : option (jsval * jsval)).

Definition or_default (m d : string) : string :=
  if String.eqb m "" then d else m.

(** [initiatePayment(paymentRequest)] *)
Definition initiatePayment (env : environment) (o : oracle) (r : PaymentRequest.t)
  : outcome PushAck.t :=
  let attempt : PushAck.t + thrown :=
    match getAccessToken env o with
    | Throw e => inr (Plain e)
    | Ok accessToken =>
    match formatPhoneNumber (PaymentRequest.phone r) with
    | Throw e => inr (Plain e)
    | Ok formattedPhone =>
    match checked_amount (PaymentRequest.amount r) with
    | Throw e => inr (Plain e)
    | Ok amount =>
      let accountRef := truncate 12 (PaymentRequest.accountReference r) in
      let transactionDesc := truncate 13 (PaymentRequest.transactionDesc r) in
      match env with
      | sandbox =>
          match shouldFail o with
          | Some desc => inr (Plain (Error ("M-Pesa API Error: " ++ desc)))
          | None =>
              inl (PushAck.mk (JStr (merchantRequestId o)) (JStr (checkoutRequestId o))
                     (JStr "0") (JStr "Success. Request accepted for processing")
                     (JStr ("STK push sent to " ++ formattedPhone
                            ++ ". Please check your phone and enter your M-Pesa PIN.")))
          end
      | production =>
          match stkpush o with
          | Http_ok data => inl data
          | Http_error m d => inr (Axios m d)
          end
      end
    end end end in
  match attempt with
  | inl ack => Ok ack
  | inr (Axios _ (Some (errorMessage, ResponseDescription))) =>
      Throw (Error (String_of (js_or errorMessage
                                 (js_or ResponseDescription (JStr "M-Pesa API error")))))
  | inr (Axios m None) => Throw (Error (or_default m "Failed to send STK push"))
  | inr (Plain e) => Throw (Error (or_default (message_of e) "Failed to send STK push"))
  end.

Record result_code : Type := mkCode {
  code : Z;
  desc : string;
  success : bool;
  weight : float
}.

Definition resultCodes : list result_code :=
  [ mkCode 0 "The service request is processed successfully." true 75%float;
    mkCode 1032 "Request canceled by user" false 8%float;
    mkCode 1037 "DS timeout user cannot be reached" false 5%float;
    mkCode 2001 "Wrong PIN entered" false 7%float;
    mkCode 1 "Insufficient funds in the utility account" false 3%float;
    mkCode 17 "User has cancelled the transaction" false 2%float ].

(** The weighted choice: [random -= result.weight; if (random <= 0) ...; break],
    in the arithmetic of doubles. *)
Fixpoint select_result (random : float) (codes : list result_code) (selected : result_code)
  : result_code :=
  match codes with
  | [] => selected
  | result :: rest =>
      let random' := PrimFloat.sub random (weight result) in
      if PrimFloat.leb random' 0%float then result else select_result random' rest selected
  end.

(** [checkPaymentStatus(checkoutRequestId)] *)
Definition checkPaymentStatus (env : environment) (o : oracle) (checkoutRequestId : jsval)
  : outcome Status.t :=
  match env with
  | sandbox =>
      let totalWeight :=
        fold_left (fun sum c => PrimFloat.add sum (weight c)) resultCodes 0%float in
      let selectedResult :=
        select_result (PrimFloat.mul (random o) totalWeight) resultCodes
          (mkCode 0 "The service request is processed successfully." true 75%float) in
      let status :=
        Status.mk (JStr (sim_merchantRequestId o)) checkoutRequestId
          (Z_toString (code selectedResult)) (JStr (desc selectedResult))
          JUndefined JUndefined JUndefined JUndefined JUndefined in
      if success selectedResult
      then Ok (Status.mk (Status.MerchantRequestID status) (Status.CheckoutRequestID status)
                 (Status.ResultCode status) (Status.ResultDesc status)
                 (JNum (sim_amount o)) (JStr (sim_receipt o)) (JStr (sim_timestamp o))
                 (JStr (sim_phone o)) (JNum (sim_balance o)))
      else Ok status
  | production =>
      Throw (Error (or_default
        "Status checking for production should use STK Push Query API or rely on callbacks"
        "Failed to check payment status"))
  end.

Section Callback.

(** [parseFloat], which the embedding leaves to the platform. *)
Variable parseFloat : jsval -> jsval.

(** One round of [metadata.forEach((item) => { switch (item.Name) ... })]. *)
Definition read_item (status : Status.t) (item : Item.t) : outcome Status.t :=
  let set_amount v := Status.mk (Status.MerchantRequestID status)
    (Status.CheckoutRequestID status) (Status.ResultCode status) (Status.ResultDesc status)
    v (Status.MpesaReceiptNumber status) (Status.TransactionDate status)
    (Status.PhoneNumber status) (Status.Balance status) in
  let set_receipt v := Status.mk (Status.MerchantRequestID status)
    (Status.CheckoutRequestID status) (Status.ResultCode status) (Status.ResultDesc status)
    (Status.Amount status) v (Status.TransactionDate status)
    (Status.PhoneNumber status) (Status.Balance status) in
  let set_date v := Status.mk (Status.MerchantRequestID status)
    (Status.CheckoutRequestID status) (Status.ResultCode status) (Status.ResultDesc status)
    (Status.Amount status) (Status.MpesaReceiptNumber status) v
    (Status.PhoneNumber status) (Status.Balance status) in
  let set_phone v := Status.mk (Status.MerchantRequestID status)
    (Status.CheckoutRequestID status) (Status.ResultCode status) (Status.ResultDesc status)
    (Status.Amount status) (Status.MpesaReceiptNumber status) (Status.TransactionDate status)
    v (Status.Balance status) in
  let set_balance v := Status.mk (Status.MerchantRequestID status)
    (Status.CheckoutRequestID status) (Status.ResultCode status) (Status.ResultDesc status)
    (Status.Amount status) (Status.MpesaReceiptNumber status) (Status.TransactionDate status)
    (Status.PhoneNumber status) v in
  if strict_eq (Item.Name item) (JStr "Amount")
  then Ok (set_amount (parseFloat (Item.Value item)))
  else if strict_eq (Item.Name item) (JStr "MpesaReceiptNumber")
  then Ok (set_receipt (Item.Value item))
  else if strict_eq (Item.Name item) (JStr "TransactionDate")
  then match toString (Item.Value item) with
       | Ok s => Ok (set_date (JStr s))
       | Throw e => Throw e
       end
  else if strict_eq (Item.Name item) (JStr "PhoneNumber")
  then match toString (Item.Value item) with
       | Ok s => Ok (set_phone (JStr s))
       | Throw e => Throw e
       end
  else if strict_eq (Item.Name item) (JStr "Balance")
  then Ok (set_balance (parseFloat (Item.Value item)))
  else Ok status.

Fixpoint read_items (status : Status.t) (metadata : list Item.t) : outcome Status.t :=
  match metadata with
  | [] => Ok status
  | item :: rest =>
      match read_item status item with
      | Ok status' => read_items status' rest
      | Throw e => Throw e
      end
  end.

(** [processCallback(callbackData)]; [callbackData] is
    [callbackData.Body?.stkCallback], [None] when it is missing. *)
Definition processCallback (callbackData : option StkCallback.t) : outcome Status.t :=
  let attempt :=
    match callbackData with
    | None => Throw (Error "Invalid callback data structure")
    | Some stkCallback =>
        match toString (StkCallback.ResultCode stkCallback) with
        | Throw e => Throw e
        | Ok resultCode =>
            let status :=
              Status.mk (StkCallback.MerchantRequestID stkCallback)
                (StkCallback.CheckoutRequestID stkCallback) resultCode
                (StkCallback.ResultDesc stkCallback)
                JUndefined JUndefined JUndefined JUndefined JUndefined in
            match strict_eq (StkCallback.ResultCode stkCallback) (JNum 0),
                  StkCallback.CallbackMetadata stkCallback with
            | true, Some metadata => read_items status metadata
            | _, _ => Ok status
            end
        end
    end in
  match attempt with
  | Ok status => Ok status
  | Throw _ => Throw (Error "Failed to process M-Pesa callback")
  end.

End Callback.

End MpesaService.

(* ------------------------------------------------------------------ *)
(** ** The [payments] and [tenants] tables behind [connection] *)

Module Store.

Inductive payment_status_t : Type := pending | completed | failed | refunded.

Definition is_pending (s : payment_status_t) : bool :=
  match s with pending => true | _ => false end.

(** The [notes] column holds either a plain text or the output of
    [JSON.stringify] on an object literal, kept as its key/value pairs. *)
Inductive notes_t : Type :=
| NotesText (s : string)
| NotesJSON (fields : list (string * jsval)).

(** [JSON.stringify] leaves out the keys whose value is [undefined]. *)
Definition JSON_stringify (fields : list (string * jsval)) : notes_t :=
  NotesJSON (filter (fun kv => match snd kv with JUndefined => false | _ => true end) fields).

Record payment : Type := mkPayment {
  id : Z;
  tenant_id : Z;
  property_id : Z;
  amount : Q;
  payment_date : string;
  payment_method : string;
  payment_status : payment_status_t;
  reference_number : option string;
  notes : option notes_t
}.

Record tenant : Type := mkTenant {
  t_id : Z;
  t_user_id : Z;
  t_property_id : Z
}.

(** [payments] are the committed rows; [working] is the connection's view
    inside an open transaction; [auto_increment] is the next [id], which
    a rollback does not give back. *)
Record db : Type := mkDb {
  payments : list payment;
  working : option (list payment);
  tenants : list tenant;
  auto_increment : Z
}.

Definition rows (d : db) : list payment :=
  match working d with Some w => w | None => payments d end.

Definition set_rows (d : db) (rs : list payment) : db :=
  match working d with
  | Some _ => mkDb (payments d) (Some rs) (tenants d) (auto_increment d)
  | None => mkDb rs None (tenants d) (auto_increment d)
  end.

(** A bound parameter stored in, or compared with, a VARCHAR column. *)
Definition varchar_of (v : jsval) : option string :=
  match v with
  | JUndefined | JNull => None
  | JNum n => Some (Z_toString n)
  | JStr s => Some s
  end.

(** [WHERE reference_number = ?]: the strings are compared as they are,
    and NULL equals nothing. *)
Definition reference_matches (v : jsval) (p : payment) : bool :=
  match varchar_of v, reference_number p with
  | Some s, Some r => String.eqb r s
  | _, _ => false
  end.

(** [SELECT * FROM payments WHERE reference_number = ?] *)
Definition select_by_reference (v : jsval) (d : db) : list payment * db :=
  (filter (reference_matches v) (rows d), d).

(** [SELECT p.*, t.user_id FROM payments p JOIN tenants t
     ON p.tenant_id = t.id WHERE p.id = ?] *)
Definition select_with_owner (pid : Z) (d : db) : list (payment * Z) * db :=
  (flat_map (fun p =>
     if id p =? pid
     then map (fun t => (p, t_user_id t))
              (filter (fun t => t_id t =? tenant_id p) (tenants d))
     else []) (rows d), d).

(** [SELECT * FROM payments WHERE id = ?] *)
Definition select_by_id (pid : Z) (d : db) : list payment * db :=
  (filter (fun p => id p =? pid) (rows d), d).

(** [SELECT id, property_id FROM tenants WHERE user_id = ?] *)
Definition select_tenant (uid : Z) (d : db) : list tenant * db :=
  (filter (fun t => t_user_id t =? uid) (tenants d), d).

(** [INSERT INTO payments (tenant_id, property_id, amount, payment_date,
     payment_method, payment_status, notes)
     VALUES (?, ?, ?, CURRENT_DATE(), 'mpesa', 'pending', ?)];
    the result is [insertId]. *)
Definition insert_pending (tid pid : Z) (amt : Q) (today : string) (n : notes_t)
  (d : db) : Z * db :=
  let i := auto_increment d in
  let d' := set_rows d (rows d ++ [mkPayment i tid pid amt today "mpesa" pending None (Some n)]) in
  (i, mkDb (payments d') (working d') (tenants d') (i + 1)).

Definition update_where_id (pid : Z) (f : payment -> payment) (d : db) : unit * db :=
  (tt, set_rows d (map (fun p => if id p =? pid then f p else p) (rows d))).

(** [UPDATE payments SET reference_number = ?, notes = ? WHERE id = ?] *)
Definition set_reference (ref : jsval) (n : notes_t) (p : payment) : payment :=
  mkPayment (id p) (tenant_id p) (property_id p) (amount p) (payment_date p)
    (payment_method p) (payment_status p) (varchar_of ref) (Some n).

(** [UPDATE payments SET payment_status = 'completed', reference_number = ?,
     notes = ? WHERE id = ?] *)
Definition set_completed (ref : jsval) (n : notes_t) (p : payment) : payment :=
  mkPayment (id p) (tenant_id p) (property_id p) (amount p) (payment_date p)
    (payment_method p) completed (varchar_of ref) (Some n).

(** [UPDATE payments SET payment_status = ?, notes = ? WHERE id = ?] *)
Definition set_status (s : payment_status_t) (n : notes_t) (p : payment) : payment :=
  mkPayment (id p) (tenant_id p) (property_id p) (amount p) (payment_date p)
    (payment_method p) s (reference_number p) (Some n).

(** [beginTransaction]: a transaction still open is committed first. *)
Definition begin_transaction (d : db) : unit * db :=
  (tt, mkDb (rows d) (Some (rows d)) (tenants d) (auto_increment d)).

Definition commit (d : db) : unit * db :=
  (tt, mkDb (rows d) None (tenants d) (auto_increment d)).

Definition rollback (d : db) : unit * db :=
  (tt, mkDb (payments d) None (tenants d) (auto_increment d)).

End Store.
Import Store.

(* ------------------------------------------------------------------ *)
(** ** The monad of the [async] handlers *)

Module Async.

(** The connection, and the store failures still to come: each call to the
    driver takes the head of [faults], [true] meaning that the call
    rejects (the store is unavailable). *)
Record world : Type := mkWorld {
  store : db;
  faults : list bool
}.

Definition M (A : Type) : Type := world -> outcome A * world.

Definition ret {A} (a : A) : M A := fun w => (Ok a, w).

Definition bind {A B} (m : M A) (k : A -> M B) : M B := fun w =>
  match m w with
  | (Ok a, w') => k a w'
  | (Throw e, w') => (Throw e, w')
  end.

Definition throw {A} (e : exn) : M A := fun w => (Throw e, w).

(** A synchronous call that may throw. *)
Definition lift {A} (r : outcome A) : M A := fun w => (r, w).

(** [try { m } catch (error) { h error }] *)
Definition try_catch {A} (m : M A) (h : exn -> M A) : M A := fun w =>
  match m w with
  | (Ok a, w') => (Ok a, w')
  | (Throw e, w') => h e w'
  end.

Definition has_undefined (params : list jsval) : bool :=
  existsb (fun v => match v with JUndefined => true | _ => false end) params.

(** A call to the driver without parameters ([beginTransaction], [commit],
    [rollback]). *)
Definition driver {A} (stmt : db -> A * db) : M A := fun w =>
  match faults w with
  | true :: fs => (Throw (Error "store unavailable"), mkWorld (store w) fs)
  | false :: fs => let (a, d) := stmt (store w) in (Ok a, mkWorld d fs)
  | [] => let (a, d) := stmt (store w) in (Ok a, mkWorld d [])
  end.

(** [connection.execute(sql, params)]: the mysql2 driver rejects with a
    [TypeError] when a bound parameter is [undefined], before anything is
    sent to the store. *)
Definition execute {A} (params : list jsval) (stmt : db -> A * db) : M A :=
  if has_undefined params
  then throw (TypeError
    "Bind parameters must not contain undefined. To pass SQL NULL specify JS null")
  else driver stmt.

(** *** Handlers that overlap

    An [async] handler gives the event loop back at each [await], and the
    handlers of the other requests, which all use the one [connection],
    run in between. A [job] is a handler cut at its awaited calls: what
    it does between two of them is synchronous. *)
Inductive job (A : Type) : Type :=
| Return (a : A)
| Raise (x : exn)
| Await {X : Type} (call : M X) (k : outcome X -> job A).
Arguments Return {A} a.
Arguments Raise {A} x.
Arguments Await {A X} call k.

(** [await call] *)
Definition await {X} (call : M X) : job X :=
  Await call (fun r => match r with Ok a => Return a | Throw x => Raise x end).

(** A synchronous call that may throw. *)
Definition sync {X} (r : outcome X) : job X :=
  match r with Ok a => Return a | Throw x => Raise x end.

Fixpoint jbind {A B} (j : job A) (k : A -> job B) : job B :=
  match j with
  | Return a => k a
  | Raise x => Raise x
  | Await call h => Await call (fun r => jbind (h r) k)
  end.

(** [try { j } catch (error) { h error }] *)
Fixpoint jcatch {A} (j : job A) (h : exn -> job A) : job A :=
  match j with
  | Return a => Return a
  | Raise x => h x
  | Await call k => Await call (fun r => jcatch (k r) h)
  end.

(** A job that nothing interrupts. *)
Fixpoint run {A} (j : job A) (w : world) : outcome A * world :=
  match j with
  | Return a => (Ok a, w)
  | Raise x => (Throw x, w)
  | Await call k => let (r, w') := call w in run (k r) w'
  end.




End Async.
Import Async.

Notation "x <- m ;; k" := (bind m (fun x => k))
  (at level 61, m at next level, right associativity).
Notation "m ;;; k" := (bind m (fun _ => k))
  (at level 61, right associativity).
Notation "x <~ j ;; k" := (jbind j (fun x => k))
  (at level 61, j at next level, right associativity).
Notation "j ;;~ k" := (jbind j (fun _ => k))
  (at level 61, right associativity).

(* ------------------------------------------------------------------ *)
(** ** server.js: the payment routes *)

Module Server.
Import MpesaService.

(** The decoded token that [authenticateToken] leaves in [req.user]. *)
Record user : Type := mkUser { u_id : Z; u_role : string }.

(** [req.headers['authorization']] and [req.body]. *)
Record request (B : Type) : Type := mkRequest {
  authorization : option string;
  body : B
}.
Arguments mkRequest {B} authorization body.
Arguments authorization {B} r.
Arguments body {B} r.

(** A value of [req.body] as [express.json()] leaves it. An array or an
    object is kept by what [Number] makes of it. *)
Inductive json_value : Type :=
| J_absent                       (* the key is missing: [undefined] *)
| J_null
| J_bool (b : bool)
| J_number (x : jsnum)
| J_string (s : string)
| J_object (number : jsnum).

(** [!v] *)
Definition falsy (v : json_value) : bool :=
  match v with
  | J_absent | J_null => true
  | J_bool b => negb b
  | J_number x => num_falsy x
  | J_string s => String.eqb s ""
  | J_object _ => false
  end.

Record initiate_body : Type := mkInitiate {
  b_amount : json_value;
  b_phone : option string;       (* a string, [None] when absent *)
  b_description : option string
}.

Record initiated : Type := mkInitiated {
  i_paymentId : Z;
  i_merchantRequestId : jsval;
  i_checkoutRequestId : jsval;
  i_responseCode : jsval;
  i_customerMessage : string;
  i_amount : jsnum;
  i_phone : string
}.

Record payment_view : Type := mkView {
  v_paymentId : Z;
  v_status : payment_status_t;
  v_amount : Q;
  v_reference : option string;
  v_date : string;
  v_notes : option notes_t
}.

Inductive json_body : Type :=
| Ack (ResultCode : Z) (ResultDesc : string)
| Denied (message detail : string)
| Failure (message : string)                 (* [{ success: false, message }] *)
| Failure_error (message error : string)     (* [{ success: false, message, error }] *)
| Initiated (data : initiated)
| Payment_view (v : payment_view).

Record response : Type := mkResponse { status_code : Z; json : json_body }.

(** [res.json({ ResultCode: 0, ResultDesc: "Accepted" })] *)
Definition accepted : response := mkResponse 200 (Ack 0 "Accepted").

(** The deferred status check armed by [setTimeout]. *)
Record timer : Type := mkTimer { timer_checkoutRequestId : jsval; timer_paymentId : Z }.

Record env : Type := mkEnv {
  environment_of : environment;   (* [mpesaConfig.environment] *)
  development : bool;             (* [process.env.NODE_ENV === 'development'] *)
  gateway : oracle;
  today : string;                 (* [CURRENT_DATE()] *)
  now_iso : string;               (* [new Date().toISOString()] *)
  callback_url : string
}.

Definition view_of (p : payment) : payment_view :=
  mkView (id p) (payment_status p) (amount p) (reference_number p) (payment_date p) (notes p).

(** [s.split(sep)] on a one-character separator. *)
Fixpoint split (sep : ascii) (s : string) : list string :=
  match s with
  | EmptyString => [EmptyString]
  | String c t =>
      if Ascii.eqb c sep then EmptyString :: split sep t
      else match split sep t with
           | h :: r => String c h :: r
           | [] => [String c EmptyString]
           end
  end.

(** The value bound for a DECIMAL column by a validated amount. *)
Definition decimal_of (x : jsnum) : Q :=
  match x with Fin q => q | _ => 0%Q end.

Section Routes.

Variable parseFloat : jsval -> jsval.

(** [Number(s)] on a string, which the embedding leaves to the platform. *)
Variable StringToNumber : string -> jsnum.

(** [Number(v)] *)
Definition Number_of (v : json_value) : jsnum :=
  match v with
  | J_absent => NaN
  | J_null => of_Z 0
  | J_bool b => if b then of_Z 1 else of_Z 0
  | J_number x => x
  | J_string s => StringToNumber s
  | J_object number => number
  end.

(** [jwt.verify(token, secret)] *)
Variable jwt_verify : string -> outcome user.

Variable e : env.

(** [checkAndUpdatePaymentStatus(checkoutRequestId, paymentId)] *)
Definition checkAndUpdatePaymentStatus (checkoutRequestId : jsval) (paymentId : Z)
  : M Status.t :=
  mpesaStatus <- lift (checkPaymentStatus (environment_of e) (gateway e) checkoutRequestId) ;;
  (if String.eqb (Status.ResultCode mpesaStatus) "0"
   then
     let notes := JSON_stringify
       [ ("mpesaReceiptNumber", Status.MpesaReceiptNumber mpesaStatus);
         ("transactionDate", Status.TransactionDate mpesaStatus);
         ("phoneNumber", Status.PhoneNumber mpesaStatus);
         ("checkoutRequestId", checkoutRequestId) ] in
     let reference := js_or (Status.MpesaReceiptNumber mpesaStatus) checkoutRequestId in
     execute [reference; JNum paymentId]
       (update_where_id paymentId (set_completed reference notes))
   else
     execute [JStr "failed"; JNum paymentId]
       (update_where_id paymentId
          (set_status failed
             (NotesText ("Error " ++ Status.ResultCode mpesaStatus ++ ": "
                         ++ String_of (Status.ResultDesc mpesaStatus)))))) ;;;
  ret mpesaStatus.

(** The body of the timer armed by the initiation, in sandbox. *)
Definition background_status_check (t : timer) : M unit :=
  try_catch
    (checkAndUpdatePaymentStatus (timer_checkoutRequestId t) (timer_paymentId t) ;;; ret tt)
    (fun _ => ret tt).

(** [authenticateToken(req, res, next)]; [respond] is what the route
    makes of a response sent by the middleware. *)
Definition authenticateToken {B R} (respond : response -> R) (req : request B)
  (next : user -> M R) : M R :=
  let token :=
    match authorization req with
    | None => None
    | Some authHeader =>
        if String.eqb authHeader "" then None
        else nth_error (split " "%char authHeader) 1
    end in
  match token with
  | None => ret (respond (mkResponse 401 (Denied "No token, authorization denied"
                                            "Please login to access this resource")))
  | Some token =>
      if String.eqb token ""
      then ret (respond (mkResponse 401 (Denied "No token, authorization denied"
                                           "Please login to access this resource")))
      else match jwt_verify token with
           | Ok decoded => next decoded
           | Throw err =>
               ret (respond (mkResponse 403 (Denied "Token is not valid" (message_of err))))
           end
  end.

Definition mask (formattedPhone : string) : string :=
  substring_to 6 formattedPhone ++ "***".

(** The message of the outer [catch] of the initiation. *)
Definition userMessage (error : exn) : string :=
  let m := message_of error in
  if includes m "Invalid phone number"
  then "Please enter a valid Kenyan phone number (e.g., 0712345678)"
  else if includes m "Invalid Access Token"
  then "Payment service temporarily unavailable. Please try again in a few moments."
  else if includes m "Bad Request - Invalid PhoneNumber"
  then "The phone number you entered is not valid for M-Pesa. Please check and try again."
  else if includes m "Unable to process request"
  then "M-Pesa service is temporarily unavailable. Please try again later."
  else "Failed to initiate payment. Please try again.".

(** The handler of [POST /api/payments/mpesa/initiate], after
    [authenticateToken]; with the response, the timer it arms. *)
Definition initiate (u : user) (req : request initiate_body) : M (response * option timer) :=
  try_catch
    (let amount := b_amount (body req) in
     match b_phone (body req) with
     | Some phone =>
       if falsy amount || String.eqb phone ""
       then ret (mkResponse 400 (Failure "Amount and phone number are required"), None)
       else
       let wholeAmount := Math_floor (Number_of amount) in
       if isNaN wholeAmount || num_lt wholeAmount (of_Z 1) || num_gt wholeAmount (of_Z 500000)
       then ret (mkResponse 400 (Failure "Amount must be between KES 1 and KES 500,000"), None)
       else
       match formatPhoneNumber phone with
       | Throw phoneError =>
           ret (mkResponse 400 (Failure ("Invalid phone number: " ++ message_of phoneError
                  ++ ". Please use format: 0712345678, 254712345678, or 712345678")), None)
       | Ok formattedPhone =>
           tenant <- execute [JNum (u_id u)] (select_tenant (u_id u)) ;;
           match tenant with
           | [] => ret (mkResponse 400
                          (Failure "No active tenancy found. Please contact your landlord."),
                        None)
           | tenant0 :: _ =>
               driver begin_transaction ;;;
               try_catch
                 (paymentId <- execute [JNum (t_id tenant0); JNum (t_property_id tenant0)]
                    (insert_pending (t_id tenant0) (t_property_id tenant0)
                       (decimal_of wholeAmount) (today e)
                       (NotesText ("STK Push to " ++ mask formattedPhone))) ;;
                  let paymentRequest :=
                    PaymentRequest.mk formattedPhone wholeAmount
                      ("RENT" ++ Z_toString paymentId)
                      (match b_description (body req) with
                       | Some description =>
                           if String.eqb description "" then "Rent" ++ Z_toString paymentId
                           else substring_to 13 description
                       | None => "Rent" ++ Z_toString paymentId
                       end)
                      (callback_url e) in
                  mpesaResponse <-
                    lift (initiatePayment (environment_of e) (gateway e) paymentRequest) ;;
                  execute [PushAck.CheckoutRequestID mpesaResponse; JNum paymentId]
                    (update_where_id paymentId
                       (set_reference (PushAck.CheckoutRequestID mpesaResponse)
                          (JSON_stringify
                             [ ("merchantRequestId", PushAck.MerchantRequestID mpesaResponse);
                               ("checkoutRequestId", PushAck.CheckoutRequestID mpesaResponse);
                               ("responseCode", PushAck.ResponseCode mpesaResponse);
                               ("phoneNumber", JStr (mask formattedPhone));
                               ("initiatedAt", JStr (now_iso e)) ]))) ;;;
                  driver commit ;;;
                  ret (mkResponse 201
                         (Initiated
                            (mkInitiated paymentId
                               (PushAck.MerchantRequestID mpesaResponse)
                               (PushAck.CheckoutRequestID mpesaResponse)
                               (PushAck.ResponseCode mpesaResponse)
                               ("STK push sent to " ++ mask formattedPhone
                                ++ ". Please check your phone and enter your M-Pesa PIN.")
                               wholeAmount (mask formattedPhone))),
                       match environment_of e with
                       | sandbox =>
                           Some (mkTimer (PushAck.CheckoutRequestID mpesaResponse) paymentId)
                       | production => None
                       end))
                 (fun error => driver rollback ;;; throw error)
           end
       end
     | None => ret (mkResponse 400 (Failure "Amount and phone number are required"), None)
     end)
    (fun error =>
       ret (mkResponse 500
              (Failure_error (userMessage error)
                 (if development e then message_of error else "Internal server error")),
            None)).

(** The handler of [GET /api/payments/mpesa/status/:paymentId], after
    [authenticateToken]. *)
Definition payment_status_route (u : user) (paymentId : Z) : M response :=
  try_catch
    (payments <- execute [JNum paymentId] (select_with_owner paymentId) ;;
     match payments with
     | [] => ret (mkResponse 404 (Failure "Payment not found"))
     | (payment, user_id) :: _ =>
         if negb (user_id =? u_id u)
         then ret (mkResponse 403 (Failure "Access denied"))
         else if negb (is_pending (payment_status payment))
         then ret (mkResponse 200 (Payment_view (view_of payment)))
         else
           let current := ret (mkResponse 200 (Payment_view (view_of payment))) in
           match reference_number payment, environment_of e with
           | Some reference, sandbox =>
               if String.eqb reference "" then current
               else
                 try_catch
                   (checkAndUpdatePaymentStatus (JStr reference) paymentId ;;;
                    updatedPayments <- execute [JNum paymentId] (select_by_id paymentId) ;;
                    match updatedPayments with
                    | updatedPayment :: _ =>
                        ret (mkResponse 200 (Payment_view (view_of updatedPayment)))
                    | [] => throw (TypeError "Cannot read properties of undefined (reading 'id')")
                    end)
                   (fun _ => current)
           | _, _ => current
           end
     end)
    (fun error =>
       ret (mkResponse 500 (Failure_error "Failed to get payment status" (message_of error)))).

(** The handler of [POST /api/payments/mpesa/callback]; the route has no
    middleware. *)
Definition mpesa_callback (req : request (option StkCallback.t)) : M response :=
  try_catch
    (paymentStatus <- lift (processCallback parseFloat (body req)) ;;
     payments <- execute [Status.CheckoutRequestID paymentStatus]
                   (select_by_reference (Status.CheckoutRequestID paymentStatus)) ;;
     match payments with
     | payment :: _ =>
         if String.eqb (Status.ResultCode paymentStatus) "0"
         then
           let notes := JSON_stringify
             [ ("mpesaReceiptNumber", Status.MpesaReceiptNumber paymentStatus);
               ("transactionDate", Status.TransactionDate paymentStatus);
               ("phoneNumber", Status.PhoneNumber paymentStatus);
               ("balance", Status.Balance paymentStatus);
               ("merchantRequestId", Status.MerchantRequestID paymentStatus) ] in
           execute [Status.MpesaReceiptNumber paymentStatus; JNum (id payment)]
             (update_where_id (id payment)
                (set_completed (Status.MpesaReceiptNumber paymentStatus) notes))
         else
           execute [JStr "failed"; JNum (id payment)]
             (update_where_id (id payment)
                (set_status failed
                   (NotesText ("Error " ++ Status.ResultCode paymentStatus ++ ": "
                               ++ String_of (Status.ResultDesc paymentStatus)))))
     | [] => ret tt
     end ;;;
     ret accepted)
    (fun _ => ret accepted).

(** *** The handlers cut at their [await]s

    The same handlers as jobs, for the requests that overlap; uninterrupted
    they are the handlers above. *)

Definition poll_job (checkoutRequestId : jsval) (paymentId : Z) : job Status.t :=
  mpesaStatus <~
    await (lift (checkPaymentStatus (environment_of e) (gateway e) checkoutRequestId)) ;;
  (if String.eqb (Status.ResultCode mpesaStatus) "0"
   then
     let notes := JSON_stringify
       [ ("mpesaReceiptNumber", Status.MpesaReceiptNumber mpesaStatus);
         ("transactionDate", Status.TransactionDate mpesaStatus);
         ("phoneNumber", Status.PhoneNumber mpesaStatus);
         ("checkoutRequestId", checkoutRequestId) ] in
     let reference := js_or (Status.MpesaReceiptNumber mpesaStatus) checkoutRequestId in
     await (execute [reference; JNum paymentId]
              (update_where_id paymentId (set_completed reference notes)))
   else
     await (execute [JStr "failed"; JNum paymentId]
              (update_where_id paymentId
                 (set_status failed
                    (NotesText ("Error " ++ Status.ResultCode mpesaStatus ++ ": "
                                ++ String_of (Status.ResultDesc mpesaStatus))))))) ;;~
  Return mpesaStatus.



(** The routes as [app.post] and [app.get] register them. *)
Definition post_initiate (req : request initiate_body) : M (response * option timer) :=
  authenticateToken (fun res => (res, None)) req (fun u => initiate u req).

Definition get_status (req : request unit) (paymentId : Z) : M response :=
  authenticateToken (fun res => res) req (fun u => payment_status_route u paymentId).

Definition post_callback (req : request (option StkCallback.t)) : M response :=
  mpesa_callback req.

End Routes.

End Server.


(* ------------------------------------------------------------------ *)
(** ** Vocabulary of the properties *)

Module Spec.
Import MpesaService.
Import Server.

(** The value of the variable [formatted] when [formatPhoneNumber] returns
    or throws: the digits of the input, with the prefix rewritten where the
    code rewrites it. *)
Definition normalized (phone : string) : string :=
  let formatted := strip_non_digits phone in
  if startsWith formatted "0" then "254" ++ substring_from 1 formatted
  else if startsWith formatted "7" || startsWith formatted "1" then "254" ++ formatted
  else formatted.

(** The digit strings that [formatPhoneNumber] accepts. *)
Definition accepted_digits (d : string) : bool :=
  (startsWith d "0" && Nat.eqb (String.length d) 10)
  || ((startsWith d "7" || startsWith d "1") && Nat.eqb (String.length d) 9)
  || (startsWith d "254" && Nat.eqb (String.length d) 12).

(** The digits begin as one of the forms that [formatPhoneNumber] knows. *)
Definition known_prefix (d : string) : bool :=
  startsWith d "0" || startsWith d "7" || startsWith d "1" || startsWith d "254".

(** The claim on [InvalidPhoneFormat] as the spec words it: the call fails exactly when the
    normalised value is not 12 digits long or holds a character that is
    not a digit. *)
Definition InvalidPhoneFormat_claim : Prop :=
  forall phone : string,
    (exists e, formatPhoneNumber phone = Throw e) <->
    (String.length (normalized phone) <> 12%nat \/ all_digits (normalized phone) = false).

(** A Hoare triple over the handlers' monad: from a world that satisfies
    [P], [m] ends in an outcome and a world that satisfy [Q]. *)
Definition hoare {A} (P : world -> Prop) (m : M A) (Q : outcome A -> world -> Prop) : Prop :=
  forall w, P w -> Q (fst (m w)) (snd (m w)).

(** The answer of the initiation to an amount out of range. *)
Definition amount_rejection : response :=
  mkResponse 400 (Failure "Amount must be between KES 1 and KES 500,000").










(** The status a resolution writes for a result code. *)
Definition written_status (resultCode : string) : payment_status_t :=
  if String.eqb resultCode "0" then completed else failed.

Definition terminal (s : payment_status_t) : Prop := s <> pending.

(** The row that the callback writes over a row it resolves with the
    decoded notification [st]. *)
Definition callback_write (st : Status.t) (p : payment) : payment :=
  if String.eqb (Status.ResultCode st) "0"
  then set_completed (Status.MpesaReceiptNumber st)
         (JSON_stringify
            [ ("mpesaReceiptNumber", Status.MpesaReceiptNumber st);
              ("transactionDate", Status.TransactionDate st);
              ("phoneNumber", Status.PhoneNumber st);
              ("balance", Status.Balance st);
              ("merchantRequestId", Status.MerchantRequestID st) ]) p
  else set_status failed
         (NotesText ("Error " ++ Status.ResultCode st ++ ": "
                     ++ String_of (Status.ResultDesc st))) p.

(** The row that [checkAndUpdatePaymentStatus] writes for the polled
    status [st]. *)
Definition poll_write (checkoutRequestId : jsval) (st : Status.t) (p : payment) : payment :=
  if String.eqb (Status.ResultCode st) "0"
  then set_completed (js_or (Status.MpesaReceiptNumber st) checkoutRequestId)
         (JSON_stringify
            [ ("mpesaReceiptNumber", Status.MpesaReceiptNumber st);
              ("transactionDate", Status.TransactionDate st);
              ("phoneNumber", Status.PhoneNumber st);
              ("checkoutRequestId", checkoutRequestId) ]) p
  else set_status failed
         (NotesText ("Error " ++ Status.ResultCode st ++ ": "
                     ++ String_of (Status.ResultDesc st))) p.

(** [UPDATE ... WHERE id = i] with the new row given by [f]. *)
Definition updated (i : Z) (f : payment -> payment) (rs : list payment) : list payment :=
  map (fun p => if id p =? i then f p else p) rs.

(** The rows of the connection's view that carry a given [id]. *)
Definition rows_with_id (i : Z) (w : world) : list payment :=
  filter (fun p => id p =? i) (rows (store w)).

(** The claim on terminal records as the spec words it: a resolution
    leaves a record that is completed, failed or refunded as it is. *)
Definition terminal_is_final_claim : Prop :=
  forall (parseFloat : jsval -> jsval) (req : request (option StkCallback.t))
         (w : world) (p : payment),
    In p (rows (store w)) -> terminal (payment_status p) ->
    In p (rows (store (snd (mpesa_callback parseFloat req w)))).


(** The claim on the callback as the spec words it: what the callback does
    to the store is determined by the [CheckoutRequestID] and the
    [ResultCode] of the payload, and the store. *)
Definition determined_by_id_and_code_claim : Prop :=
  forall (parseFloat : jsval -> jsval) (req1 req2 : request (option StkCallback.t))
         (cb1 cb2 : StkCallback.t) (w : world),
    body req1 = Some cb1 -> body req2 = Some cb2 ->
    StkCallback.CheckoutRequestID cb1 = StkCallback.CheckoutRequestID cb2 ->
    StkCallback.ResultCode cb1 = StkCallback.ResultCode cb2 ->
    rows (store (snd (post_callback parseFloat req1 w))) =
    rows (store (snd (post_callback parseFloat req2 w))).

(** The claim on the correlation identifier as the spec words it: a
    [reference_number] that is set is never changed by a resolution. *)
Definition reference_is_fixed_claim : Prop :=
  forall (parseFloat : jsval -> jsval) (req : request (option StkCallback.t))
         (w : world) (p : payment) (c : string),
    In p (rows (store w)) -> reference_number p = Some c ->
    forall x, In x (rows_with_id (id p) (snd (mpesa_callback parseFloat req w))) ->
              reference_number x = Some c.

(** A row after a resolution, against the row before: the same [id], and
    the same [reference_number] unless the row was completed with the
    reference [r]. *)
Definition reference_kept_or (r : option string -> Prop) (x x' : payment) : Prop :=
  id x' = id x /\
  (reference_number x' = reference_number x
   \/ (payment_status x' = completed /\ r (reference_number x'))).

(** The [id] of the payment that a callback for [checkoutRequestId]
    resolves. *)
Definition first_match (checkoutRequestId : jsval) (w : world) : option Z :=
  match filter (reference_matches checkoutRequestId) (rows (store w)) with
  | p :: _ => Some (id p)
  | [] => None
  end.






End Spec.
Import Spec.

(** Sample data: one tenant (user 7), and a sandbox gateway that accepts. *)
Module Sample.
Import MpesaService.
Import Server.

Definition gateway_ok : oracle :=
  mkOracle (Cached "token") None "29115-34620561-1" "ws_CO_191220191020363925"
    (Http_error "timeout" None) 0.5%float "29115-34620561-2" 500 "ABC123"
    "20250101120000" "254712345678" 1000.

(** The same gateway when the user cancels: the weighted choice falls on
    code 1032. *)
Definition gateway_cancelled : oracle :=
  mkOracle (Cached "token") None "29115-34620561-1" "ws_CO_191220191020363925"
    (Http_error "timeout" None) 0.8125%float "29115-34620561-2" 500 "ABC123"
    "20250101120000" "254712345678" 1000.

(** A sandbox gateway that refuses the push. *)
Definition gateway_down : oracle :=
  mkOracle (Cached "token") (Some "Unable to process request") "29115-34620561-1"
    "ws_CO_191220191020363925" (Http_error "timeout" None) 0.5%float
    "29115-34620561-2" 500 "ABC123" "20250101120000" "254712345678" 1000.

Definition env_of (o : oracle) : env :=
  mkEnv sandbox false o "2025-01-01" "2025-01-01T00:00:00.000Z"
    "https://example.org/api/payments/mpesa/callback".

(** The production environment, where the call to the gateway times out. *)
Definition production_env : env :=
  mkEnv production false gateway_ok "2025-01-01" "2025-01-01T00:00:00.000Z"
    "https://example.org/api/payments/mpesa/callback".

(** A platform whose [Number] reads no text as a number. *)
Definition text_is_NaN (s : string) : jsnum := NaN.

Definition tenant_user : user := mkUser 7 "tenant".

Definition empty_world : world := mkWorld (mkDb [] None [mkTenant 1 7 3] 1) [].

Definition a_payment (s : payment_status_t) (n : option notes_t) : payment :=
  mkPayment 1 1 3 500 "2025-01-01" "mpesa" s (Some "ws_CO_191220191020363925") n.

Definition world_with (s : payment_status_t) (n : option notes_t) : world :=
  mkWorld (mkDb [a_payment s n] None [mkTenant 1 7 3] 2) [].

Definition pay (amount : Q) : request initiate_body :=
  mkRequest (Some "Bearer t")
    (mkInitiate (J_number (Fin amount)) (Some "0712345678") (Some "Rent")).

(** A callback that reports success, with its receipt. *)
Definition success_callback : request (option StkCallback.t) :=
  mkRequest None
    (Some (StkCallback.mk (JStr "29115-34620561-1") (JStr "ws_CO_191220191020363925")
             (JNum 0) (JStr "The service request is processed successfully.")
             (Some [ Item.mk (JStr "Amount") (JNum 500);
                     Item.mk (JStr "MpesaReceiptNumber") (JStr "ABC123");
                     Item.mk (JStr "TransactionDate") (JNum 20250101120000);
                     Item.mk (JStr "PhoneNumber") (JNum 254712345678) ]))).

(** The same notification of success without its metadata. *)
Definition success_without_receipt : request (option StkCallback.t) :=
  mkRequest None
    (Some (StkCallback.mk (JStr "29115-34620561-1") (JStr "ws_CO_191220191020363925")
             (JNum 0) (JStr "The service request is processed successfully.") None)).


(** A callback for a request that the store does not know. *)
Definition unknown_callback : request (option StkCallback.t) :=
  mkRequest None
    (Some (StkCallback.mk (JStr "29115-34620561-9") (JStr "ws_CO_010120250000000000")
             (JNum 0) (JStr "The service request is processed successfully.")
             (Some [ Item.mk (JStr "MpesaReceiptNumber") (JStr "XYZ789") ]))).

(** The status that [processCallback] decodes from [success_callback]. *)
Definition success_status : Status.t :=
  Status.mk (JStr "29115-34620561-1") (JStr "ws_CO_191220191020363925") "0"
    (JStr "The service request is processed successfully.")
    (JNum 500) (JStr "ABC123") (JStr "20250101120000") (JStr "254712345678") JUndefined.


Definition parseFloat_id (v : jsval) : jsval := v.

End Sample.

(* ------------------------------------------------------------------ *)
(** ** services/mpesa.js: the rest of [MpesaService] *)

(** The token cache: [accessToken], [tokenExpiry] (milliseconds, [None]
    for [null]) and [tokenRefreshInProgress]. *)
Module Session.
Import MpesaService.

Record t : Type := mk {
  accessToken : jsval;
  tokenExpiry : option Z;
  tokenRefreshInProgress : bool
}.

(** The fields as the constructor sets them. *)
Definition initial : t := mk JNull None false.

(** [response.data] of the token request. *)
Record token_answer : Type := mkAnswer { access_token : jsval; expires_in : Z }.

(** [getAccessToken()], on the session [s]. [now] is [new Date()] of the
    validity test and [later] the [Date.now()] of the refresh; [settled]
    is the session as a refresh in flight leaves it, read when the call
    finds [tokenRefreshInProgress] set and waits. *)
Definition getAccessToken (env : environment) (now later : Z) (simulated : string)
  (answer : http token_answer) (settled : t) (s : t) : outcome jsval * t :=
  if tokenRefreshInProgress s then (Ok (accessToken settled), settled)
  else
    let valid :=
      truthy (accessToken s) &&
      match tokenExpiry s with
      | Some expiry => now <? expiry - 300000
      | None => false
      end in
    if valid then (Ok (accessToken s), s)
    else
      match env with
      | sandbox =>
          (Ok (JStr simulated), mk (JStr simulated) (Some (later + 3600000)) false)
      | production =>
          match answer with
          | Http_ok data =>
              (Ok (access_token data),
               mk (access_token data) (Some (later + expires_in data * 1000)) false)
          | Http_error _ _ =>
              (Throw (Error "Failed to authenticate with M-Pesa API"), mk JNull None false)
          end
      end.

(** [clearTokenCache()] *)
Definition clearTokenCache (s : t) : t := mk JNull None (tokenRefreshInProgress s).

(** The way the call comes by its token, as [MpesaService.token_source]
    names it. *)
Definition source_of (now : Z) (simulated : string) (answer : http token_answer)
  (settled : t) (s : t) : token_source :=
  if tokenRefreshInProgress s then Awaited (accessToken settled)
  else if truthy (accessToken s) &&
          match tokenExpiry s with
          | Some expiry => now <? expiry - 300000
          | None => false
          end
       then Awaited (accessToken s)
       else Refreshed simulated
              match answer with
              | Http_ok data => Http_ok (access_token data)
              | Http_error m d => Http_error m d
              end.

End Session.

(** [validateConfig()] and the configuration that server.js builds. *)
Module Config.

(** A key of [config]: [None] when it is [undefined]. *)
Record t : Type := mk {
  consumerKey : option string;
  consumerSecret : option string;
  passkey : option string;
  shortcode : option string;
  environment : option string
}.

(** [!x] *)
Definition missing (x : option string) : bool :=
  match x with None => true | Some s => String.eqb s "" end.

(** [/^\d{5,6}$/.test(x)]; [undefined] is tested as the text "undefined". *)
Definition five_or_six_digits (x : option string) : bool :=
  match x with
  | None => false
  | Some s => all_digits s && (Nat.leb 5 (String.length s) && Nat.leb (String.length s) 6)
  end.

(** [validateConfig()]: the list [errors], in the order of the pushes. *)
Definition errors (c : t) : list string :=
  (if missing (consumerKey c) then ["Consumer Key is required"] else []) ++
  (if missing (consumerSecret c) then ["Consumer Secret is required"] else []) ++
  (if missing (passkey c) then ["Passkey is required"] else []) ++
  (if missing (shortcode c) then ["Shortcode is required"] else []) ++
  (if negb (five_or_six_digits (shortcode c)) then ["Shortcode must be 5-6 digits"] else []) ++
  (if negb (match environment c with
            | Some env => String.eqb env "sandbox" || String.eqb env "production"
            | None => false
            end)
   then ["Environment must be sandbox or production"] else []).

Definition valid (c : t) : bool :=
  Nat.eqb (List.length (errors c)) 0.

(** [a || b] on an environment variable and its default. *)
Definition or_else (a : option string) (b : string) : string :=
  match a with
  | Some s => if String.eqb s "" then b else s
  | None => b
  end.

(** [mpesaConfig] of server.js, from the variables [MPESA_CONSUMER_KEY],
    [MPESA_CONSUMER_SECRET], [MPESA_PASSKEY], [MPESA_SHORTCODE] and
    [MPESA_ENVIRONMENT]. *)
Definition mpesaConfig (key secret pass code env : option string) : t :=
  mk key secret
    (Some (or_else pass "bfb279f9aa9bdbcf158e97dd71a467cd2e0c893059b10f78e6b72ada1ed2c919"))
    (Some (or_else code "174379"))
    (Some (match env with
           | Some v => if String.eqb v "production" then "production" else "sandbox"
           | None => "sandbox"
           end)).

End Config.

(** [generateTimestamp()] *)
Module Clock.

(** The local time fields of [new Date()]; [month] is [getMonth()], from 0. *)
Record t : Type := mk {
  year : Z;
  month : Z;
  day : Z;
  hours : Z;
  minutes : Z;
  seconds : Z
}.

Fixpoint zeros (n : nat) : string :=
  match n with O => EmptyString | S n' => String "0" (zeros n') end.

(** [s.padStart(n, '0')] *)
Definition padStart (n : nat) (s : string) : string :=
  zeros (n - String.length s) ++ s.

Definition generateTimestamp (now : t) : string :=
  Z_toString (year now)
  ++ padStart 2 (Z_toString (month now + 1))
  ++ padStart 2 (Z_toString (day now))
  ++ padStart 2 (Z_toString (hours now))
  ++ padStart 2 (Z_toString (minutes now))
  ++ padStart 2 (Z_toString (seconds now)).

Definition well_formed (now : t) : Prop :=
  1000 <= year now <= 9999 /\ 0 <= month now <= 11 /\ 1 <= day now <= 31 /\
  0 <= hours now <= 23 /\ 0 <= minutes now <= 59 /\ 0 <= seconds now <= 59.

End Clock.

(** [generateMpesaReceiptNumber()]. [Math.random()] is a stream [rng],
    read at a position that every call moves on by one. *)
Module Receipt.

Definition rng : Type := nat -> Q.

Definition letters : string := "ABCDEFGHIJKLMNOPQRSTUVWXYZ".
Definition numbers : string := "0123456789".

(** [s.charAt(i)] *)
Definition charAt (s : string) (i : Z) : string :=
  if i <? 0 then EmptyString
  else match String.get (Z.to_nat i) s with
       | Some c => String c EmptyString
       | None => EmptyString
       end.

(** [Math.floor(Math.random() * n)] at position [k] *)
Definition pick (r : rng) (k : nat) (n : Z) : Z := Qfloor (r k * inject_Z n).

(** [for (let i = ...; i < base + Math.floor(Math.random() * span); i++)
      receipt += alphabet.charAt(Math.floor(Math.random() * alphabet.length))]:
    the bound is drawn again at every test. [None] when [fuel] rounds do
    not reach the end of the loop. *)
Fixpoint draw (fuel : nat) (r : rng) (base span : Z) (alphabet : string)
  (i : Z) (k : nat) (receipt : string) : option (string * nat) :=
  match fuel with
  | O => None
  | S fuel' =>
      if i <? base + pick r k span
      then draw fuel' r base span alphabet (i + 1) (k + 2)
             (receipt ++ charAt alphabet (pick r (k + 1) (Z.of_nat (String.length alphabet))))
      else Some (receipt, (k + 1)%nat)
  end.

(** [for (let i = 0; i < 2; i++)
      receipt += letters.charAt(Math.floor(Math.random() * letters.length))] *)
Definition two_letters (r : rng) (k : nat) (receipt : string) : string * nat :=
  (receipt ++ charAt letters (pick r k 26) ++ charAt letters (pick r (k + 1) 26), (k + 2)%nat).

Definition generateMpesaReceiptNumber (fuel : nat) (r : rng) (k : nat)
  : option (string * nat) :=
  match draw fuel r 2 2 letters 0 k EmptyString with
  | None => None
  | Some (receipt, k1) =>
      match draw fuel r 6 3 numbers 0 k1 receipt with
      | None => None
      | Some (receipt', k2) => Some (two_letters r k2 receipt')
      end
  end.

Definition is_upper (c : ascii) : bool :=
  ((65 <=? nat_of_ascii c) && (nat_of_ascii c <=? 90))%nat.

Fixpoint all_of (P : ascii -> bool) (s : string) : bool :=
  match s with
  | EmptyString => true
  | String c t => P c && all_of P t
  end.

Definition all_upper (s : string) : bool := all_of is_upper s.

(** Every draw is in [0, 1). *)
Definition unit_interval (r : rng) : Prop := forall k, (0 <= r k)%Q /\ (r k < 1)%Q.

End Receipt.

(** The request that [initiatePayment] posts in production. *)
Module StkPush.
Import MpesaService.

Record t : Type := mk {
  BusinessShortCode : string;
  Password : string;
  Timestamp : string;
  TransactionType : string;
  Amount : jsnum;
  PartyA : string;
  PartyB : string;
  PhoneNumber : string;
  CallBackURL : string;
  AccountReference : string;
  TransactionDesc : string
}.

Section Payload.

(** [Buffer.from(s).toString('base64')] *)
Variable base64 : string -> string.

(** [config.shortcode], [config.passkey] and [generateTimestamp()] *)
Variables (shortcode passkey timestamp : string).

(** [generatePassword(timestamp)] *)
Definition generatePassword : string := base64 (shortcode ++ passkey ++ timestamp).

(** [payload], or what the [try] block throws before it is built. *)
Definition payload (r : PaymentRequest.t) : outcome t :=
  match formatPhoneNumber (PaymentRequest.phone r) with
  | Throw x => Throw x
  | Ok formattedPhone =>
      match checked_amount (PaymentRequest.amount r) with
      | Throw x => Throw x
      | Ok amount =>
          Ok (mk shortcode generatePassword timestamp "CustomerPayBillOnline" amount
                formattedPhone shortcode formattedPhone (PaymentRequest.callbackUrl r)
                (truncate 12 (PaymentRequest.accountReference r))
                (truncate 13 (PaymentRequest.transactionDesc r)))
      end
  end.

End Payload.

End StkPush.

(** ** server.js: the landlord's update of a payment *)
Module Admin.
Import Server.

Record update_body : Type := mkUpdate {
  b_payment_status : jsval;
  b_notes : jsval
}.

Inductive admin_body : Type :=
| Message (message : string)
| Invalid_status (message : string) (allowedStatuses : list string)
| Updated (message : string) (paymentId : Z) (newStatus : jsval).

Record admin_response : Type := mkAdmin { admin_code : Z; admin_json : admin_body }.

Definition allowedStatuses : list string := ["pending"; "completed"; "failed"; "refunded"].

(** [allowedStatuses.includes(v)] *)
Definition allowed (v : jsval) : bool :=
  match v with
  | JStr s => existsb (String.eqb s) allowedStatuses
  | _ => false
  end.

Section Update.

(** [UPDATE payments SET payment_status = ?, notes = ?,
     updated_at = CURRENT_TIMESTAMP WHERE id = ?], with [affectedRows] for
    result. The statement names a column that the tables of server.js do
    not declare; what it does is left to the store. *)
Variable update_payment : jsval -> jsval -> Z -> db -> Z * db.

(** [checkRole(role)] *)
Definition checkRole {R} (role : string) (deny : admin_response -> R) (u : user)
  (next : M R) : M R :=
  if negb (String.eqb (u_role u) role)
  then ret (deny (mkAdmin 403 (Message ("Access denied. " ++ role ++ " only."))))
  else next.

(** The handler of [PUT /api/payments/:id]. *)
Definition update_status (paymentId : Z) (b : update_body) : M admin_response :=
  try_catch
    (if negb (allowed (b_payment_status b))
     then ret (mkAdmin 400 (Invalid_status "Invalid payment status" allowedStatuses))
     else
       let notes := js_or (b_notes b) JNull in
       affectedRows <- execute [b_payment_status b; notes; JNum paymentId]
                         (update_payment (b_payment_status b) notes paymentId) ;;
       if affectedRows =? 0
       then ret (mkAdmin 404 (Message "Payment not found"))
       else ret (mkAdmin 200 (Updated "Payment status updated successfully" paymentId
                                (b_payment_status b))))
    (fun _ => ret (mkAdmin 500 (Message "Server error"))).

(** The route: [authenticateToken], [checkRole('landlord')], the handler;
    on the left what the middleware of the other routes answers. *)
Definition put_payment (jwt_verify : string -> outcome user) (req : request update_body)
  (paymentId : Z) : M (response + admin_response) :=
  authenticateToken jwt_verify inl req
    (fun u => checkRole "landlord" inr u
                (res <- update_status paymentId (body req) ;; ret (inr res))).

End Update.

End Admin.

(** ** Vocabulary of the further properties *)
Module Further.
Import MpesaService.
Import Server.

(** The [Value] of the last item of the metadata that bears [name],
    [undefined] when there is none. *)
Fixpoint last_value (name : string) (items : list Item.t) (found : jsval) : jsval :=
  match items with
  | [] => found
  | item :: rest =>
      last_value name rest
        (if strict_eq (Item.Name item) (JStr name) then Item.Value item else found)
  end.

(** No field of the settlement is set. *)
Definition no_metadata (st : Status.t) : Prop :=
  Status.Amount st = JUndefined /\ Status.MpesaReceiptNumber st = JUndefined /\
  Status.TransactionDate st = JUndefined /\ Status.PhoneNumber st = JUndefined /\
  Status.Balance st = JUndefined.

(** What a resolution never changes in a row. *)
Definition same_payment (x x' : payment) : Prop :=
  id x' = id x /\ tenant_id x' = tenant_id x /\ property_id x' = property_id x /\
  amount x' = amount x /\ payment_date x' = payment_date x /\
  payment_method x' = payment_method x.

(** The row that a successful initiation inserts. *)
Definition initiated_row (d : db) (tenant0 : tenant) (wholeAmount : jsnum) (today : string)
  (reference : jsval) (n : notes_t) : payment :=
  mkPayment (auto_increment d) (t_id tenant0) (t_property_id tenant0)
    (decimal_of wholeAmount) today "mpesa" pending (varchar_of reference) (Some n).

(** The text holds no space. *)
Fixpoint no_space (s : string) : bool :=
  match s with
  | EmptyString => true
  | String c t => negb (Ascii.eqb c " ") && no_space t
  end.

(** What [authenticateToken] answers without a token, and to a token that
    [jwt.verify] refuses. *)
Definition no_token : response :=
  mkResponse 401 (Denied "No token, authorization denied"
                    "Please login to access this resource").

Definition bad_token (err : exn) : response :=
  mkResponse 403 (Denied "Token is not valid" (message_of err)).

(** No row carries the next [id]. *)
Definition next_id_free (d : db) : Prop :=
  forall p, In p (rows d) -> id p <> auto_increment d.

End Further.
Import Further.

(** Further sample data. *)
Module Cases.
Import MpesaService.
Import Server.

(** A notification whose [ResultCode] is the text "0". *)
Definition textual_success : request (option StkCallback.t) :=
  mkRequest None
    (Some (StkCallback.mk (JStr "29115-34620561-1") (JStr "ws_CO_191220191020363925")
             (JStr "0") (JStr "The service request is processed successfully.") None)).

(** A verifier that takes every token for that of a landlord. *)
Definition landlord_for (token : string) : outcome user := Ok (mkUser 9 "landlord").

(** An update that marks the payment refunded, whatever it is asked. *)
Definition mark_refunded (status notes : jsval) (paymentId : Z) (d : db) : Z * db :=
  (1, snd (update_where_id paymentId (set_status refunded (NotesText "refund")) d)).

End Cases.

(* ------------------------------------------------------------------ *)
(** * Properties *)

Import MpesaService.
Import Server.

(** ** Phone normalisation *)

(** C8: [formatPhoneNumber] maps each of 0712345678, 712345678 and
    254712345678 to 254712345678. *)
Theorem formatPhoneNumber_samples :
  formatPhoneNumber "0712345678" = Ok "254712345678" /\
  formatPhoneNumber "712345678" = Ok "254712345678" /\
  formatPhoneNumber "254712345678" = Ok "254712345678".
Proof. repeat split; reflexivity. Qed.

Lemma strip_non_digits_all_digits (s : string) :
  all_digits (strip_non_digits s) = true.
Proof.
  induction s as [|c t IH]; simpl; [reflexivity|].
  destruct (is_digit c) eqn:D; simpl; [rewrite D|]; exact IH.
Qed.

Lemma strip_non_digits_idem (s : string) :
  strip_non_digits (strip_non_digits s) = strip_non_digits s.
Proof.
  induction s as [|c t IH]; simpl; [reflexivity|].
  destruct (is_digit c) eqn:D; simpl; [rewrite D, IH|]; auto.
Qed.

Lemma all_digits_app (a b : string) :
  all_digits (a ++ b) = all_digits a && all_digits b.
Proof.
  induction a as [|c t IH]; simpl; [reflexivity|].
  rewrite IH, andb_assoc; reflexivity.
Qed.

Lemma length_app (a b : string) :
  String.length (a ++ b) = (String.length a + String.length b)%nat.
Proof. induction a as [|c t IH]; simpl; [reflexivity|]. rewrite IH; reflexivity. Qed.

Lemma prefix_app (p s : string) : String.prefix p (p ++ s) = true.
Proof.
  induction p as [|c t IH]; simpl; [destruct s; reflexivity|].
  destruct (ascii_dec c c); [exact IH | congruence].
Qed.

Lemma startsWith_cons (c : ascii) (t : string) (a : ascii) :
  startsWith (String c t) (String a EmptyString) = Ascii.eqb a c.
Proof.
  unfold startsWith; simpl.
  destruct (ascii_dec a c) as [->|N].
  - rewrite Ascii.eqb_refl; destruct t; reflexivity.
  - symmetry; apply Ascii.eqb_neq; exact N.
Qed.

(** What [formatPhoneNumber] does, by cases on the digits of its input. *)
Lemma formatPhoneNumber_cases (phone : string) :
  let d := strip_non_digits phone in
  (accepted_digits d = true /\ formatPhoneNumber phone = Ok (normalized phone)
   /\ String.length (normalized phone) = 12%nat
   /\ startsWith (normalized phone) "254" = true
   /\ all_digits (normalized phone) = true)
  \/ (accepted_digits d = false /\ exists m, formatPhoneNumber phone = Throw (Error m)).
Proof.
  intro d. pose proof (strip_non_digits_all_digits phone) as AD. fold d in AD.
  unfold formatPhoneNumber, normalized, accepted_digits. fold d.
  destruct (startsWith d "0") eqn:P0.
  - (* trunk digit *)
    destruct d as [|c t]; [discriminate|].
    simpl substring_from. simpl String.length.
    destruct (Nat.eqb (S (String.length t)) 10) eqn:L.
    + left. apply Nat.eqb_eq in L.
      assert (E : Nat.eqb (S (S (S (String.length t)))) 12 = true) by (apply Nat.eqb_eq; lia).
      rewrite E. simpl negb. cbv iota.
      repeat split; try reflexivity.
      * apply Nat.eqb_eq in E. exact E.
      * apply (prefix_app "254").
      * simpl in AD. apply andb_true_iff in AD. destruct AD as [_ AD].
        rewrite all_digits_app, AD. reflexivity.
    + right. apply Nat.eqb_neq in L.
      assert (E : Nat.eqb (S (S (S (String.length t)))) 12 = false) by (apply Nat.eqb_neq; lia).
      rewrite E. simpl negb. cbv iota.
      rewrite startsWith_cons in P0. apply Ascii.eqb_eq in P0. subst c.
      split; [reflexivity | eauto].
  - destruct (startsWith d "7" || startsWith d "1") eqn:P71.
    + (* subscriber number alone *)
      rewrite (length_app "254" d). simpl String.length.
      assert (P254 : startsWith d "254" = false).
      { destruct d as [|c t]; [reflexivity|].
        rewrite !startsWith_cons in P71.
        apply orb_true_iff in P71.
        destruct P71 as [E|E]; apply Ascii.eqb_eq in E; subst c; reflexivity. }
      rewrite P254. simpl.
      destruct (Nat.eqb (String.length d) 9) eqn:L.
      * left. apply Nat.eqb_eq in L. simpl.
        repeat split; try reflexivity.
        -- rewrite L; reflexivity.
        -- unfold startsWith. destruct d; reflexivity.
        -- exact AD.
      * right. simpl. split; [reflexivity | eauto].
    + simpl.
      destruct (startsWith d "254") eqn:P254; simpl.
      * destruct (Nat.eqb (String.length d) 12) eqn:L; simpl.
        -- left. apply Nat.eqb_eq in L. repeat split; try assumption; reflexivity.
        -- right. split; [reflexivity | eauto].
      * right. split; [reflexivity | eauto].
Qed.

(** C9, refuted: the twelve digits 812345678901 are rejected, for their
    prefix. *)
Lemma InvalidPhoneFormat_claim_fails : ~ InvalidPhoneFormat_claim.
Proof.
  intro H. destruct (H "812345678901") as [H1 _].
  assert (F : exists e, formatPhoneNumber "812345678901" = Throw e) by (eexists; reflexivity).
  destruct (H1 F) as [L | D].
  - apply L. reflexivity.
  - discriminate D.
Qed.

(** The failures of [formatPhoneNumber], each with its message. *)
Lemma formatPhoneNumber_failures (phone : string) :
  let d := strip_non_digits phone in
  (known_prefix d = false ->
     formatPhoneNumber phone = Throw (Error "Invalid phone number format")) /\
  (known_prefix d = true -> accepted_digits d = false ->
     formatPhoneNumber phone
     = Throw (Error "Phone number must be 12 digits in 254XXXXXXXXX format")) /\
  (accepted_digits d = true -> known_prefix d = true).
Proof.
  intro d. unfold formatPhoneNumber, known_prefix, accepted_digits. fold d.
  destruct (startsWith d "0") eqn:P0; cbn [orb andb].
  - destruct d as [|c t]; [discriminate P0|].
    simpl substring_from. simpl String.length.
    split; [discriminate|]. split; [|reflexivity]. intros _ L.
    assert (E : Nat.eqb (S (S (S (String.length t)))) 12 = false).
    { apply Nat.eqb_neq. intros C. injection C as C.
      assert (T : Nat.eqb (S (String.length t)) 10 = true) by (apply Nat.eqb_eq; lia).
      rewrite T in L. discriminate L. }
    rewrite E. reflexivity.
  - destruct (startsWith d "7" || startsWith d "1") eqn:P71; cbn [orb andb].
    + rewrite (length_app "254" d). simpl String.length.
      split; [discriminate|]. split; [|reflexivity]. intros _ L.
      assert (P254 : startsWith d "254" = false).
      { destruct d as [|c t]; [reflexivity|].
        rewrite !startsWith_cons in P71.
        apply orb_true_iff in P71.
        destruct P71 as [E|E]; apply Ascii.eqb_eq in E; subst c; reflexivity. }
      rewrite P254 in L. cbn [orb andb] in L. rewrite orb_false_r in L.
      assert (E : Nat.eqb (3 + String.length d) 12 = false).
      { apply Nat.eqb_neq. intros C. apply Nat.eqb_neq in L. lia. }
      rewrite E. reflexivity.
    + destruct (startsWith d "254") eqn:P254; cbn [negb orb andb].
      * split; [discriminate|]. split; [|reflexivity]. intros _ L.
        rewrite L. reflexivity.
      * split; [reflexivity|]. split; discriminate.
Qed.

(** C9, amended: [formatPhoneNumber] drops every character that is not a
    digit and returns exactly when the digits left are 0 and nine more
    digits, or nine digits that begin with 7 or 1, or 254 and nine more
    digits. It throws "Invalid phone number format" exactly when the
    digits begin with none of 0, 7, 1 and 254, and "Phone number must be
    12 digits in 254XXXXXXXXX format" exactly when they begin with one of
    these and the prefixed result is not 12 long. What it returns is 12
    digits long and begins with 254. Characters that are not digits never
    make the call fail. *)
Theorem formatPhoneNumber_accepts_iff (phone : string) :
  let d := strip_non_digits phone in
  ((exists r, formatPhoneNumber phone = Ok r) <-> accepted_digits d = true) /\
  (formatPhoneNumber phone = Throw (Error "Invalid phone number format")
     <-> known_prefix d = false) /\
  (formatPhoneNumber phone
     = Throw (Error "Phone number must be 12 digits in 254XXXXXXXXX format")
     <-> known_prefix d = true /\ accepted_digits d = false) /\
  (forall r, formatPhoneNumber phone = Ok r ->
     String.length r = 12%nat /\ startsWith r "254" = true /\ all_digits r = true) /\
  formatPhoneNumber phone = formatPhoneNumber (strip_non_digits phone).
Proof.
  intro d.
  pose proof (formatPhoneNumber_cases phone) as C. cbv zeta in C. fold d in C.
  destruct (formatPhoneNumber_failures phone) as (Fp & Fl & Ak). fold d in Fp, Fl, Ak.
  assert (I : formatPhoneNumber phone = formatPhoneNumber (strip_non_digits phone)).
  { unfold formatPhoneNumber. rewrite strip_non_digits_idem. reflexivity. }
  destruct C as [(A & F & L & P & D) | (A & m & F)].
  - pose proof (Ak A) as K.
    split; [|split; [|split; [|split]]]; try exact I.
    + split; [intros _; exact A | intros _; eauto].
    + split; [intros H; congruence | intros H; congruence].
    + split; [intros H; congruence | intros [_ H]; congruence].
    + intros r Hr. rewrite F in Hr. injection Hr as <-. auto.
  - split; [|split; [|split; [|split]]]; try exact I.
    + split; [intros [r Hr]; congruence | intros Hf; congruence].
    + split; [|exact Fp]. intros H.
      destruct (known_prefix d) eqn:K; [|reflexivity].
      rewrite (Fl eq_refl A) in H. discriminate H.
    + split; [|intros [K _]; exact (Fl K A)]. intros H.
      split; [|exact A].
      destruct (known_prefix d) eqn:K; [reflexivity|].
      rewrite (Fp eq_refl) in H. discriminate H.
    + intros r Hr. congruence.
Qed.

(** ** Rules of the handlers' monad *)

Section Rules.
Context {A B : Type}.

Lemma hoare_ret (P : world -> Prop) (a : A) (Q : outcome A -> world -> Prop) :
  (forall w, P w -> Q (Ok a) w) -> hoare P (ret a) Q.
Proof. intros H w HP. apply H, HP. Qed.

Lemma hoare_throw (P : world -> Prop) (x : exn) (Q : outcome A -> world -> Prop) :
  (forall w, P w -> Q (Throw x) w) -> hoare P (throw x) Q.
Proof. intros H w HP. apply H, HP. Qed.

Lemma hoare_lift (P : world -> Prop) (r : outcome A) (Q : outcome A -> world -> Prop) :
  (forall w, P w -> Q r w) -> hoare P (lift r) Q.
Proof. intros H w HP. apply H, HP. Qed.

Lemma hoare_bind (P : world -> Prop) (m : M A) (k : A -> M B)
  (R : A -> world -> Prop) (Q : outcome B -> world -> Prop) :
  hoare P m (fun r w => match r with Ok a => R a w | Throw x => Q (Throw x) w end) ->
  (forall a, hoare (R a) (k a) Q) ->
  hoare P (bind m k) Q.
Proof.
  intros Hm Hk w HP. specialize (Hm w HP). unfold bind.
  destruct (m w) as [[a|x] w']; simpl in *.
  - apply Hk, Hm.
  - exact Hm.
Qed.

Lemma hoare_try_catch (P : world -> Prop) (m : M A) (h : exn -> M A)
  (R : exn -> world -> Prop) (Q : outcome A -> world -> Prop) :
  hoare P m (fun r w => match r with Ok a => Q (Ok a) w | Throw x => R x w end) ->
  (forall x, hoare (R x) (h x) Q) ->
  hoare P (try_catch m h) Q.
Proof.
  intros Hm Hh w HP. specialize (Hm w HP). unfold try_catch.
  destruct (m w) as [[a|x] w']; simpl in *.
  - exact Hm.
  - apply Hh, Hm.
Qed.

Lemma hoare_weaken (P P' : world -> Prop) (m : M A) (Q Q' : outcome A -> world -> Prop) :
  hoare P' m Q' -> (forall w, P w -> P' w) -> (forall r w, Q' r w -> Q r w) ->
  hoare P m Q.
Proof. intros H HP HQ w Hw. apply HQ, H, HP, Hw. Qed.

(** A call to the driver either rejects and leaves the store as it is, or
    runs its statement; either way it takes one element of [faults]. *)
Lemma hoare_driver (P : world -> Prop) (stmt : db -> A * db)
  (Q : outcome A -> world -> Prop) :
  (forall w x, P w -> hd false (faults w) = true ->
     Q (Throw x) (mkWorld (store w) (tl (faults w)))) ->
  (forall w, P w -> hd false (faults w) = false ->
     Q (Ok (fst (stmt (store w)))) (mkWorld (snd (stmt (store w))) (tl (faults w)))) ->
  hoare P (driver stmt) Q.
Proof.
  intros Hx Hok w HP. unfold driver.
  specialize (Hx w). specialize (Hok w HP).
  destruct (faults w) as [|[|] fs]; simpl in *.
  - destruct (stmt (store w)); simpl in *. apply Hok; reflexivity.
  - apply Hx; [exact HP | reflexivity].
  - destruct (stmt (store w)); simpl in *. apply Hok; reflexivity.
Qed.

Lemma hoare_execute (P : world -> Prop) (params : list jsval) (stmt : db -> A * db)
  (Q : outcome A -> world -> Prop) :
  (forall w x, P w -> Q (Throw x) w) ->
  (forall w x, P w -> hd false (faults w) = true ->
     Q (Throw x) (mkWorld (store w) (tl (faults w)))) ->
  (forall w, P w -> has_undefined params = false -> hd false (faults w) = false ->
     Q (Ok (fst (stmt (store w)))) (mkWorld (snd (stmt (store w))) (tl (faults w)))) ->
  hoare P (execute params stmt) Q.
Proof.
  intros Hu Hx Hok. unfold execute.
  destruct (has_undefined params) eqn:U.
  - apply hoare_throw. intros w HP. apply Hu, HP.
  - apply hoare_driver; [exact Hx|]. intros w HP F. apply Hok; auto.
Qed.

End Rules.

(** A handler whose postcondition holds of every outcome. *)
Lemma hoare_any {A} (P : world -> Prop) (m : M A) (Q : outcome A -> world -> Prop) :
  (forall r w, Q r w) -> hoare P m Q.
Proof. intros H w _. apply H. Qed.

(** A step whose outcome the postcondition does not look at. *)
Ltac skip_step :=
  apply hoare_any; intros [|]; intros; try discriminate; auto.

(** ** The callback *)

Lemma read_items_keeps (pf : jsval -> jsval) (items : list Item.t) (st st' : Status.t) :
  read_items pf st items = Ok st' ->
  Status.CheckoutRequestID st' = Status.CheckoutRequestID st /\
  Status.ResultCode st' = Status.ResultCode st /\
  Status.MerchantRequestID st' = Status.MerchantRequestID st /\
  Status.ResultDesc st' = Status.ResultDesc st.
Proof.
  revert st. induction items as [|item rest IH]; simpl; intros st H.
  - injection H as <-. auto.
  - destruct (read_item pf st item) as [s1|x] eqn:R; [|discriminate].
    destruct (IH _ H) as (H1 & H2 & H3 & H4).
    rewrite H1, H2, H3, H4. clear H IH.
    unfold read_item in R.
    repeat match type of R with
    | (if ?c then _ else _) = _ => destruct c
    | match ?t with Ok _ => _ | Throw _ => _ end = _ => destruct t
    end; try discriminate; injection R as <-; simpl; auto.
Qed.

Lemma processCallback_keeps (pf : jsval -> jsval) (cb : StkCallback.t) (st : Status.t) :
  processCallback pf (Some cb) = Ok st ->
  Status.CheckoutRequestID st = StkCallback.CheckoutRequestID cb /\
  toString (StkCallback.ResultCode cb) = Ok (Status.ResultCode st) /\
  Status.MerchantRequestID st = StkCallback.MerchantRequestID cb /\
  Status.ResultDesc st = StkCallback.ResultDesc cb.
Proof.
  unfold processCallback. intros H.
  destruct (toString (StkCallback.ResultCode cb)) as [rc|x] eqn:T; [|discriminate].
  destruct (strict_eq (StkCallback.ResultCode cb) (JNum 0)) eqn:Z0;
    destruct (StkCallback.CallbackMetadata cb) as [items|] eqn:MD;
    try (injection H as <-; simpl; auto).
  destruct (read_items pf _ items) as [s1|x] eqn:R; [|discriminate].
  injection H as <-. apply read_items_keeps in R. simpl in R. intuition congruence.
Qed.

Lemma callback_accepted_lemma (parseFloat : jsval -> jsval)
  (req : request (option StkCallback.t)) (w : world) :
  fst (mpesa_callback parseFloat req w) = Ok accepted.
Proof.
  revert w.
  enough (H : hoare (fun _ => True) (mpesa_callback parseFloat req)
                (fun r _ => r = Ok accepted)).
  { intros w. apply (H w I). }
  unfold mpesa_callback.
  apply hoare_try_catch with (R := fun _ _ => True).
  - eapply hoare_bind with (R := fun _ _ => True); [apply hoare_any; intros [|]; auto|].
    intros paymentStatus.
    eapply hoare_bind with (R := fun _ _ => True); [apply hoare_any; intros [|]; auto|].
    intros payments.
    eapply hoare_bind with (R := fun _ _ => True); [apply hoare_any; intros [|]; auto|].
    intros _. apply hoare_ret. reflexivity.
  - intros x. apply hoare_ret. reflexivity.
Qed.

(** C5: whatever the request and the state of the store, the callback
    route answers [{ResultCode: 0, ResultDesc: "Accepted"}] with status
    200 and never throws: when the record is completed, when it is failed,
    when no record matches, and when the decoding or a store call throws. *)
Theorem callback_always_accepted (parseFloat : jsval -> jsval)
  (req : request (option StkCallback.t)) (w : world) :
  fst (post_callback parseFloat req w) = Ok accepted.
Proof. apply callback_accepted_lemma. Qed.

Lemma filter_none {T} (f : T -> bool) (l : list T) :
  (forall x, In x l -> f x = false) -> filter f l = [].
Proof.
  induction l as [|a l IH]; simpl; intros H; [reflexivity|].
  rewrite (H a (or_introl eq_refl)). apply IH. intros x Hx. apply H. right. exact Hx.
Qed.

Lemma filter_nil_all {T} (f : T -> bool) (l : list T) :
  filter f l = [] -> forall x, In x l -> f x = false.
Proof.
  intros H x Hx. destruct (f x) eqn:E; [|reflexivity].
  assert (I : In x (filter f l)) by (apply filter_In; auto).
  rewrite H in I. destruct I.
Qed.

(** A callback whose [CheckoutRequestID] matches no payment leaves the
    store as it is. *)
Lemma callback_miss (parseFloat : jsval -> jsval)
  (req : request (option StkCallback.t)) (w : world) :
  (forall cb p, body req = Some cb -> In p (rows (store w)) ->
     reference_matches (StkCallback.CheckoutRequestID cb) p = false) ->
  store (snd (mpesa_callback parseFloat req w)) = store w.
Proof.
  intros Hno.
  unfold mpesa_callback, try_catch, bind, lift.
  destruct (processCallback parseFloat (body req)) as [st|x] eqn:PC; [|reflexivity].
  destruct (body req) as [cb|] eqn:Bd; [|discriminate PC].
  destruct (processCallback_keeps _ _ _ PC) as (Hcid & _).
  unfold execute. destruct (has_undefined _); [reflexivity|].
  unfold driver. destruct (faults w) as [|[|] fs]; try reflexivity.
  - unfold select_by_reference. rewrite Hcid.
    rewrite filter_none by (intros p Hp; apply (Hno cb p eq_refl Hp)). reflexivity.
  - unfold select_by_reference. rewrite Hcid.
    rewrite filter_none by (intros p Hp; apply (Hno cb p eq_refl Hp)). reflexivity.
Qed.

(** C6: when the [CheckoutRequestID] of a callback matches the
    [reference_number] of no payment, the callback route leaves the store
    as it is (no row is created or changed) and answers the fixed
    acknowledgement, without throwing. *)
Theorem unknown_checkout_request_ignored (parseFloat : jsval -> jsval)
  (req : request (option StkCallback.t)) (w : world) :
  (forall cb p, body req = Some cb -> In p (rows (store w)) ->
     reference_matches (StkCallback.CheckoutRequestID cb) p = false) ->
  fst (post_callback parseFloat req w) = Ok accepted /\
  store (snd (post_callback parseFloat req w)) = store w.
Proof.
  intros Hno. split; [apply callback_accepted_lemma | apply callback_miss, Hno].
Qed.

Lemma rows_set_rows (d : db) (rs : list payment) : rows (set_rows d rs) = rs.
Proof. unfold rows, set_rows. destruct (working d); reflexivity. Qed.

Lemma rows_update_where_id (i : Z) (f : payment -> payment) (d : db) :
  rows (snd (update_where_id i f d)) = updated i f (rows d).
Proof. unfold update_where_id. simpl. apply rows_set_rows. Qed.

Lemma filter_head_In {T} (f : T -> bool) (l : list T) (x : T) (rest : list T) :
  filter f l = x :: rest -> In x l /\ f x = true.
Proof.
  intros H. assert (I : In x (filter f l)) by (rewrite H; left; reflexivity).
  apply filter_In in I. exact I.
Qed.

(** What the callback does to the rows: nothing, or the update of the rows
    that carry the [id] of the first match of [CheckoutRequestID]. *)
Lemma callback_rows (parseFloat : jsval -> jsval)
  (req : request (option StkCallback.t)) (w : world) :
  rows (store (snd (mpesa_callback parseFloat req w))) = rows (store w)
  \/ exists cb st p rest,
       body req = Some cb /\ processCallback parseFloat (Some cb) = Ok st /\
       filter (reference_matches (StkCallback.CheckoutRequestID cb)) (rows (store w))
         = p :: rest /\
       rows (store (snd (mpesa_callback parseFloat req w))) =
         updated (id p) (callback_write st) (rows (store w)).
Proof.
  set (Post := fun w' : world =>
    rows (store w') = rows (store w)
    \/ exists cb st p rest,
         body req = Some cb /\ processCallback parseFloat (Some cb) = Ok st /\
         filter (reference_matches (StkCallback.CheckoutRequestID cb)) (rows (store w))
           = p :: rest /\
         rows (store w') = updated (id p) (callback_write st) (rows (store w))).
  enough (H : hoare (fun w' => w' = w) (mpesa_callback parseFloat req)
                (fun _ w' => Post w')).
  { apply (H w eq_refl). }
  unfold mpesa_callback.
  apply hoare_try_catch with (R := fun _ w' => Post w').
  - apply hoare_bind with
      (R := fun st w' => w' = w /\ processCallback parseFloat (body req) = Ok st).
    { apply hoare_lift. intros w' ->.
      destruct (processCallback parseFloat (body req)); [auto | left; reflexivity]. }
    intros st.
    apply hoare_bind with
      (R := fun payments w' =>
              store w' = store w /\ processCallback parseFloat (body req) = Ok st /\
              payments = filter (reference_matches (Status.CheckoutRequestID st))
                           (rows (store w))).
    { apply hoare_execute.
      - intros w' x [-> _]. left; reflexivity.
      - intros w' x [-> _] _. left; reflexivity.
      - intros w' [-> PC] _ _. simpl. auto. }
    intros payments.
    apply hoare_bind with (R := fun _ w' => Post w').
    { destruct payments as [|p rest].
      - apply hoare_ret. intros w' (E & _ & _). left. rewrite E. reflexivity.
      - assert (Hit : forall w', store w' = store w /\
                  processCallback parseFloat (body req) = Ok st /\
                  p :: rest = filter (reference_matches (Status.CheckoutRequestID st))
                                (rows (store w)) ->
                  Post (mkWorld (snd (update_where_id (id p) (callback_write st) (store w')))
                          (tl (faults w')))).
        { intros w' (E & PC & F). right.
          destruct (body req) as [cb|] eqn:Bd; [|discriminate PC].
          destruct (processCallback_keeps _ _ _ PC) as (Hcid & _).
          exists cb, st, p, rest. rewrite <- Hcid.
          repeat split; auto. cbn [store]. rewrite rows_update_where_id, E. reflexivity. }
        unfold callback_write in Hit.
        destruct (String.eqb (Status.ResultCode st) "0").
        + apply hoare_execute.
          * intros w' x (E & _). left. rewrite E. reflexivity.
          * intros w' x (E & _) _. left. cbn [store]. rewrite E. reflexivity.
          * intros w' H _ _. apply (Hit w' H).
        + apply hoare_execute.
          * intros w' x (E & _). left. rewrite E. reflexivity.
          * intros w' x (E & _) _. left. cbn [store]. rewrite E. reflexivity.
          * intros w' H _ _. apply (Hit w' H). }
    intros _. apply hoare_ret. auto.
  - intros x. apply hoare_ret. auto.
Qed.

(** By contrast the initiation and the status routes go through
    [authenticateToken]: without an [Authorization] header they answer 401
    and leave the connection as it is, whatever the body. *)
Lemma other_routes_need_a_token (StringToNumber : string -> jsnum) (e : env)
  (jwt_verify : string -> outcome user) (b : initiate_body) (paymentId : Z) (w : world) :
  fst (post_initiate StringToNumber jwt_verify e (mkRequest None b) w)
    = Ok (mkResponse 401 (Denied "No token, authorization denied"
                            "Please login to access this resource"), None) /\
  snd (post_initiate StringToNumber jwt_verify e (mkRequest None b) w) = w /\
  fst (get_status jwt_verify e (mkRequest None tt) paymentId w)
    = Ok (mkResponse 401 (Denied "No token, authorization denied"
                            "Please login to access this resource")) /\
  snd (get_status jwt_verify e (mkRequest None tt) paymentId w) = w.
Proof. repeat split. Qed.

(** ** The amount check of the initiation *)

Lemma Qle_bool_inject (a b : Z) : Qle_bool (inject_Z a) (inject_Z b) = (a <=? b).
Proof.
  destruct (a <=? b) eqn:L.
  - apply Qle_bool_iff. rewrite <- Zle_Qle. apply Z.leb_le, L.
  - destruct (Qle_bool (inject_Z a) (inject_Z b)) eqn:E; [|reflexivity].
    apply Qle_bool_iff in E. rewrite <- Zle_Qle in E. apply Z.leb_le in E. congruence.
Qed.

Lemma Qfloor_lt_iff (q : Q) (z : Z) : Qfloor q < z <-> (q < inject_Z z)%Q.
Proof.
  split; intros H.
  - apply Qlt_le_trans with (inject_Z (Qfloor q + 1)).
    + apply Qlt_floor.
    + rewrite <- Zle_Qle. lia.
  - rewrite Zlt_Qlt. apply Qle_lt_trans with q; [apply Qfloor_le | exact H].
Qed.

Lemma num_lt_floor (q : Q) (z : Z) :
  num_lt (Math_floor (Fin q)) (of_Z z) = true <-> (q < inject_Z z)%Q.
Proof.
  unfold num_lt, Math_floor, of_Z. rewrite Qle_bool_inject, <- Qfloor_lt_iff.
  rewrite negb_true_iff, Z.leb_gt. reflexivity.
Qed.


Lemma Math_floor_idem (x : jsnum) : Math_floor (Math_floor x) = Math_floor x.
Proof.
  destruct x as [| | |q]; try reflexivity.
  unfold Math_floor. rewrite Qfloor_Z. reflexivity.
Qed.





Section Amount.

Variable StringToNumber : string -> jsnum.
Variables (e : env) (u : user) (req : request initiate_body) (w : world).

Let amount := b_amount (body req).
Let wholeAmount := Math_floor (Number_of StringToNumber amount).




End Amount.




(** The boundary, run on the sample tenant: 500000 is initiated (201),
    500001 is refused; an amount that came as the text "0" is refused for
    its range, when [Number] reads it as 0. *)
Example ceiling_boundary :
  (exists data t, fst (initiate Sample.text_is_NaN (Sample.env_of Sample.gateway_ok)
                         Sample.tenant_user (Sample.pay 500000) Sample.empty_world)
                  = Ok (mkResponse 201 (Initiated data), t)
                  /\ i_amount data = of_Z 500000) /\
  fst (initiate Sample.text_is_NaN (Sample.env_of Sample.gateway_ok) Sample.tenant_user
         (Sample.pay 500001) Sample.empty_world) = Ok (amount_rejection, None) /\
  fst (initiate (fun _ => of_Z 0) (Sample.env_of Sample.gateway_ok) Sample.tenant_user
         (mkRequest (Some "Bearer t")
            (mkInitiate (J_string "0") (Some "0712345678") (Some "Rent")))
         Sample.empty_world) = Ok (amount_rejection, None).
Proof.
  split; [eexists; eexists; split; reflexivity | split; reflexivity].
Qed.

(** ** The initiation and its transaction *)


(** *** Handlers cut at their awaits *)

Lemma run_await {X} (call : M X) (w : world) : run (await call) w = call w.
Proof. unfold await. cbn. destruct (call w) as [[a|x] w']; reflexivity. Qed.

Lemma run_sync {X} (r : outcome X) (w : world) : run (sync r) w = lift r w.
Proof. destruct r; reflexivity. Qed.

Lemma run_jbind {A B} (j : job A) (k : A -> job B) (w : world) :
  run (jbind j k) w = bind (run j) (fun a => run (k a)) w.
Proof.
  revert w. induction j as [a|x|X call h IH]; intros w; try reflexivity.
  cbn. unfold bind. cbn. destruct (call w) as [r w']. rewrite IH. reflexivity.
Qed.

Lemma run_jcatch {A} (j : job A) (h : exn -> job A) (w : world) :
  run (jcatch j h) w = try_catch (run j) (fun x => run (h x)) w.
Proof.
  revert w. induction j as [a|x|X call k IH]; intros w; try reflexivity.
  cbn. unfold try_catch. cbn. destruct (call w) as [r w']. rewrite IH. reflexivity.
Qed.

Lemma run_jbind_as {A B} (j : job A) (k : A -> job B) (m : M A) (k' : A -> M B) :
  (forall w, run j w = m w) -> (forall a w, run (k a) w = k' a w) ->
  forall w, run (jbind j k) w = bind m k' w.
Proof.
  intros Hj Hk w. rewrite run_jbind. unfold bind. rewrite Hj.
  destruct (m w) as [[a|x] w']; [apply Hk | reflexivity].
Qed.

Lemma run_jcatch_as {A} (j : job A) (h : exn -> job A) (m : M A) (h' : exn -> M A) :
  (forall w, run j w = m w) -> (forall x w, run (h x) w = h' x w) ->
  forall w, run (jcatch j h) w = try_catch m h' w.
Proof.
  intros Hj Hh w. rewrite run_jcatch. unfold try_catch. rewrite Hj.
  destruct (m w) as [[a|x] w']; [reflexivity | apply Hh].
Qed.

(** A job that runs alone is its handler. *)
Ltac alone :=
  repeat first
    [ progress intros
    | apply run_jcatch_as
    | apply run_jbind_as
    | apply run_await
    | apply run_sync
    | reflexivity
    | match goal with
      | |- context [match ?x with _ => _ end] => destruct x
      end ].

Lemma poll_job_alone (e : env) (cid : jsval) (pid : Z) (w : world) :
  run (poll_job e cid pid) w = checkAndUpdatePaymentStatus e cid pid w.
Proof.
  revert w. unfold poll_job, checkAndUpdatePaymentStatus. cbv zeta. alone.
Qed.






Section Initiation.

Variable StringToNumber : string -> jsnum.
Variables (e : env) (u : user) (req : request initiate_body) (w : world).
Hypothesis idle : working (store w) = None.




End Initiation.



(** The scenario of the spec: the sandbox gateway refuses the push; the
    answer is 500 and the store holds no payment. *)
Example gateway_refusal_rolls_back :
  let r := initiate Sample.text_is_NaN (Sample.env_of Sample.gateway_down) Sample.tenant_user
             (Sample.pay 500) Sample.empty_world in
  (exists m x, fst r = Ok (mkResponse 500 (Failure_error m x), None)) /\
  payments (store (snd r)) = [] /\ working (store (snd r)) = None.
Proof. cbv zeta. split; [eexists; eexists; reflexivity | split; reflexivity]. Qed.

(** ** Resolution: what the callback and the poll write *)

Lemma set_rows_set_rows (d : db) (a b : list payment) :
  set_rows (set_rows d a) b = set_rows d b.
Proof. unfold set_rows. destruct (working d); reflexivity. Qed.

Lemma callback_write_id (st : Status.t) (p : payment) : id (callback_write st p) = id p.
Proof. unfold callback_write. destruct (String.eqb _ _); reflexivity. Qed.

Lemma poll_write_id (cid : jsval) (st : Status.t) (p : payment) :
  id (poll_write cid st p) = id p.
Proof. unfold poll_write. destruct (String.eqb _ _); reflexivity. Qed.

Lemma callback_write_idem (st : Status.t) (p : payment) :
  callback_write st (callback_write st p) = callback_write st p.
Proof. unfold callback_write. destruct (String.eqb _ _); reflexivity. Qed.

Lemma poll_write_idem (cid : jsval) (st : Status.t) (p : payment) :
  poll_write cid st (poll_write cid st p) = poll_write cid st p.
Proof. unfold poll_write. destruct (String.eqb _ _); reflexivity. Qed.


Lemma poll_write_status (cid : jsval) (st : Status.t) (p : payment) :
  payment_status (poll_write cid st p) = written_status (Status.ResultCode st).
Proof. unfold poll_write, written_status. destruct (String.eqb _ _); reflexivity. Qed.

Lemma updated_idem (i : Z) (f : payment -> payment) (rs : list payment) :
  (forall p, id (f p) = id p) -> (forall p, f (f p) = f p) ->
  updated i f (updated i f rs) = updated i f rs.
Proof.
  intros Hid Hf. unfold updated. rewrite map_map. apply map_ext. intros p.
  destruct (id p =? i) eqn:E; [|rewrite E; reflexivity].
  rewrite Hid, E. apply Hf.
Qed.

(** The rows with a given [id] after an update. *)
Lemma filter_id_updated (i j : Z) (f : payment -> payment) (rs : list payment) :
  (forall p, id (f p) = id p) ->
  filter (fun p => id p =? i) (updated j f rs) =
  if i =? j then map f (filter (fun p => id p =? i) rs)
  else filter (fun p => id p =? i) rs.
Proof.
  intros Hid. unfold updated. induction rs as [|p rs IH]; simpl.
  - destruct (i =? j); reflexivity.
  - destruct (id p =? j) eqn:Ej.
    + rewrite Hid. destruct (id p =? i) eqn:Ei.
      * apply Z.eqb_eq in Ej, Ei. assert (Eij : (i =? j) = true) by (apply Z.eqb_eq; lia).
        rewrite Eij in *. simpl. rewrite IH. reflexivity.
      * rewrite IH. reflexivity.
    + destruct (id p =? i) eqn:Ei.
      * apply Z.eqb_neq in Ej. apply Z.eqb_eq in Ei.
        assert (Eij : (i =? j) = false) by (apply Z.eqb_neq; lia).
        rewrite Eij in *. rewrite IH. reflexivity.
      * rewrite IH. reflexivity.
Qed.

Lemma matched_not_undefined (cid : jsval) (p : payment) :
  reference_matches cid p = true -> has_undefined [cid] = false.
Proof. unfold reference_matches. destruct cid; simpl; try discriminate; reflexivity. Qed.

(** The callback with the store available: the notification is decoded, a
    payment matches, and its rows are rewritten. *)
Lemma callback_run (parseFloat : jsval -> jsval) (req : request (option StkCallback.t))
  (w : world) (st : Status.t) (p : payment) (rest : list payment) :
  faults w = [] ->
  processCallback parseFloat (body req) = Ok st ->
  filter (reference_matches (Status.CheckoutRequestID st)) (rows (store w)) = p :: rest ->
  (Status.ResultCode st = "0" -> Status.MpesaReceiptNumber st <> JUndefined) ->
  mpesa_callback parseFloat req w =
    (Ok accepted,
     mkWorld (set_rows (store w) (updated (id p) (callback_write st) (rows (store w)))) []).
Proof.
  intros Fw PC F Rc.
  destruct (filter_head_In _ _ _ _ F) as [_ Hm].
  unfold mpesa_callback, try_catch, bind, lift. rewrite PC.
  unfold execute at 1. rewrite (matched_not_undefined _ _ Hm).
  unfold driver at 1. rewrite Fw. unfold select_by_reference. rewrite F.
  unfold callback_write.
  destruct (String.eqb (Status.ResultCode st) "0") eqn:E.
  - apply String.eqb_eq in E. specialize (Rc E).
    unfold execute.
    assert (U : has_undefined [Status.MpesaReceiptNumber st; JNum (id p)] = false).
    { destruct (Status.MpesaReceiptNumber st); try reflexivity. contradiction. }
    rewrite U. unfold driver. cbn [faults store update_where_id]. reflexivity.
  - unfold execute. cbn [has_undefined existsb orb].
    unfold driver. cbn [faults store update_where_id]. reflexivity.
Qed.

(** The poll with the store available, in sandbox. *)
Lemma poll_run (e : env) (cid : jsval) (pid : Z) (w : world) :
  faults w = [] -> environment_of e = sandbox -> cid <> JUndefined ->
  exists st,
    checkPaymentStatus sandbox (gateway e) cid = Ok st /\
    checkAndUpdatePaymentStatus e cid pid w =
      (Ok st, mkWorld (set_rows (store w) (updated pid (poll_write cid st) (rows (store w)))) []).
Proof.
  intros Fw Es Hc.
  unfold checkAndUpdatePaymentStatus, bind, lift. rewrite Es.
  destruct (checkPaymentStatus sandbox (gateway e) cid) as [st|x] eqn:C.
  2:{ unfold checkPaymentStatus in C. destruct (success _); discriminate C. }
  exists st. split; [reflexivity|].
  unfold poll_write.
  destruct (String.eqb (Status.ResultCode st) "0").
  - assert (U : has_undefined [js_or (Status.MpesaReceiptNumber st) cid; JNum pid] = false).
    { unfold js_or.
      destruct (Status.MpesaReceiptNumber st) as [| |n|s0]; simpl;
        try (destruct cid; [contradiction | reflexivity ..]).
      - destruct (negb (n =? 0)); [reflexivity|].
        destruct cid; [contradiction | reflexivity ..].
      - destruct (negb (String.eqb s0 "")); [reflexivity|].
        destruct cid; [contradiction | reflexivity ..]. }
    unfold execute. rewrite U. unfold driver. rewrite Fw.
    cbn [update_where_id]. reflexivity.
  - unfold execute. cbn [has_undefined existsb orb].
    unfold driver. rewrite Fw. cbn [update_where_id]. reflexivity.
Qed.

(** What the poll does to the rows: nothing, or the update of the rows
    that carry [paymentId]. *)
Lemma poll_rows (e : env) (cid : jsval) (pid : Z) (w : world) :
  rows (store (snd (checkAndUpdatePaymentStatus e cid pid w))) = rows (store w)
  \/ exists st,
       checkPaymentStatus (environment_of e) (gateway e) cid = Ok st /\
       rows (store (snd (checkAndUpdatePaymentStatus e cid pid w))) =
         updated pid (poll_write cid st) (rows (store w)).
Proof.
  unfold checkAndUpdatePaymentStatus, bind, lift.
  destruct (checkPaymentStatus (environment_of e) (gateway e) cid) as [st|x];
    [|left; reflexivity].
  destruct (String.eqb (Status.ResultCode st) "0") eqn:E;
    unfold execute; (destruct (has_undefined _); [left; reflexivity|]);
    unfold driver; destruct (faults w) as [|[|] fs];
    try (left; reflexivity);
    right; exists st; (split; [reflexivity|]);
    unfold update_where_id, ret; cbn [snd store fst];
    rewrite rows_set_rows; unfold poll_write, updated; rewrite E; reflexivity.
Qed.

Lemma Forall2_updated (R : payment -> payment -> Prop) (i : Z) (f : payment -> payment)
  (rs : list payment) :
  (forall x, R x x) -> (forall x, R x (f x)) -> Forall2 R rs (updated i f rs).
Proof.
  intros Hr Hf. unfold updated. induction rs as [|p rs IH]; simpl; constructor; auto.
  destruct (id p =? i); auto.
Qed.

Lemma Forall2_same (R : payment -> payment -> Prop) (rs : list payment) :
  (forall x, R x x) -> Forall2 R rs rs.
Proof. intros Hr. induction rs; constructor; auto. Qed.

(** The status route reads the payments with their owner. *)
Lemma select_with_owner_In (pid : Z) (d : db) (p : payment) (uid : Z) :
  In (p, uid) (fst (select_with_owner pid d)) -> In p (rows d) /\ id p = pid.
Proof.
  unfold select_with_owner. simpl. intros H. apply in_flat_map in H.
  destruct H as (x & Hx & H). destruct (id x =? pid) eqn:E; [|contradiction].
  apply in_map_iff in H. destruct H as (t & Ht & _). injection Ht as -> _.
  split; [exact Hx | apply Z.eqb_eq, E].
Qed.

(** The status route does not touch a payment that is no longer pending. *)
Lemma status_route_terminal (e : env) (u : user) (pid : Z) (w : world) :
  (forall x, In x (rows (store w)) -> id x = pid -> terminal (payment_status x)) ->
  store (snd (payment_status_route e u pid w)) = store w.
Proof.
  intros T.
  enough (H : hoare (fun w' => w' = w) (payment_status_route e u pid)
                (fun _ w' => store w' = store w)).
  { apply (H w eq_refl). }
  unfold payment_status_route.
  apply hoare_try_catch with (R := fun _ w' => store w' = store w).
  2:{ intros x. apply hoare_ret. auto. }
  apply hoare_bind with
    (R := fun payments w' => store w' = store w /\
                             payments = fst (select_with_owner pid (store w))).
  { apply hoare_execute.
    - intros w' x ->. reflexivity.
    - intros w' x -> _. reflexivity.
    - intros w' -> _ _. cbn. auto. }
  intros [|[payment user_id] rest].
  { apply hoare_ret. intros w' [E _]. exact E. }
  destruct (negb (user_id =? u_id u)).
  { apply hoare_ret. intros w' [E _]. exact E. }
  destruct (is_pending (payment_status payment)) eqn:Pe.
  - apply hoare_weaken with (P' := fun _ => False) (Q' := fun _ w' => store w' = store w).
    + intros w' [].
    + intros w' [_ Hp].
      assert (Hin : In (payment, user_id) (fst (select_with_owner pid (store w))))
        by (rewrite <- Hp; left; reflexivity).
      apply select_with_owner_In in Hin. destruct Hin as [Hin Hid].
      apply (T payment Hin Hid). destruct (payment_status payment); try discriminate Pe.
      reflexivity.
    + intros [|] w' H; exact H.
  - apply hoare_ret. intros w' [E _]. exact E.
Qed.

(** ** What decides the effect of a callback *)

(** A callback that reports success and brings no receipt number: the
    driver rejects the UPDATE, and the store stays as it is. *)
Lemma callback_without_receipt (parseFloat : jsval -> jsval)
  (req : request (option StkCallback.t)) (w : world) (st : Status.t) (p : payment)
  (rest : list payment) :
  faults w = [] ->
  processCallback parseFloat (body req) = Ok st ->
  filter (reference_matches (Status.CheckoutRequestID st)) (rows (store w)) = p :: rest ->
  Status.ResultCode st = "0" -> Status.MpesaReceiptNumber st = JUndefined ->
  mpesa_callback parseFloat req w = (Ok accepted, mkWorld (store w) []).
Proof.
  intros Fw PC F Rc Re.
  destruct (filter_head_In _ _ _ _ F) as [_ Hm].
  unfold mpesa_callback, try_catch, bind, lift. rewrite PC.
  unfold execute at 1. rewrite (matched_not_undefined _ _ Hm).
  unfold driver at 1. rewrite Fw. unfold select_by_reference. rewrite F.
  rewrite Rc, Re. reflexivity.
Qed.

Lemma callback_undecoded (parseFloat : jsval -> jsval)
  (req : request (option StkCallback.t)) (w : world) (x : exn) :
  processCallback parseFloat (body req) = Throw x ->
  mpesa_callback parseFloat req w = (Ok accepted, w).
Proof.
  intros PC. unfold mpesa_callback, try_catch, bind, lift. rewrite PC. reflexivity.
Qed.

(** C10, refuted: two notifications of success for the same
    [CheckoutRequestID], one with its receipt number and one without: the
    first completes the payment, the second leaves it pending. *)
Lemma determined_by_id_and_code_claim_fails : ~ determined_by_id_and_code_claim.
Proof.
  intros H.
  specialize (H Sample.parseFloat_id Sample.success_callback Sample.success_without_receipt
                _ _ (Sample.world_with pending None) eq_refl eq_refl eq_refl eq_refl).
  vm_compute in H. discriminate H.
Qed.

(** C10, amended: the callback route has no authentication step: the
    answer and the next state are those of the body and the connection,
    whatever the [Authorization] header. With the store available, what
    the callback does to the store is decided by the decoded payload as a
    whole: the payment resolved is the first whose [reference_number] is
    the [CheckoutRequestID]; every row with its [id] is rewritten, as
    completed with the receipt number for reference and the settlement
    fields in the notes when [ResultCode] is 0, as failed with the code
    and [ResultDesc] in the notes otherwise; a success that brings no
    receipt number, a [CheckoutRequestID] that matches no payment and a
    payload that cannot be decoded leave the store as it is. *)
Theorem callback_needs_no_credentials (parseFloat : jsval -> jsval)
  (req1 req2 : request (option StkCallback.t)) (w : world) :
  body req1 = body req2 ->
  post_callback parseFloat req1 w = post_callback parseFloat req2 w /\
  (faults w = [] ->
   (forall st p rest,
      processCallback parseFloat (body req2) = Ok st ->
      filter (reference_matches (Status.CheckoutRequestID st)) (rows (store w)) = p :: rest ->
      store (snd (post_callback parseFloat req1 w)) =
      if String.eqb (Status.ResultCode st) "0"
         && negb (has_undefined [Status.MpesaReceiptNumber st])
      then set_rows (store w)
             (updated (id p)
                (set_completed (Status.MpesaReceiptNumber st)
                   (JSON_stringify
                      [ ("mpesaReceiptNumber", Status.MpesaReceiptNumber st);
                        ("transactionDate", Status.TransactionDate st);
                        ("phoneNumber", Status.PhoneNumber st);
                        ("balance", Status.Balance st);
                        ("merchantRequestId", Status.MerchantRequestID st) ]))
                (rows (store w)))
      else if String.eqb (Status.ResultCode st) "0" then store w
      else set_rows (store w)
             (updated (id p)
                (set_status failed
                   (NotesText ("Error " ++ Status.ResultCode st ++ ": "
                               ++ String_of (Status.ResultDesc st))))
                (rows (store w)))) /\
   (forall st,
      processCallback parseFloat (body req2) = Ok st ->
      filter (reference_matches (Status.CheckoutRequestID st)) (rows (store w)) = [] ->
      store (snd (post_callback parseFloat req1 w)) = store w) /\
   (forall x,
      processCallback parseFloat (body req2) = Throw x ->
      store (snd (post_callback parseFloat req1 w)) = store w)).
Proof.
  intros Hb. split.
  - unfold post_callback, mpesa_callback. rewrite Hb. reflexivity.
  - intros Fw. unfold post_callback. rewrite <- Hb. split; [|split].
    + intros st p rest PC F.
      destruct (String.eqb (Status.ResultCode st) "0") eqn:Rc; cbn [andb].
      * destruct (Status.MpesaReceiptNumber st) as [| |n|r] eqn:Re;
          cbn [has_undefined existsb orb negb].
        -- apply String.eqb_eq in Rc.
           rewrite (callback_without_receipt _ _ _ _ _ _ Fw PC F Rc Re). reflexivity.
        -- rewrite (callback_run _ _ _ _ _ _ Fw PC F) by (rewrite Re; discriminate).
           cbn [snd store]. unfold callback_write. rewrite Rc, Re. reflexivity.
        -- rewrite (callback_run _ _ _ _ _ _ Fw PC F) by (rewrite Re; discriminate).
           cbn [snd store]. unfold callback_write. rewrite Rc, Re. reflexivity.
        -- rewrite (callback_run _ _ _ _ _ _ Fw PC F) by (rewrite Re; discriminate).
           cbn [snd store]. unfold callback_write. rewrite Rc, Re. reflexivity.
      * rewrite (callback_run _ _ _ _ _ _ Fw PC F).
        -- cbn [snd store]. unfold callback_write. rewrite Rc. reflexivity.
        -- intros C. rewrite C in Rc. discriminate Rc.
    + intros st PC F. apply callback_miss. intros cb y Bd Hy.
      rewrite Bd in PC. destruct (processCallback_keeps _ _ _ PC) as (<- & _).
      apply (filter_nil_all _ _ F y Hy).
    + intros x PC. rewrite (callback_undecoded _ _ _ _ PC). reflexivity.
Qed.

(** ** The correlation identifier *)

(** C3, refuted: a successful callback puts the receipt number where the
    [CheckoutRequestID] was. *)
Lemma reference_is_fixed_claim_fails : ~ reference_is_fixed_claim.
Proof.
  intros H.
  specialize (H Sample.parseFloat_id Sample.success_callback
                (Sample.world_with pending None) (Sample.a_payment pending None)
                "ws_CO_191220191020363925" (or_introl eq_refl) eq_refl
                (mkPayment 1 1 3 500 "2025-01-01" "mpesa" completed (Some "ABC123")
                   (Some (NotesJSON
                            [ ("mpesaReceiptNumber", JStr "ABC123");
                              ("transactionDate", JStr "20250101120000");
                              ("phoneNumber", JStr "254712345678");
                              ("merchantRequestId", JStr "29115-34620561-1") ])))
                (or_introl eq_refl)).
  discriminate H.
Qed.

(** C3, amended: a resolution keeps the [id] of every row, and keeps its
    [reference_number] unless it completes the row: a callback whose
    [ResultCode] is 0 then stores [MpesaReceiptNumber] there, and a poll
    whose [ResultCode] is "0" stores [MpesaReceiptNumber ||
    checkoutRequestId]. A resolution that fails the payment, or that does
    nothing, changes no [reference_number]. *)
Theorem reference_changes_only_on_success (parseFloat : jsval -> jsval) (e : env)
  (req : request (option StkCallback.t)) (checkoutRequestId : jsval) (paymentId : Z)
  (w : world) :
  Forall2
    (reference_kept_or (fun r =>
       exists st, processCallback parseFloat (body req) = Ok st /\
                  Status.ResultCode st = "0" /\
                  r = varchar_of (Status.MpesaReceiptNumber st)))
    (rows (store w)) (rows (store (snd (mpesa_callback parseFloat req w)))) /\
  Forall2
    (reference_kept_or (fun r =>
       exists st, checkPaymentStatus (environment_of e) (gateway e) checkoutRequestId = Ok st /\
                  Status.ResultCode st = "0" /\
                  r = varchar_of (js_or (Status.MpesaReceiptNumber st) checkoutRequestId)))
    (rows (store w))
    (rows (store (snd (checkAndUpdatePaymentStatus e checkoutRequestId paymentId w)))).
Proof.
  split.
  - destruct (callback_rows parseFloat req w)
      as [E | (cb & st & p & rest & Bd & PC & F & E)]; rewrite E.
    + apply Forall2_same. intros x. split; auto.
    + apply Forall2_updated.
      * intros x. split; auto.
      * intros x. split; [apply callback_write_id|].
        unfold callback_write.
        destruct (String.eqb (Status.ResultCode st) "0") eqn:Rc; [|left; reflexivity].
        right. split; [reflexivity|]. exists st. rewrite Bd.
        apply String.eqb_eq in Rc. auto.
  - destruct (poll_rows e checkoutRequestId paymentId w) as [E | (st & C & E)]; rewrite E.
    + apply Forall2_same. intros x. split; auto.
    + apply Forall2_updated.
      * intros x. split; auto.
      * intros x. split; [apply poll_write_id|].
        unfold poll_write.
        destruct (String.eqb (Status.ResultCode st) "0") eqn:Rc; [|left; reflexivity].
        right. split; [reflexivity|]. exists st.
        apply String.eqb_eq in Rc. auto.
Qed.

(** ** Replays and races *)

(** C1, refuted: a callback that reports success completes a payment that
    had failed. *)
Lemma terminal_is_final_claim_fails : ~ terminal_is_final_claim.
Proof.
  intros H.
  specialize (H Sample.parseFloat_id Sample.success_callback
                (Sample.world_with failed (Some (NotesText "Error 1032: Request canceled by user")))
                (Sample.a_payment failed (Some (NotesText "Error 1032: Request canceled by user")))
                (or_introl eq_refl)).
  assert (T : terminal (payment_status
                (Sample.a_payment failed
                   (Some (NotesText "Error 1032: Request canceled by user")))))
    by (simpl; discriminate).
  specialize (H T). vm_compute in H.
  destruct H as [H | []]. discriminate H.
Qed.


Lemma In_rows_with_id (i : Z) (w : world) (x : payment) :
  In x (rows_with_id i w) <-> In x (rows (store w)) /\ id x = i.
Proof.
  unfold rows_with_id. rewrite filter_In, Z.eqb_eq. reflexivity.
Qed.

(** The poll, run twice with the store available. *)
Lemma poll_replay (e : env) (cid : jsval) (pid : Z) (w : world) :
  faults w = [] ->
  store (snd (checkAndUpdatePaymentStatus e cid pid
                (snd (checkAndUpdatePaymentStatus e cid pid w)))) =
  store (snd (checkAndUpdatePaymentStatus e cid pid w)).
Proof.
  intros Fw.
  assert (Shape :
    (forall v, snd (checkAndUpdatePaymentStatus e cid pid v) = v)
    \/ exists st, forall v, faults v = [] ->
         snd (checkAndUpdatePaymentStatus e cid pid v) =
         mkWorld (set_rows (store v) (updated pid (poll_write cid st) (rows (store v)))) []).
  { unfold checkAndUpdatePaymentStatus, bind, lift.
    destruct (checkPaymentStatus (environment_of e) (gateway e) cid) as [st|x];
      [|left; reflexivity].
    destruct (String.eqb (Status.ResultCode st) "0") eqn:E;
      unfold execute; (destruct (has_undefined _); [left; reflexivity|]);
      right; exists st; intros v Fv; unfold driver; rewrite Fv;
      unfold update_where_id, ret, poll_write, updated; rewrite E; reflexivity. }
  destruct Shape as [S | (st & S)].
  - rewrite !S. reflexivity.
  - rewrite (S w Fw).
    rewrite (S (mkWorld (set_rows (store w) (updated pid (poll_write cid st) (rows (store w))))
                  []) eq_refl).
    cbn [store].
    rewrite rows_set_rows, set_rows_set_rows.
    rewrite updated_idem; [reflexivity | apply poll_write_id | apply poll_write_idem].
Qed.

Lemma completed_by (st : Status.t) (r : string) (x : payment) :
  Status.ResultCode st = "0" -> Status.MpesaReceiptNumber st = JStr r ->
  payment_status (callback_write st x) = completed /\
  reference_number (callback_write st x) = Some r.
Proof.
  intros Rc Re. unfold callback_write. rewrite Rc, Re. split; reflexivity.
Qed.

(** C1, amended: with the store available, a callback that reports success
    with a receipt completes the payment it matches, and after that
    neither the same callback delivered again nor a status request for
    that payment changes it: the record is completed with the same
    reference and notes after both calls. Likewise a poll run twice with
    the same result leaves the store as the first run did. *)
Theorem completed_record_survives_replay (parseFloat : jsval -> jsval) (e : env)
  (u : user) (req : request (option StkCallback.t)) (st : Status.t)
  (p : payment) (rest : list payment) (r : string) (w : world) :
  faults w = [] ->
  processCallback parseFloat (body req) = Ok st ->
  Status.ResultCode st = "0" ->
  Status.MpesaReceiptNumber st = JStr r ->
  filter (reference_matches (Status.CheckoutRequestID st)) (rows (store w)) = p :: rest ->
  let w1 := snd (mpesa_callback parseFloat req w) in
  let w2 := snd (mpesa_callback parseFloat req w1) in
  In (callback_write st p) (rows_with_id (id p) w1) /\
  (forall x, In x (rows_with_id (id p) w1) ->
     payment_status x = completed /\ reference_number x = Some r /\
     notes x = notes (callback_write st p)) /\
  rows_with_id (id p) w2 = rows_with_id (id p) w1 /\
  store (snd (payment_status_route e u (id p) w1)) = store w1 /\
  (forall cid pid,
     store (snd (checkAndUpdatePaymentStatus e cid pid
                   (snd (checkAndUpdatePaymentStatus e cid pid w)))) =
     store (snd (checkAndUpdatePaymentStatus e cid pid w))).
Proof.
  intros Fw PC Rc Re F w1 w2.
  assert (Run : mpesa_callback parseFloat req w =
                (Ok accepted,
                 mkWorld (set_rows (store w)
                            (updated (id p) (callback_write st) (rows (store w)))) [])).
  { apply callback_run with (rest := rest); auto. intros _. rewrite Re. discriminate. }
  assert (W1 : rows_with_id (id p) w1 = map (callback_write st) (rows_with_id (id p) w)).
  { unfold w1, rows_with_id. rewrite Run. cbn [snd store]. rewrite rows_set_rows.
    rewrite filter_id_updated by apply callback_write_id.
    rewrite Z.eqb_refl. reflexivity. }
  assert (All : forall x, In x (rows_with_id (id p) w1) ->
            payment_status x = completed /\ reference_number x = Some r /\
            notes x = notes (callback_write st p)).
  { intros x Hx. rewrite W1 in Hx. apply in_map_iff in Hx. destruct Hx as (x0 & <- & _).
    destruct (completed_by st r x0 Rc Re) as [S R]. repeat split; auto.
    unfold callback_write. rewrite Rc. reflexivity. }
  split; [|split; [exact All|split; [|split]]].
  - rewrite W1. apply in_map. apply In_rows_with_id.
    destruct (filter_head_In _ _ _ _ F) as [Hin _]. auto.
  - destruct (callback_rows parseFloat req w1)
      as [E | (cb & st' & p' & rest' & Bd & PC' & F' & E)].
    + subst w2. unfold rows_with_id. rewrite E. reflexivity.
    + rewrite Bd in PC. rewrite PC in PC'. injection PC' as <-.
      subst w2. unfold rows_with_id at 1. rewrite E.
      rewrite filter_id_updated by apply callback_write_id.
      destruct (id p =? id p'); [|reflexivity].
      fold (rows_with_id (id p) w1). rewrite W1, map_map.
      apply map_ext. intros x. apply callback_write_idem.
  - apply status_route_terminal. intros x Hx Hid.
    destruct (All x) as (S & _); [apply In_rows_with_id; auto|].
    unfold terminal. rewrite S. discriminate.
  - intros cid pid. apply poll_replay, Fw.
Qed.

(** *** A callback and a poll that overlap *)









(** ** The theorems at the sample data *)

Lemma completed_record_survives_replay_witness :
  let w := Sample.world_with pending None in
  let w1 := snd (mpesa_callback Sample.parseFloat_id Sample.success_callback w) in
  let w2 := snd (mpesa_callback Sample.parseFloat_id Sample.success_callback w1) in
  rows_with_id 1 w2 = rows_with_id 1 w1 /\
  store (snd (payment_status_route (Sample.env_of Sample.gateway_cancelled)
                Sample.tenant_user 1 w1)) = store w1.
Proof.
  cbv zeta.
  destruct (completed_record_survives_replay Sample.parseFloat_id
              (Sample.env_of Sample.gateway_cancelled) Sample.tenant_user
              Sample.success_callback Sample.success_status
              (Sample.a_payment pending None) [] "ABC123"
              (Sample.world_with pending None)
              eq_refl eq_refl eq_refl eq_refl eq_refl) as (_ & _ & H3 & H4 & _).
  split; [exact H3 | exact H4].
Defined.



Lemma unknown_checkout_request_ignored_witness :
  fst (post_callback Sample.parseFloat_id Sample.unknown_callback
         (Sample.world_with pending None)) = Ok accepted /\
  store (snd (post_callback Sample.parseFloat_id Sample.unknown_callback
                (Sample.world_with pending None)))
  = store (Sample.world_with pending None).
Proof.
  apply (unknown_checkout_request_ignored Sample.parseFloat_id Sample.unknown_callback
           (Sample.world_with pending None)).
  intros cb p Hb [<- | []]. injection Hb as <-. reflexivity.
Defined.


Lemma callback_needs_no_credentials_witness :
  post_callback Sample.parseFloat_id Sample.success_callback (Sample.world_with pending None)
  = post_callback Sample.parseFloat_id
      (mkRequest (Some "Bearer forged") (body Sample.success_callback))
      (Sample.world_with pending None).
Proof.
  destruct (callback_needs_no_credentials Sample.parseFloat_id Sample.success_callback
              (mkRequest (Some "Bearer forged") (body Sample.success_callback))
              (Sample.world_with pending None) eq_refl) as [H _].
  exact H.
Defined.

(** The scenario of the spec, end to end: an initiation of 500 for
    0712345678 leaves a pending payment that carries the
    [CheckoutRequestID]; the callback with receipt ABC123 completes it and
    the notes hold the receipt. *)
Example initiate_then_callback :
  let w1 := snd (initiate Sample.text_is_NaN (Sample.env_of Sample.gateway_ok)
                   Sample.tenant_user (Sample.pay 500) Sample.empty_world) in
  let w2 := snd (mpesa_callback Sample.parseFloat_id Sample.success_callback w1) in
  map (fun p => (payment_status p, reference_number p)) (rows (store w1))
    = [(pending, Some "ws_CO_191220191020363925")] /\
  exists n,
    map (fun p => (payment_status p, notes p)) (rows (store w2))
      = [(completed, Some (NotesJSON n))] /\
    In ("mpesaReceiptNumber", JStr "ABC123") n.
Proof.
  vm_compute. split; [reflexivity|].
  eexists. split; [reflexivity|]. left. reflexivity.
Qed.

(* ------------------------------------------------------------------ *)
(** * Further properties of the code *)

From Stdlib Require Import Lqa.

(** ** Phone numbers and amounts between the handler and the client *)

Lemma strip_digits_only (s : string) : all_digits s = true -> strip_non_digits s = s.
Proof.
  induction s as [|c t IH]; simpl; [reflexivity|].
  intros H. apply andb_true_iff in H. destruct H as [D A].
  rewrite D, (IH A). reflexivity.
Qed.

Lemma startsWith_254 (s : string) :
  startsWith s "254" = true -> exists t, s = String "2" (String "5" (String "4" t)).
Proof.
  unfold startsWith. destruct s as [|a [|b [|c t]]]; cbn [String.prefix];
    repeat match goal with
           | |- context [ascii_dec ?x ?y] => destruct (ascii_dec x y)
           end; try discriminate.
  intros _. subst. eauto.
Qed.

(** A number in the normal form is accepted as it is. *)
Lemma formatPhoneNumber_normal_form (n : string) :
  String.length n = 12%nat -> all_digits n = true -> startsWith n "254" = true ->
  formatPhoneNumber n = Ok n.
Proof.
  intros L D P.
  unfold formatPhoneNumber. rewrite (strip_digits_only n D).
  destruct (startsWith_254 n P) as [t Hn]. rewrite Hn in *.
  assert (E : Nat.eqb (String.length (String "2" (String "5" (String "4" t)))) 12 = true)
    by (apply Nat.eqb_eq; exact L).
  unfold startsWith.
  replace (String.prefix "0" (String "2" (String "5" (String "4" t)))) with false
    by reflexivity.
  replace (String.prefix "7" (String "2" (String "5" (String "4" t)))) with false
    by reflexivity.
  replace (String.prefix "1" (String "2" (String "5" (String "4" t)))) with false
    by reflexivity.
  replace (String.prefix "254" (String "2" (String "5" (String "4" t)))) with true
    by (simpl; destruct t; reflexivity).
  cbn [orb negb]. rewrite E. reflexivity.
Qed.

(** X1: a number that [formatPhoneNumber] returns is left as it is by a
    second call, so the normalisation that [initiatePayment] repeats on the
    number normalised by the handler cannot fail. *)
Theorem formatPhoneNumber_fixes_its_result (phone r : string) :
  formatPhoneNumber phone = Ok r -> formatPhoneNumber r = Ok r.
Proof.
  intros H.
  destruct (formatPhoneNumber_cases phone) as [(_ & F & L & P & D) | (_ & m & F)];
    [|rewrite F in H; discriminate H].
  rewrite F in H. injection H as <-.
  apply formatPhoneNumber_normal_form; assumption.
Qed.

Lemma formatPhoneNumber_fixes_its_result_witness :
  formatPhoneNumber "254712345678" = Ok "254712345678".
Proof.
  apply (formatPhoneNumber_fixes_its_result "0712345678" "254712345678"). reflexivity.
Defined.

(** X2: once the handler has accepted the phone and the amount, the
    checks of [initiatePayment] pass, and the call fails only where the
    token or the gateway fails: in sandbox by the simulated refusal, in
    production by the HTTP error. With a token and no refusal, sandbox
    returns the acknowledgement with [ResponseCode] "0" and the generated
    identifiers. *)
Theorem initiatePayment_after_validation (env : environment) (o : oracle)
  (phone formattedPhone : string) (amount : jsnum) (reference desc url : string) :
  formatPhoneNumber phone = Ok formattedPhone ->
  isNaN (Math_floor amount) || num_lt (Math_floor amount) (of_Z 1)
    || num_gt (Math_floor amount) (of_Z 500000) = false ->
  let r := PaymentRequest.mk formattedPhone (Math_floor amount) reference desc url in
  (forall x, initiatePayment env o r = Throw x ->
     (exists y, getAccessToken env o = Throw y)
     \/ (env = sandbox /\ exists d, shouldFail o = Some d /\
                                    x = Error ("M-Pesa API Error: " ++ d))
     \/ (env = production /\ exists m d, stkpush o = Http_error m d)) /\
  (env = sandbox -> shouldFail o = None ->
   (exists t, getAccessToken env o = Ok t) ->
   exists msg,
     initiatePayment env o r =
     Ok (PushAck.mk (JStr (merchantRequestId o)) (JStr (checkoutRequestId o)) (JStr "0")
           (JStr "Success. Request accepted for processing") (JStr msg))).
Proof.
  intros F R r.
  assert (Fp : formatPhoneNumber formattedPhone = Ok formattedPhone).
  { destruct (formatPhoneNumber_cases phone) as [(_ & F' & L & P & D) | (_ & m & F')];
      [|rewrite F' in F; discriminate F].
    rewrite F' in F. injection F as <-.
    apply formatPhoneNumber_normal_form; assumption. }
  assert (Ca : checked_amount (Math_floor amount) = Ok (Math_floor amount)).
  { unfold checked_amount. rewrite Math_floor_idem.
    apply orb_false_iff in R. destruct R as [R _].
    apply orb_false_iff in R. destruct R as [_ R]. rewrite R. reflexivity. }
  unfold initiatePayment, r. cbn [PaymentRequest.phone PaymentRequest.amount].
  rewrite Fp, Ca. split.
  - intros x H. destruct (getAccessToken env o) as [t|y]; [|left; eauto].
    right. destruct env.
    + left. split; [reflexivity|]. destruct (shouldFail o) as [d|]; [|discriminate H].
      exists d. split; [reflexivity|]. injection H as <-. reflexivity.
    + right. split; [reflexivity|]. destruct (stkpush o) as [data|m d]; [discriminate H|].
      eauto.
  - intros -> S [t T]. rewrite T, S. eexists. reflexivity.
Qed.

Lemma initiatePayment_after_validation_witness :
  exists msg,
    initiatePayment sandbox Sample.gateway_ok
      (PaymentRequest.mk "254712345678" (Math_floor (Fin 500)) "RENT1" "Rent" "https://x") =
    Ok (PushAck.mk (JStr "29115-34620561-1") (JStr "ws_CO_191220191020363925") (JStr "0")
          (JStr "Success. Request accepted for processing") (JStr msg)).
Proof.
  apply (initiatePayment_after_validation sandbox Sample.gateway_ok "0712345678"
           "254712345678" (Fin 500) "RENT1" "Rent" "https://x" eq_refl eq_refl);
    [reflexivity | reflexivity | eexists; reflexivity].
Defined.

(** ** The simulated status *)

(** The weighted choice falls on an entry of the table, whatever the
    number drawn. *)
Lemma select_result_In (random : float) (codes : list result_code) (selected : result_code) :
  In (select_result random codes selected) (selected :: codes).
Proof.
  revert random. induction codes as [|c rest IH]; intros random; cbn [select_result].
  - left. reflexivity.
  - destruct (PrimFloat.leb _ _); [right; left; reflexivity|].
    destruct (IH (PrimFloat.sub random (weight c))) as [H|H];
      [left; exact H | right; right; exact H].
Qed.

(** X3: in sandbox [checkPaymentStatus] never throws, whatever
    [Math.random()] returns, and answers for the identifier it was asked
    about with the code and the description of one entry of its table (0,
    1032, 1037, 2001, 1, 17). The result is a success exactly when the
    code is "0"; a success carries the simulated amount, receipt, date,
    phone and balance, and every other code carries no settlement
    field. *)
Theorem simulated_status (o : oracle) (checkoutRequestId : jsval) :
  exists st c,
    checkPaymentStatus sandbox o checkoutRequestId = Ok st /\
    In c resultCodes /\
    Status.CheckoutRequestID st = checkoutRequestId /\
    Status.ResultCode st = Z_toString (code c) /\
    Status.ResultDesc st = JStr (desc c) /\
    (Status.ResultCode st = "0" <-> success c = true) /\
    (success c = true ->
       Status.Amount st = JNum (sim_amount o) /\
       Status.MpesaReceiptNumber st = JStr (sim_receipt o) /\
       Status.TransactionDate st = JStr (sim_timestamp o) /\
       Status.PhoneNumber st = JStr (sim_phone o) /\
       Status.Balance st = JNum (sim_balance o)) /\
    (success c = false -> no_metadata st).
Proof.
  unfold checkPaymentStatus.
  set (c := select_result _ resultCodes _).
  assert (Hc : In c resultCodes).
  { destruct (select_result_In
                (PrimFloat.mul (random o)
                   (fold_left (fun sum c => PrimFloat.add sum (weight c)) resultCodes
                      0%float))
                resultCodes
                (mkCode 0 "The service request is processed successfully." true 75%float))
      as [H|H]; [|exact H].
    fold c in H. rewrite <- H. left. reflexivity. }
  assert (Z0 : Z_toString (code c) = "0" <-> success c = true).
  { clearbody c. cbn in Hc.
    repeat (destruct Hc as [<- | Hc]; [split; (reflexivity || discriminate)|]).
    destruct Hc. }
  clearbody c.
  destruct Z0 as [Z1 Z2].
  destruct (success c) eqn:S; eexists; exists c; (split; [reflexivity|]);
    unfold no_metadata; cbn;
    intuition (try reflexivity; try discriminate; try congruence).
Qed.

(** The choice is made in the arithmetic of doubles: the product
    [Math.random() * 100] is rounded before the weights are taken off. At
    0.88 (0x1.c28f5c28f5c29p-1) it is 88 and the choice is 1037; at
    0.8300000000000001 and 0.9500000000000001 it is above 83 and 95. *)
Example weighted_choice_in_doubles :
  let choice random :=
    code (select_result (PrimFloat.mul random 100%float) resultCodes
            (mkCode 0 "The service request is processed successfully." true 75%float)) in
  fold_left (fun sum c => PrimFloat.add sum (weight c)) resultCodes 0%float = 100%float /\
  choice 0x1.c28f5c28f5c29p-1%float = 1037 /\
  choice 0x1.a8f5c28f5c29p-1%float = 1032 /\
  choice 0x1.e666666666667p-1%float = 2001 /\
  choice 0.75%float = 0 /\ choice 0.5%float = 0.
Proof. cbv zeta. repeat split; reflexivity. Qed.

(** ** Decoding a notification *)

Lemma read_item_receipt (pf : jsval -> jsval) (st st' : Status.t) (item : Item.t) :
  read_item pf st item = Ok st' ->
  Status.MpesaReceiptNumber st' =
  if strict_eq (Item.Name item) (JStr "MpesaReceiptNumber") then Item.Value item
  else Status.MpesaReceiptNumber st.
Proof.
  unfold read_item.
  destruct (Item.Name item) as [| |n|s]; cbn [strict_eq];
    try (intros H; injection H as <-; reflexivity).
  destruct (String.eqb s "Amount") eqn:E1.
  { apply String.eqb_eq in E1. subst s. intros H. injection H as <-. reflexivity. }
  destruct (String.eqb s "MpesaReceiptNumber") eqn:E2.
  { intros H. injection H as <-. reflexivity. }
  destruct (String.eqb s "TransactionDate") eqn:E3.
  { destruct (toString (Item.Value item)); intros H; [injection H as <-; reflexivity|].
    discriminate H. }
  destruct (String.eqb s "PhoneNumber") eqn:E4.
  { destruct (toString (Item.Value item)); intros H; [injection H as <-; reflexivity|].
    discriminate H. }
  destruct (String.eqb s "Balance") eqn:E5; intros H; injection H as <-; reflexivity.
Qed.

Lemma read_items_receipt (pf : jsval -> jsval) (items : list Item.t) (st st' : Status.t) :
  read_items pf st items = Ok st' ->
  Status.MpesaReceiptNumber st' =
  last_value "MpesaReceiptNumber" items (Status.MpesaReceiptNumber st).
Proof.
  revert st. induction items as [|item rest IH]; simpl; intros st H.
  - injection H as <-. reflexivity.
  - destruct (read_item pf st item) as [s1|x] eqn:R; [|discriminate H].
    rewrite (IH _ H), (read_item_receipt _ _ _ _ R). reflexivity.
Qed.

Lemma processCallback_receipt (parseFloat : jsval -> jsval) (cb : StkCallback.t)
  (st : Status.t) :
  processCallback parseFloat (Some cb) = Ok st ->
  match StkCallback.ResultCode cb, StkCallback.CallbackMetadata cb with
  | JNum 0, Some items =>
      Status.MpesaReceiptNumber st = last_value "MpesaReceiptNumber" items JUndefined
  | _, _ => no_metadata st
  end.
Proof.
  intros H. unfold processCallback in H.
  destruct (StkCallback.ResultCode cb) as [| |n|s] eqn:Rc; cbn [toString strict_eq] in H;
    try discriminate H.
  - destruct (n =? 0) eqn:N.
    + apply Z.eqb_eq in N. subst n.
      destruct (StkCallback.CallbackMetadata cb) as [items|].
      * destruct (read_items parseFloat _ items) as [s1|x] eqn:R; [|discriminate H].
        injection H as <-. apply read_items_receipt in R. exact R.
      * injection H as <-. repeat split.
    + assert (no_metadata st).
      { destruct (StkCallback.CallbackMetadata cb); injection H as <-; repeat split. }
      destruct n; try assumption.
      discriminate N.
  - assert (no_metadata st).
    { destruct (StkCallback.CallbackMetadata cb); injection H as <-; repeat split. }
    assumption.
Qed.

(** X4: what [processCallback] reads of the settlement: only a
    notification whose [ResultCode] is the number 0 and which has
    [CallbackMetadata.Item] is read, the receipt being the [Value] of the
    last item named MpesaReceiptNumber ([undefined] when there is none);
    any other notification is decoded with all five settlement fields
    [undefined]. Every failure of the decoding is thrown as the one error
    "Failed to process M-Pesa callback". *)
Theorem processCallback_metadata (parseFloat : jsval -> jsval)
  (callbackData : option StkCallback.t) :
  (forall x, processCallback parseFloat callbackData = Throw x ->
     x = Error "Failed to process M-Pesa callback") /\
  (forall cb st,
     callbackData = Some cb -> processCallback parseFloat callbackData = Ok st ->
     match StkCallback.ResultCode cb, StkCallback.CallbackMetadata cb with
     | JNum 0, Some items =>
         Status.MpesaReceiptNumber st = last_value "MpesaReceiptNumber" items JUndefined
     | _, _ => no_metadata st
     end).
Proof.
  split.
  - intros x. unfold processCallback.
    destruct callbackData as [cb|]; [|intros H; injection H as <-; reflexivity].
    destruct (toString (StkCallback.ResultCode cb)); [|intros H; injection H as <-; reflexivity].
    destruct (strict_eq _ _); destruct (StkCallback.CallbackMetadata cb) as [items|];
      try discriminate.
    destruct (read_items _ _ _); [discriminate|]. intros H; injection H as <-; reflexivity.
  - intros cb st -> H. exact (processCallback_receipt parseFloat cb st H).
Qed.

Lemma processCallback_metadata_witness :
  Status.MpesaReceiptNumber Sample.success_status = JStr "ABC123".
Proof.
  destruct (processCallback_metadata Sample.parseFloat_id (body Sample.success_callback))
    as [_ H].
  exact (H _ Sample.success_status eq_refl eq_refl).
Defined.

(** X5: a notification of success that brings no receipt completes
    nothing. When [ResultCode] reads "0" but is not the number 0 (the text
    "0", say), or the metadata is missing, or no item is named
    MpesaReceiptNumber, the handler binds [undefined] to the UPDATE, the
    driver rejects it, and the store is left as it was; the gateway is
    acknowledged all the same. *)
Theorem success_without_receipt_is_dropped (parseFloat : jsval -> jsval)
  (req : request (option StkCallback.t)) (cb : StkCallback.t) (w : world) :
  body req = Some cb ->
  toString (StkCallback.ResultCode cb) = Ok "0" ->
  (StkCallback.ResultCode cb <> JNum 0
   \/ StkCallback.CallbackMetadata cb = None
   \/ exists items, StkCallback.CallbackMetadata cb = Some items /\
                    last_value "MpesaReceiptNumber" items JUndefined = JUndefined) ->
  fst (post_callback parseFloat req w) = Ok accepted /\
  store (snd (post_callback parseFloat req w)) = store w.
Proof.
  intros Bd Rc Hno. split; [apply callback_accepted_lemma|].
  assert (Dec : forall st, processCallback parseFloat (body req) = Ok st ->
            Status.ResultCode st = "0" /\ Status.MpesaReceiptNumber st = JUndefined).
  { intros st PC. rewrite Bd in PC.
    destruct (processCallback_keeps _ _ _ PC) as (_ & Hrc & _).
    rewrite Rc in Hrc. injection Hrc as Hrc. split; [symmetry; exact Hrc|].
    pose proof (processCallback_receipt parseFloat cb st PC) as M.
    destruct (StkCallback.ResultCode cb) as [| |n|s] eqn:Rcb;
      try (destruct M as (_ & M & _); exact M).
    destruct n; try (destruct M as (_ & M & _); exact M).
    destruct (StkCallback.CallbackMetadata cb) as [items|] eqn:MD;
      [|destruct M as (_ & M & _); exact M].
    destruct Hno as [Hno | [Hno | (items' & Hi & Hno)]];
      [contradiction | discriminate Hno |].
    injection Hi as <-. rewrite M. exact Hno. }
  unfold post_callback.
  enough (H : hoare (fun w' => w' = w) (mpesa_callback parseFloat req)
                (fun _ w' => store w' = store w)).
  { apply (H w eq_refl). }
  unfold mpesa_callback.
  apply hoare_try_catch with (R := fun _ w' => store w' = store w).
  2:{ intros x. apply hoare_ret. auto. }
  apply hoare_bind with
    (R := fun st w' => w' = w /\ processCallback parseFloat (body req) = Ok st).
  { apply hoare_lift. intros w' ->.
    destruct (processCallback parseFloat (body req)); auto. }
  intros st.
  apply hoare_bind with
    (R := fun _ w' => store w' = store w /\ processCallback parseFloat (body req) = Ok st).
  { apply hoare_execute.
    - intros w' x [-> _]. reflexivity.
    - intros w' x [-> _] _. reflexivity.
    - intros w' [-> PC] _ _. cbn. auto. }
  intros payments.
  apply hoare_bind with (R := fun _ w' => store w' = store w).
  2:{ intros _. apply hoare_ret. auto. }
  destruct payments as [|p rest].
  { apply hoare_ret. intros w' [E _]. exact E. }
  apply hoare_weaken with
    (P' := fun w' => store w' = store w /\ processCallback parseFloat (body req) = Ok st)
    (Q' := fun (r : outcome unit) w' =>
             match r with Ok _ => store w' = store w | Throw _ => store w' = store w end);
    [|auto|intros [|]; auto].
  intros w' [E PC]. destruct (Dec st PC) as [C U].
  rewrite C, U. cbn. exact E.
Qed.

Lemma success_without_receipt_is_dropped_witness :
  store (snd (post_callback Sample.parseFloat_id Cases.textual_success
                (Sample.world_with pending None)))
  = store (Sample.world_with pending None).
Proof.
  apply (success_without_receipt_is_dropped Sample.parseFloat_id Cases.textual_success
           (StkCallback.mk (JStr "29115-34620561-1") (JStr "ws_CO_191220191020363925")
              (JStr "0") (JStr "The service request is processed successfully.") None)
           (Sample.world_with pending None) eq_refl eq_refl).
  left. discriminate.
Defined.

(** ** What a resolution leaves alone *)

Lemma same_payment_refl (x : payment) : same_payment x x.
Proof. repeat split. Qed.

Lemma same_payment_callback (st : Status.t) (x : payment) :
  same_payment x (callback_write st x).
Proof. unfold callback_write. destruct (String.eqb _ _); repeat split. Qed.

Lemma same_payment_poll (cid : jsval) (st : Status.t) (x : payment) :
  same_payment x (poll_write cid st x).
Proof. unfold poll_write. destruct (String.eqb _ _); repeat split. Qed.

Lemma Forall2_updated_only (R : payment -> payment -> Prop) (i : Z)
  (f : payment -> payment) (rs : list payment) :
  (forall x, id x <> i -> R x x) -> (forall x, id x = i -> R x (f x)) ->
  Forall2 R rs (updated i f rs).
Proof.
  intros Hr Hf. unfold updated. induction rs as [|p rs IH]; simpl; constructor; auto.
  destruct (id p =? i) eqn:E; [apply Hf, Z.eqb_eq, E | apply Hr, Z.eqb_neq, E].
Qed.

(** X6: a resolution adds no row and removes none, and changes in no row
    the [id], the tenant, the property, the amount, the date or the
    method. The poll leaves every row with another [id] than
    [paymentId] exactly as it was, and the callback every row but those
    with the [id] of the first payment that its [CheckoutRequestID]
    matches. *)
Theorem resolution_keeps_the_payment (parseFloat : jsval -> jsval) (e : env)
  (req : request (option StkCallback.t)) (checkoutRequestId : jsval) (paymentId : Z)
  (w : world) :
  Forall2
    (fun x x' =>
       same_payment x x' /\
       (x' = x \/ exists cb, body req = Some cb /\
                             first_match (StkCallback.CheckoutRequestID cb) w = Some (id x)))
    (rows (store w)) (rows (store (snd (mpesa_callback parseFloat req w)))) /\
  Forall2
    (fun x x' => same_payment x x' /\ (id x <> paymentId -> x' = x))
    (rows (store w))
    (rows (store (snd (checkAndUpdatePaymentStatus e checkoutRequestId paymentId w)))).
Proof.
  split.
  - destruct (callback_rows parseFloat req w)
      as [E | (cb & st & p & rest & Bd & PC & F & E)]; rewrite E.
    + apply Forall2_same. intros x. split; [apply same_payment_refl | left; reflexivity].
    + apply Forall2_updated_only.
      * intros x _. split; [apply same_payment_refl | left; reflexivity].
      * intros x Hx. split; [apply same_payment_callback|].
        right. exists cb. split; [exact Bd|]. unfold first_match. rewrite F, Hx. reflexivity.
  - destruct (poll_rows e checkoutRequestId paymentId w) as [E | (st & C & E)]; rewrite E.
    + apply Forall2_same. intros x. split; [apply same_payment_refl | reflexivity].
    + apply Forall2_updated_only.
      * intros x _. split; [apply same_payment_refl | reflexivity].
      * intros x Hx. split; [apply same_payment_poll | contradiction].
Qed.

(** ** The deferred check and the status route *)

Lemma poll_in_production (e : env) (cid : jsval) (pid : Z) (w : world) :
  environment_of e = production ->
  checkAndUpdatePaymentStatus e cid pid w =
  (Throw (Error
     "Status checking for production should use STK Push Query API or rely on callbacks"),
   w).
Proof.
  intros P. unfold checkAndUpdatePaymentStatus, bind, lift. rewrite P. reflexivity.
Qed.

(** X7: the callback of the timer that the initiation arms never throws:
    it catches what [checkAndUpdatePaymentStatus] rethrows, and leaves the
    connection as that call left it. [checkAndUpdatePaymentStatus] itself
    does throw: in production the error of [checkPaymentStatus], with the
    connection untouched, and in sandbox the rejection of its UPDATE when
    the store is unavailable. *)
Theorem background_check_is_contained (e : env) (t : timer) (w : world) :
  let poll := checkAndUpdatePaymentStatus e (timer_checkoutRequestId t) (timer_paymentId t) in
  fst (background_status_check e t w) = Ok tt /\
  snd (background_status_check e t w) = snd (poll w) /\
  (environment_of e = production ->
     poll w =
     (Throw (Error
        "Status checking for production should use STK Push Query API or rely on callbacks"),
      w)) /\
  (environment_of e = sandbox -> hd false (faults w) = true ->
     exists x, fst (poll w) = Throw x /\ store (snd (poll w)) = store w).
Proof.
  cbv zeta. split; [|split; [|split]].
  - unfold background_status_check, try_catch, bind.
    destruct (checkAndUpdatePaymentStatus e _ _ w) as [[st|x] w']; reflexivity.
  - unfold background_status_check, try_catch, bind.
    destruct (checkAndUpdatePaymentStatus e _ _ w) as [[st|x] w']; reflexivity.
  - intros P. apply poll_in_production, P.
  - intros S F. unfold checkAndUpdatePaymentStatus, bind, lift. rewrite S.
    destruct (checkPaymentStatus sandbox (gateway e) (timer_checkoutRequestId t))
      as [st|x]; [|eexists; split; reflexivity].
    destruct (faults w) as [|[|] fs] eqn:Fw; try discriminate F.
    destruct (String.eqb (Status.ResultCode st) "0"); unfold execute;
      (destruct (has_undefined _); [eexists; split; reflexivity|]);
      unfold driver; rewrite Fw; eexists; split; reflexivity.
Qed.

Lemma background_check_is_contained_witness :
  background_status_check Sample.production_env
    (mkTimer (JStr "ws_CO_191220191020363925") 1) (Sample.world_with pending None)
  = (Ok tt, Sample.world_with pending None).
Proof.
  destruct (background_check_is_contained Sample.production_env
              (mkTimer (JStr "ws_CO_191220191020363925") 1) (Sample.world_with pending None))
    as (A & B & C & _).
  rewrite (C eq_refl) in B. cbn [snd] in B.
  rewrite <- A, <- B. apply surjective_pairing.
Defined.

Lemma select_with_owner_tenant (pid : Z) (d : db) (p : payment) (uid : Z) :
  In (p, uid) (fst (select_with_owner pid d)) ->
  In p (rows d) /\ id p = pid /\
  exists t, In t (tenants d) /\ t_id t = tenant_id p /\ t_user_id t = uid.
Proof.
  unfold select_with_owner. simpl. intros H. apply in_flat_map in H.
  destruct H as (x & Hx & H). destruct (id x =? pid) eqn:E; [|contradiction].
  apply in_map_iff in H. destruct H as (t & Ht & Hin). injection Ht as -> <-.
  apply filter_In in Hin. destruct Hin as [Hin Ht]. apply Z.eqb_eq in Ht.
  split; [exact Hx|]. split; [apply Z.eqb_eq, E|]. exists t. auto.
Qed.

(** X8: the status route always answers, with 200, 403, 404 or 500 and
    never an exception, and it shows a payment only to its owner: when the
    answer is a payment, its status is 200 and the store holds a payment
    with that [id] whose tenant is the user of the token. When the payment
    found belongs to another user the store is not touched. *)
Theorem status_route_shows_own_payments_only (e : env) (u : user) (paymentId : Z)
  (w : world) :
  (exists res,
     fst (payment_status_route e u paymentId w) = Ok res /\
     In (status_code res) [200; 403; 404; 500] /\
     (forall v, json res = Payment_view v ->
        status_code res = 200 /\
        exists p t, In p (rows (store w)) /\ id p = paymentId /\
                    In t (tenants (store w)) /\ t_id t = tenant_id p /\
                    t_user_id t = u_id u)) /\
  ((forall p uid rest, fst (select_with_owner paymentId (store w)) = (p, uid) :: rest ->
                       uid <> u_id u) ->
   store (snd (payment_status_route e u paymentId w)) = store w).
Proof.
  set (Owned := exists p t, In p (rows (store w)) /\ id p = paymentId /\
                            In t (tenants (store w)) /\ t_id t = tenant_id p /\
                            t_user_id t = u_id u).
  set (Answer := fun res : response =>
                  In (status_code res) [200; 403; 404; 500] /\
                  (forall v, json res = Payment_view v -> status_code res = 200 /\ Owned)).
  split.
  - enough (H : hoare (fun w' => w' = w) (payment_status_route e u paymentId)
                  (fun r _ => exists res, r = Ok res /\ Answer res)).
    { apply (H w eq_refl). }
    assert (Refused : forall (code : Z) (b : json_body),
              In code [403; 404; 500] -> (forall v, b <> Payment_view v) ->
              Answer (mkResponse code b)).
    { intros code b Hc Hb. split.
      - cbn in *. tauto.
      - intros v E. contradiction (Hb v). }
    unfold payment_status_route.
    apply hoare_try_catch with (R := fun _ _ => True).
    2:{ intros x. apply hoare_ret. intros _ _. eexists. split; [reflexivity|].
        apply Refused; [cbn; tauto | discriminate]. }
    apply hoare_bind with
      (R := fun payments _ => payments = fst (select_with_owner paymentId (store w))).
    { apply hoare_execute; auto. intros w' -> _ _. reflexivity. }
    intros [|[payment user_id] rest].
    { apply hoare_ret. intros _ _. eexists. split; [reflexivity|].
      apply Refused; [cbn; tauto | discriminate]. }
    destruct (negb (user_id =? u_id u)) eqn:Ow.
    { apply hoare_ret. intros _ _. eexists. split; [reflexivity|].
      apply Refused; [cbn; tauto | discriminate]. }
    apply negb_false_iff, Z.eqb_eq in Ow.
    apply hoare_weaken with
      (P' := fun _ => Owned)
      (Q' := fun (r : outcome response) (_ : world) =>
               exists res, r = Ok res /\ Answer res).
    2:{ intros w' Hp.
        assert (Hin : In (payment, user_id) (fst (select_with_owner paymentId (store w))))
          by (rewrite <- Hp; left; reflexivity).
        apply select_with_owner_tenant in Hin.
        destruct Hin as (Hin & Hid & t & Ht & Htid & Hu).
        exists payment, t. rewrite <- Ow. auto. }
    2:{ intros [res|x] w' H; [exact H|]. destruct H as (res & H & _). discriminate H. }
    assert (Shown : forall p : Store.payment,
              Owned -> Answer (mkResponse 200 (Payment_view (view_of p)))).
    { intros p O. split; [left; reflexivity|]. intros v _. split; [reflexivity | exact O]. }
    assert (Cur : forall p : Store.payment,
              hoare (fun _ => Owned) (ret (mkResponse 200 (Payment_view (view_of p))))
                (fun r _ => exists res, r = Ok res /\ Answer res)).
    { intros p. apply hoare_ret. intros w' O. eexists. split; [reflexivity|].
      apply Shown, O. }
    destruct (negb (is_pending (payment_status payment))); [apply Cur|].
    cbv zeta.
    destruct (reference_number payment) as [reference|]; [|apply Cur].
    destruct (environment_of e); [|apply Cur].
    destruct (String.eqb reference ""); [apply Cur|].
    apply hoare_try_catch with (R := fun _ _ => Owned); [|intros _; apply Cur].
    apply hoare_bind with (R := fun _ _ => Owned).
    { intros w' O. destruct (fst _); exact O. }
    intros _.
    apply hoare_bind with (R := fun _ _ => Owned).
    { intros w' O. destruct (fst _); exact O. }
    intros [|updatedPayment rest'].
    + apply hoare_throw. auto.
    + apply hoare_ret. intros w' O. eexists. split; [reflexivity|]. apply Shown, O.
  - intros Other.
    enough (H : hoare (fun w' => w' = w) (payment_status_route e u paymentId)
                  (fun _ w' => store w' = store w)).
    { apply (H w eq_refl). }
    unfold payment_status_route.
    apply hoare_try_catch with (R := fun _ w' => store w' = store w).
    2:{ intros x. apply hoare_ret. auto. }
    apply hoare_bind with
      (R := fun payments w' => store w' = store w /\
                               payments = fst (select_with_owner paymentId (store w))).
    { apply hoare_execute.
      - intros w' x ->. reflexivity.
      - intros w' x -> _. reflexivity.
      - intros w' -> _ _. cbn. auto. }
    intros [|[payment user_id] rest].
    { apply hoare_ret. intros w' [E _]. exact E. }
    destruct (negb (user_id =? u_id u)) eqn:Ow.
    { apply hoare_ret. intros w' [E _]. exact E. }
    apply negb_false_iff, Z.eqb_eq in Ow.
    apply hoare_weaken with (P' := fun _ => False) (Q' := fun _ w' => store w' = store w).
    + intros w' [].
    + intros w' [_ Hp]. apply (Other payment user_id rest); auto.
    + intros [|] w' H; exact H.
Qed.

Lemma status_route_shows_own_payments_only_witness :
  store (snd (payment_status_route (Sample.env_of Sample.gateway_ok) (mkUser 8 "tenant") 1
                (Sample.world_with pending None)))
  = store (Sample.world_with pending None).
Proof.
  apply (status_route_shows_own_payments_only (Sample.env_of Sample.gateway_ok)
           (mkUser 8 "tenant") 1 (Sample.world_with pending None)).
  intros p uid rest H. injection H as _ <- _. discriminate.
Defined.

Lemma execute_run {A} (params : list jsval) (stmt : db -> A * db) (w : world) :
  faults w = [] -> has_undefined params = false ->
  execute params stmt w = (Ok (fst (stmt (store w))), mkWorld (snd (stmt (store w))) []).
Proof.
  intros F U. unfold execute. rewrite U. unfold driver. rewrite F.
  destruct (stmt (store w)); reflexivity.
Qed.

(** X9: in sandbox, with the store available, a status request by the
    owner of a pending payment that has a reference polls the gateway for
    that reference, writes the result over the payment, and answers 200
    with the row as it has just been written: its status is the one the
    poll wrote. *)
Theorem status_route_answers_what_it_wrote (e : env) (u : user) (paymentId : Z)
  (w : world) (p : payment) (rest : list (payment * Z)) (reference : string) :
  faults w = [] ->
  environment_of e = sandbox ->
  fst (select_with_owner paymentId (store w)) = (p, u_id u) :: rest ->
  payment_status p = pending ->
  reference_number p = Some reference ->
  reference <> "" ->
  exists polled p0,
    checkPaymentStatus sandbox (gateway e) (JStr reference) = Ok polled /\
    hd_error (filter (fun x => id x =? paymentId) (rows (store w))) = Some p0 /\
    fst (payment_status_route e u paymentId w) =
      Ok (mkResponse 200 (Payment_view (view_of (poll_write (JStr reference) polled p0)))) /\
    v_status (view_of (poll_write (JStr reference) polled p0)) =
      written_status (Status.ResultCode polled) /\
    rows (store (snd (payment_status_route e u paymentId w))) =
      updated paymentId (poll_write (JStr reference) polled) (rows (store w)).
Proof.
  intros Fw Es Sel Pe Ref Ne.
  assert (Hin : In (p, u_id u) (fst (select_with_owner paymentId (store w))))
    by (rewrite Sel; left; reflexivity).
  apply select_with_owner_In in Hin. destruct Hin as [Hin Hid].
  destruct (filter (fun x => id x =? paymentId) (rows (store w))) as [|p0 rest0] eqn:Fi.
  { exfalso. assert (I : In p (filter (fun x => id x =? paymentId) (rows (store w))))
      by (apply filter_In; split; [exact Hin | apply Z.eqb_eq, Hid]).
    rewrite Fi in I. destruct I. }
  set (w1 := mkWorld (store w) []).
  destruct (poll_run e (JStr reference) paymentId w1 eq_refl Es) as (polled & Cp & Run);
    [discriminate|].
  exists polled, p0. split; [exact Cp|]. split; [reflexivity|].
  assert (Eval : payment_status_route e u paymentId w =
            (Ok (mkResponse 200 (Payment_view (view_of (poll_write (JStr reference) polled p0)))),
             mkWorld (set_rows (store w)
                        (updated paymentId (poll_write (JStr reference) polled)
                           (rows (store w)))) [])).
  { unfold payment_status_route, try_catch, bind.
    rewrite (execute_run [JNum paymentId] (select_with_owner paymentId) w Fw eq_refl).
    rewrite Sel.
    cbn [snd select_with_owner]. fold w1.
    rewrite Z.eqb_refl. cbn [negb]. rewrite Pe. cbn [is_pending negb].
    cbv zeta. rewrite Ref, Es.
    assert (N : String.eqb reference "" = false) by (apply String.eqb_neq; exact Ne).
    rewrite N. rewrite Run.
    rewrite (execute_run [JNum paymentId] (select_by_id paymentId)
               (mkWorld (set_rows (store w1)
                           (updated paymentId (poll_write (JStr reference) polled)
                              (rows (store w1)))) []) eq_refl eq_refl).
    cbn [store fst snd select_by_id]. rewrite rows_set_rows.
    rewrite filter_id_updated by apply poll_write_id.
    change (store w1) with (store w).
    rewrite Z.eqb_refl, Fi. cbn [map]. reflexivity. }
  rewrite Eval. cbn [fst snd store]. split; [reflexivity|].
  split; [apply poll_write_status | apply rows_set_rows].
Qed.

Lemma status_route_answers_what_it_wrote_witness :
  exists polled p0,
    fst (payment_status_route (Sample.env_of Sample.gateway_cancelled) Sample.tenant_user 1
           (Sample.world_with pending None)) =
      Ok (mkResponse 200
            (Payment_view (view_of (poll_write (JStr "ws_CO_191220191020363925") polled p0)))).
Proof.
  destruct (status_route_answers_what_it_wrote (Sample.env_of Sample.gateway_cancelled)
              Sample.tenant_user 1 (Sample.world_with pending None)
              (Sample.a_payment pending None) [] "ws_CO_191220191020363925"
              eq_refl eq_refl eq_refl eq_refl eq_refl)
    as (polled & p0 & _ & _ & H & _).
  - discriminate.
  - exists polled, p0. exact H.
Defined.

(** ** The token middleware *)

Lemma split_no_space (t : string) : no_space t = true -> split " " t = [t].
Proof.
  induction t as [|c t IH]; simpl; [reflexivity|].
  intros H. apply andb_true_iff in H. destruct H as [C N].
  apply negb_true_iff in C. rewrite C, (IH N). reflexivity.
Qed.

Lemma authenticateToken_cases {B R : Type} (jwt_verify : string -> outcome user)
  (respond : response -> R) (req : request B) (next : user -> M R) (w : world) :
  authenticateToken jwt_verify respond req next w = (Ok (respond no_token), w)
  \/ (exists err, authenticateToken jwt_verify respond req next w
                  = (Ok (respond (bad_token err)), w))
  \/ (exists h token u,
        authorization req = Some h /\ nth_error (split " " h) 1 = Some token /\
        token <> "" /\ jwt_verify token = Ok u /\
        authenticateToken jwt_verify respond req next w = next u w).
Proof.
  unfold authenticateToken.
  destruct (authorization req) as [h|]; [|left; reflexivity].
  destruct (String.eqb h ""); [left; reflexivity|].
  destruct (nth_error (split " " h) 1) as [token|] eqn:N; [|left; reflexivity].
  destruct (String.eqb token "") eqn:E; [left; reflexivity|].
  apply String.eqb_neq in E.
  destruct (jwt_verify token) as [u|err] eqn:V.
  - right. right. exists h, token, u. auto.
  - right. left. exists err. reflexivity.
Qed.

(** X10: [authenticateToken] lets a request through only with a user that
    [jwt.verify] returned for the second word of the [Authorization]
    header; every other request is answered 401 (no header, or no second
    word) or 403 (token refused) and the connection is not touched. For a
    header "Bearer t", [t] without a space and not empty, the outcome is
    that of [jwt.verify] on [t]. *)
Theorem authenticateToken_gate {B R : Type} (jwt_verify : string -> outcome user)
  (respond : response -> R) (req : request B) (next : user -> M R) (w : world) :
  (authenticateToken jwt_verify respond req next w = (Ok (respond no_token), w)
   \/ (exists err, authenticateToken jwt_verify respond req next w
                   = (Ok (respond (bad_token err)), w))
   \/ (exists h token u,
         authorization req = Some h /\ nth_error (split " " h) 1 = Some token /\
         token <> "" /\ jwt_verify token = Ok u /\
         authenticateToken jwt_verify respond req next w = next u w)) /\
  (forall t, authorization req = Some ("Bearer " ++ t) -> no_space t = true -> t <> "" ->
     authenticateToken jwt_verify respond req next w =
     match jwt_verify t with
     | Ok u => next u w
     | Throw err => (Ok (respond (bad_token err)), w)
     end).
Proof.
  split.
  - apply authenticateToken_cases.
  - intros t H N Ne. unfold authenticateToken. rewrite H.
    change (String.eqb ("Bearer " ++ t) "") with false. cbv iota.
    assert (S : split " " ("Bearer " ++ t) = ["Bearer"; t]).
    { cbn. rewrite (split_no_space t N). reflexivity. }
    rewrite S. cbn [nth_error].
    assert (E : String.eqb t "" = false) by (apply String.eqb_neq; exact Ne).
    rewrite E. destruct (jwt_verify t); reflexivity.
Qed.

Lemma authenticateToken_gate_witness :
  authenticateToken (fun _ => Ok Sample.tenant_user) (fun res => res)
    (mkRequest (Some "Bearer abc") tt) (fun _ => ret Server.accepted) Sample.empty_world
  = (Ok Server.accepted, Sample.empty_world).
Proof.
  destruct (authenticateToken_gate (fun _ => Ok Sample.tenant_user) (fun res => res)
              (mkRequest (Some "Bearer abc") tt) (fun _ => ret Server.accepted)
              Sample.empty_world) as [_ H].
  apply (H "abc"); [reflexivity | reflexivity | discriminate].
Defined.

(** ** A successful initiation *)

Lemma updated_fresh (i : Z) (f : payment -> payment) (rs : list payment) :
  (forall p, In p rs -> id p <> i) -> updated i f rs = rs.
Proof.
  intros H. unfold updated. induction rs as [|p rs IH]; simpl; [reflexivity|].
  assert (E : (id p =? i) = false) by (apply Z.eqb_neq, H; left; reflexivity).
  rewrite E, IH; [reflexivity|]. intros q Hq. apply H. right. exact Hq.
Qed.

Lemma updated_app (i : Z) (f : payment -> payment) (a b : list payment) :
  updated i f (a ++ b)%list = (updated i f a ++ updated i f b)%list.
Proof. unfold updated. apply map_app. Qed.

(** X11: take an initiation that nothing interrupts, on a connection
    with no transaction open and where no payment yet carries the next
    [id]. When it answers 201, exactly one payment has been committed on
    top of those that were there: it carries the next [id], the tenant
    and the property of the user of the token, the floor of
    [Number(amount)], the method mpesa, the status pending and the
    [CheckoutRequestID] of the gateway for reference; the answer names
    that [id] and that identifier; no transaction is left open; and the
    deferred check is armed for them in sandbox only. *)
Theorem initiate_success_row (StringToNumber : string -> jsnum) (e : env) (u : user)
  (req : request initiate_body) (w : world) (res : response) (t : option timer) :
  working (store w) = None ->
  next_id_free (store w) ->
  fst (initiate StringToNumber e u req w) = Ok (res, t) ->
  status_code res = 201 ->
  let amount := Number_of StringToNumber (b_amount (body req)) in
  let w' := snd (initiate StringToNumber e u req w) in
  exists tenant0 reference n data,
    In tenant0 (tenants (store w)) /\ t_user_id tenant0 = u_id u /\
    payments (store w') =
      (payments (store w)
       ++ [initiated_row (store w) tenant0 (Math_floor amount) (today e) reference n])%list /\
    working (store w') = None /\
    auto_increment (store w') = auto_increment (store w) + 1 /\
    json res = Initiated data /\
    i_paymentId data = auto_increment (store w) /\
    i_checkoutRequestId data = reference /\
    i_amount data = Math_floor amount /\
    t = match environment_of e with
        | sandbox => Some (mkTimer reference (auto_increment (store w)))
        | production => None
        end.
Proof.
  intros idle Free.
  set (d := store w).
  assert (idle' : working d = None) by exact idle.
  set (amount := Number_of StringToNumber (b_amount (body req))).
  set (Good := fun (res : response) (t : option timer) (w' : world) =>
    exists tenant0 reference n data,
      In tenant0 (tenants d) /\ t_user_id tenant0 = u_id u /\
      payments (store w') =
        (payments d
         ++ [initiated_row d tenant0 (Math_floor amount) (today e) reference n])%list /\
      working (store w') = None /\
      auto_increment (store w') = auto_increment d + 1 /\
      json res = Initiated data /\
      i_paymentId data = auto_increment d /\
      i_checkoutRequestId data = reference /\
      i_amount data = Math_floor amount /\
      t = match environment_of e with
          | sandbox => Some (mkTimer reference (auto_increment d))
          | production => None
          end).
  enough (H : hoare (fun w' => w' = w) (initiate StringToNumber e u req)
                (fun r w' => forall res t, r = Ok (res, t) -> status_code res = 201 ->
                                           Good res t w')).
  { intros E S. apply (H w eq_refl res t E S). }
  unfold initiate.
  assert (Early : forall (P : world -> Prop) (res : response), status_code res <> 201 ->
            hoare P (ret (res, @None timer))
              (fun r w' => match r with
                           | Ok a => forall res t, Ok a = Ok (res, t) ->
                                       status_code res = 201 -> Good res t w'
                           | Throw _ => True
                           end)).
  { intros P r0 N. apply hoare_ret. intros w' _ r1 t1 E S. injection E as <- _.
    contradiction. }
  apply hoare_try_catch with (R := fun _ _ => True).
  2:{ intros error. apply hoare_ret. intros w' _ r1 t1 E S. injection E as <- _.
      discriminate S. }
  cbv zeta. fold amount.
  destruct (b_phone (body req)) as [phone|]; [|apply Early; cbn; discriminate].
  destruct (falsy (b_amount (body req)) || String.eqb phone "");
    [apply Early; cbn; discriminate|].
  destruct (isNaN (Math_floor amount) || _ || _); [apply Early; cbn; discriminate|].
  destruct (formatPhoneNumber phone) as [formattedPhone|phoneError];
    [|apply Early; cbn; discriminate].
  apply hoare_bind with
    (R := fun tenant w' => store w' = d /\ tenant = fst (select_tenant (u_id u) d)).
  { apply hoare_execute; auto. intros w' -> _ _. cbn. auto. }
  intros [|tenant0 rest]; [apply Early; cbn; discriminate|].
  apply hoare_bind with
    (R := fun _ w' =>
            store w' = mkDb (payments d) (Some (payments d)) (tenants d) (auto_increment d)
            /\ tenant0 :: rest = fst (select_tenant (u_id u) d)).
  { apply hoare_driver; auto. intros w' [E T] _. cbn. rewrite E.
    unfold rows. rewrite idle'. auto. }
  intros _.
  apply hoare_try_catch with (R := fun _ _ => True).
  2:{ intros error. apply hoare_bind with (R := fun _ _ => True); [skip_step|].
      intros _. apply hoare_throw. auto. }
  set (row0 := mkPayment (auto_increment d) (t_id tenant0) (t_property_id tenant0)
                 (decimal_of (Math_floor amount)) (today e) "mpesa" pending None
                 (Some (NotesText ("STK Push to " ++ mask formattedPhone)))).
  apply hoare_bind with
    (R := fun paymentId w' =>
            paymentId = auto_increment d /\
            store w' = mkDb (payments d) (Some (payments d ++ [row0])%list) (tenants d)
                         (auto_increment d + 1) /\
            tenant0 :: rest = fst (select_tenant (u_id u) d)).
  { apply hoare_execute; auto. intros w' [E T] _ _. cbn. rewrite E. cbn. auto. }
  intros paymentId.
  apply hoare_bind with
    (R := fun mpesaResponse w' =>
            paymentId = auto_increment d /\
            store w' = mkDb (payments d) (Some (payments d ++ [row0])%list) (tenants d)
                         (auto_increment d + 1) /\
            tenant0 :: rest = fst (select_tenant (u_id u) d)).
  { apply hoare_lift. intros w' H. destruct (initiatePayment _ _ _); auto. }
  intros mpesaResponse.
  set (n := JSON_stringify
              [ ("merchantRequestId", PushAck.MerchantRequestID mpesaResponse);
                ("checkoutRequestId", PushAck.CheckoutRequestID mpesaResponse);
                ("responseCode", PushAck.ResponseCode mpesaResponse);
                ("phoneNumber", JStr (mask formattedPhone));
                ("initiatedAt", JStr (now_iso e)) ]).
  set (row1 := initiated_row d tenant0 (Math_floor amount) (today e)
                 (PushAck.CheckoutRequestID mpesaResponse) n).
  apply hoare_bind with
    (R := fun _ w' =>
            paymentId = auto_increment d /\
            store w' = mkDb (payments d) (Some (payments d ++ [row1])%list) (tenants d)
                         (auto_increment d + 1) /\
            tenant0 :: rest = fst (select_tenant (u_id u) d)).
  { apply hoare_execute; auto. intros w' (Ep & E & T) _ _. cbn [store snd fst].
    split; [exact Ep|]. split; [|exact T].
    rewrite E. unfold update_where_id, set_rows, rows. cbn.
    f_equal. f_equal. subst paymentId.
    change (map (fun p => if id p =? auto_increment d
                          then set_reference (PushAck.CheckoutRequestID mpesaResponse) n p
                          else p) (payments d ++ [row0])%list)
      with (updated (auto_increment d)
              (set_reference (PushAck.CheckoutRequestID mpesaResponse) n)
              (payments d ++ [row0])%list).
    rewrite updated_app, updated_fresh.
    - unfold updated. cbn. rewrite Z.eqb_refl. reflexivity.
    - intros p Hp. apply Free. unfold rows. fold d. rewrite idle'. exact Hp. }
  intros _.
  apply hoare_bind with
    (R := fun _ w' =>
            paymentId = auto_increment d /\
            store w' = mkDb (payments d ++ [row1])%list None (tenants d) (auto_increment d + 1) /\
            tenant0 :: rest = fst (select_tenant (u_id u) d)).
  { apply hoare_driver; auto. intros w' (Ep & E & T) _. cbn. rewrite E. cbn. auto. }
  intros _. apply hoare_ret. intros w' (Ep & E & T) r1 t1 Eq _.
  injection Eq as <- <-.
  assert (Hin : In tenant0 (fst (select_tenant (u_id u) d)))
    by (rewrite <- T; left; reflexivity).
  cbn in Hin. apply filter_In in Hin. destruct Hin as [Hin Hu]. apply Z.eqb_eq in Hu.
  exists tenant0, (PushAck.CheckoutRequestID mpesaResponse), n.
  eexists. rewrite E. cbn [payments working auto_increment json].
  subst paymentId.
  repeat split; try reflexivity; auto.
Qed.

Lemma initiate_success_row_witness :
  exists tenant0 n,
    payments (store (snd (initiate Sample.text_is_NaN (Sample.env_of Sample.gateway_ok)
                            Sample.tenant_user (Sample.pay 500) Sample.empty_world))) =
    [initiated_row (store Sample.empty_world) tenant0 (Math_floor (Fin 500)) "2025-01-01"
       (JStr "ws_CO_191220191020363925") n].
Proof.
  destruct (initiate_success_row Sample.text_is_NaN (Sample.env_of Sample.gateway_ok)
              Sample.tenant_user (Sample.pay 500) Sample.empty_world
              (mkResponse 201
                 (Initiated
                    (mkInitiated 1 (JStr "29115-34620561-1") (JStr "ws_CO_191220191020363925")
                       (JStr "0")
                       "STK push sent to 254712***. Please check your phone and enter your M-Pesa PIN."
                       (Math_floor (Fin 500)) "254712***")))
              (Some (mkTimer (JStr "ws_CO_191220191020363925") 1)) eq_refl)
    as (tenant0 & reference & n & data & _ & _ & P & _ & _ & J & _ & C & _).
  - intros p [].
  - reflexivity.
  - reflexivity.
  - injection J as <-. cbn in C. subst reference.
    exists tenant0, n. exact P.
Defined.

(** ** The token cache *)

(** The stateful call and [MpesaService.getAccessToken] agree on the
    token. *)
Lemma session_token_source (env : environment) (now later : Z) (simulated : string)
  (answer : http Session.token_answer) (settled s : Session.t) (o : oracle) :
  token o = Session.source_of now simulated answer settled s ->
  fst (Session.getAccessToken env now later simulated answer settled s)
  = getAccessToken env o.
Proof.
  intros H. unfold getAccessToken, Session.getAccessToken. rewrite H.
  unfold Session.source_of.
  destruct (Session.tokenRefreshInProgress s); [reflexivity|].
  destruct (truthy (Session.accessToken s) && _); [reflexivity|].
  destruct env; [reflexivity|]. destruct answer; reflexivity.
Qed.

(** X13: a token once obtained is served from the cache, with no call to
    the gateway and no change of the session, by every later
    [getAccessToken] made more than five minutes before its expiry; after
    a call that returns, no refresh is marked in progress. In sandbox a
    refreshed token lives one hour from the refresh, and a call made
    later than five minutes before the expiry draws a new one. *)
Theorem token_is_reused_until_expiry (env : environment) (now later : Z)
  (simulated : string) (answer : http Session.token_answer) (settled s : Session.t)
  (tok : jsval) :
  Session.tokenRefreshInProgress s = false ->
  fst (Session.getAccessToken env now later simulated answer settled s) = Ok tok ->
  truthy tok = true ->
  let s1 := snd (Session.getAccessToken env now later simulated answer settled s) in
  Session.tokenRefreshInProgress s1 = false /\
  Session.accessToken s1 = tok /\
  exists expiry,
    Session.tokenExpiry s1 = Some expiry /\
    (forall now' later' simulated' answer' settled',
       now' < expiry - 300000 ->
       Session.getAccessToken env now' later' simulated' answer' settled' s1 = (Ok tok, s1)) /\
    (forall now' later' simulated' answer' settled',
       expiry - 300000 <= now' -> env = sandbox ->
       Session.getAccessToken env now' later' simulated' answer' settled' s1 =
       (Ok (JStr simulated'),
        Session.mk (JStr simulated') (Some (later' + 3600000)) false)).
Proof.
  intros Fl. unfold Session.getAccessToken at 1 2. rewrite Fl.
  assert (Served : forall t expiry,
            truthy t = true ->
            (forall now' later' simulated' answer' settled',
               now' < expiry - 300000 ->
               Session.getAccessToken env now' later' simulated' answer' settled'
                 (Session.mk t (Some expiry) false) =
               (Ok t, Session.mk t (Some expiry) false)) /\
            (forall now' later' simulated' answer' settled',
               expiry - 300000 <= now' -> env = sandbox ->
               Session.getAccessToken env now' later' simulated' answer' settled'
                 (Session.mk t (Some expiry) false) =
               (Ok (JStr simulated'),
                Session.mk (JStr simulated') (Some (later' + 3600000)) false))).
  { intros t expiry Tr. split.
    - intros now' later' simulated' answer' settled' L.
      unfold Session.getAccessToken. cbn. rewrite Tr.
      apply Z.ltb_lt in L. rewrite L. reflexivity.
    - intros now' later' simulated' answer' settled' L ->.
      unfold Session.getAccessToken. cbn. rewrite Tr.
      apply Z.ltb_ge in L. rewrite L. reflexivity. }
  destruct (truthy (Session.accessToken s) && _) eqn:V.
  - (* served from the cache *)
    cbn [fst snd]. intros E Tr. injection E as E.
    destruct s as [t ex fl]. cbn in *. subst fl t.
    destruct ex as [expiry|]; [|rewrite andb_false_r in V; discriminate V].
    split; [reflexivity|]. split; [reflexivity|].
    exists expiry. split; [reflexivity|]. apply Served, Tr.
  - destruct env.
    + cbn [fst snd]. intros E Tr. injection E as <-.
      split; [reflexivity|]. split; [reflexivity|].
      eexists. split; [reflexivity|]. apply Served, Tr.
    + destruct answer as [data|m d]; cbn [fst snd]; intros E Tr; [|discriminate E].
      injection E as <-.
      split; [reflexivity|]. split; [reflexivity|].
      eexists. split; [reflexivity|]. apply Served, Tr.
Qed.

Lemma token_is_reused_until_expiry_witness :
  Session.getAccessToken sandbox 3000000 3000000 "sandbox_token_2" (Http_error "" None)
    Session.initial
    (snd (Session.getAccessToken sandbox 0 0 "sandbox_token_1" (Http_error "" None)
            Session.initial Session.initial))
  = (Ok (JStr "sandbox_token_1"),
     snd (Session.getAccessToken sandbox 0 0 "sandbox_token_1" (Http_error "" None)
            Session.initial Session.initial)).
Proof.
  destruct (token_is_reused_until_expiry sandbox 0 0 "sandbox_token_1" (Http_error "" None)
              Session.initial Session.initial (JStr "sandbox_token_1")
              eq_refl eq_refl eq_refl) as (_ & _ & expiry & E & H & _).
  injection E as <-. apply H. reflexivity.
Defined.

(** X14: when the token request fails, the call throws "Failed to
    authenticate with M-Pesa API" and the cache is emptied, so that no
    stale token is served afterwards: the next call asks the gateway
    again, at whatever time it is made. *)
Theorem failed_refresh_empties_the_cache (now later : Z) (simulated m : string)
  (d : option (jsval * jsval)) (settled s : Session.t) :
  Session.tokenRefreshInProgress s = false ->
  (forall expiry, Session.tokenExpiry s = Some expiry -> expiry - 300000 <= now) ->
  Session.getAccessToken production now later simulated (Http_error m d) settled s =
    (Throw (Error "Failed to authenticate with M-Pesa API"), Session.initial) /\
  (forall now' later' simulated' data settled',
     Session.getAccessToken production now' later' simulated' (Http_ok data) settled'
       Session.initial =
     (Ok (Session.access_token data),
      Session.mk (Session.access_token data)
        (Some (later' + Session.expires_in data * 1000)) false)).
Proof.
  intros Fl Ex. split; [|reflexivity].
  unfold Session.getAccessToken. rewrite Fl.
  destruct (Session.tokenExpiry s) as [expiry|].
  - specialize (Ex expiry eq_refl). apply Z.ltb_ge in Ex. rewrite Ex, andb_false_r.
    reflexivity.
  - rewrite andb_false_r. reflexivity.
Qed.

Lemma failed_refresh_empties_the_cache_witness :
  Session.getAccessToken production 10 10 "" (Http_error "timeout" None) Session.initial
    (Session.mk (JStr "old") (Some 5) false) =
  (Throw (Error "Failed to authenticate with M-Pesa API"), Session.initial).
Proof.
  apply (failed_refresh_empties_the_cache 10 10 "" "timeout" None Session.initial
           (Session.mk (JStr "old") (Some 5) false) eq_refl).
  intros expiry H. injection H as <-. discriminate.
Defined.

(** ** The configuration *)

Lemma or_else_present (a : option string) (b : string) :
  b <> "" -> Config.missing (Some (Config.or_else a b)) = false.
Proof.
  intros Hb. unfold Config.missing, Config.or_else.
  destruct a as [s|]; [destruct (String.eqb s "") eqn:E|];
    try (apply String.eqb_neq; exact Hb).
  exact E.
Qed.

(** X15: on the configuration that server.js builds from the environment,
    [validateConfig] can only complain about the consumer key, the
    consumer secret, and a [MPESA_SHORTCODE] that is not 5 or 6 digits:
    the passkey, the presence of the shortcode and the environment are
    always accepted, thanks to the defaults. It is valid exactly when key
    and secret are set and the shortcode in force is 5 or 6 digits. *)
Theorem server_configuration_errors (key secret pass code env : option string) :
  let c := Config.mpesaConfig key secret pass code env in
  (forall m, In m (Config.errors c) ->
     m = "Consumer Key is required" \/ m = "Consumer Secret is required" \/
     m = "Shortcode must be 5-6 digits") /\
  (Config.valid c = true <->
     Config.missing key = false /\ Config.missing secret = false /\
     Config.five_or_six_digits (Some (Config.or_else code "174379")) = true) /\
  (code = None -> Config.five_or_six_digits (Config.shortcode c) = true).
Proof.
  cbv zeta. unfold Config.valid, Config.errors, Config.mpesaConfig.
  cbn [Config.consumerKey Config.consumerSecret Config.passkey Config.shortcode
       Config.environment].
  rewrite (or_else_present pass) by discriminate.
  rewrite (or_else_present code) by discriminate.
  assert (En : (match env with
                | Some v => if String.eqb v "production" then "production" else "sandbox"
                | None => "sandbox"
                end =? "sandbox")%string
               || (match env with
                   | Some v => if String.eqb v "production" then "production" else "sandbox"
                   | None => "sandbox"
                   end =? "production")%string = true).
  { destruct env as [v|]; [destruct (String.eqb v "production")|]; reflexivity. }
  rewrite En. cbn [negb app].
  split; [|split].
  - destruct (Config.missing key); destruct (Config.missing secret);
      destruct (Config.five_or_six_digits _); cbn; intros m H;
      repeat (destruct H as [<- | H]; auto); destruct H.
  - destruct (Config.missing key); destruct (Config.missing secret);
      destruct (Config.five_or_six_digits _); cbn;
      split; intros H; try discriminate H; try reflexivity; auto;
      destruct H as (H1 & H2 & H3); discriminate.
  - intros ->. reflexivity.
Qed.

Lemma server_configuration_errors_witness :
  Config.valid (Config.mpesaConfig (Some "key") (Some "secret") None None None) = true.
Proof.
  destruct (server_configuration_errors (Some "key") (Some "secret") None None None)
    as (_ & H & _).
  apply H. repeat split; reflexivity.
Defined.

(** ** The timestamp *)

Lemma two_digits (n : Z) :
  0 <= n <= 99 ->
  String.length (Clock.padStart 2 (Z_toString n)) = 2%nat /\
  all_digits (Clock.padStart 2 (Z_toString n)) = true.
Proof.
  intros H.
  assert (All : forallb (fun k =>
                  Nat.eqb (String.length (Clock.padStart 2 (Z_toString (Z.of_nat k)))) 2
                  && all_digits (Clock.padStart 2 (Z_toString (Z.of_nat k))))
                  (seq 0 100) = true) by (vm_compute; reflexivity).
  rewrite forallb_forall in All.
  specialize (All (Z.to_nat n)).
  rewrite Z2Nat.id in All by lia.
  assert (I : In (Z.to_nat n) (seq 0 100)) by (apply in_seq; lia).
  apply All in I. apply andb_true_iff in I. destruct I as [L D].
  apply Nat.eqb_eq in L. auto.
Qed.

Lemma four_digits (n : Z) :
  1000 <= n <= 9999 ->
  String.length (Z_toString n) = 4%nat /\ all_digits (Z_toString n) = true.
Proof.
  intros H.
  assert (All : forallb (fun k =>
                  Nat.eqb (String.length (Z_toString (Z.of_nat k))) 4
                  && all_digits (Z_toString (Z.of_nat k)))
                  (seq (Z.to_nat 1000) (Z.to_nat 9000)) = true) by (vm_compute; reflexivity).
  rewrite forallb_forall in All.
  specialize (All (Z.to_nat n)).
  rewrite Z2Nat.id in All by lia.
  assert (I : In (Z.to_nat n) (seq (Z.to_nat 1000) (Z.to_nat 9000))) by (apply in_seq; lia).
  apply All in I. apply andb_true_iff in I. destruct I as [L D].
  apply Nat.eqb_eq in L. auto.
Qed.

(** X16: for a date with a four-digit year, [generateTimestamp] is 14
    digits long, YYYYMMDDHHMMSS, the month counted from 1 and every field
    after the year padded to two digits. *)
Theorem generateTimestamp_is_14_digits (now : Clock.t) :
  Clock.well_formed now ->
  String.length (Clock.generateTimestamp now) = 14%nat /\
  all_digits (Clock.generateTimestamp now) = true.
Proof.
  intros (Y & Mo & D & H & Mi & S).
  unfold Clock.generateTimestamp.
  destruct (four_digits (Clock.year now) Y) as [L1 D1].
  destruct (two_digits (Clock.month now + 1)) as [L2 D2]; [lia|].
  destruct (two_digits (Clock.day now)) as [L3 D3]; [lia|].
  destruct (two_digits (Clock.hours now)) as [L4 D4]; [lia|].
  destruct (two_digits (Clock.minutes now)) as [L5 D5]; [lia|].
  destruct (two_digits (Clock.seconds now)) as [L6 D6]; [lia|].
  repeat rewrite length_app. repeat rewrite all_digits_app.
  rewrite L1, L2, L3, L4, L5, L6, D1, D2, D3, D4, D5, D6.
  split; reflexivity.
Qed.

Lemma generateTimestamp_is_14_digits_witness :
  String.length (Clock.generateTimestamp (Clock.mk 2025 0 5 9 3 7)) = 14%nat.
Proof.
  apply (generateTimestamp_is_14_digits (Clock.mk 2025 0 5 9 3 7)).
  unfold Clock.well_formed. cbn. lia.
Defined.

(** The same date, as the gateway reads it. *)
Example generateTimestamp_sample :
  Clock.generateTimestamp (Clock.mk 2025 0 5 9 3 7) = "20250105090307".
Proof. reflexivity. Qed.

(** X17: [clearTokenCache] forces a refresh: when no refresh is in
    flight, the call of [getAccessToken] that follows it does what the
    first call of a new service does, whatever token was cached and however
    long it had to live: in sandbox a simulated token, in production the
    token of the gateway or the error of the refresh. It does not release
    a call that waits: with a refresh in flight the token of that refresh
    is still the one returned. *)
Theorem cleared_cache_forces_a_refresh (env : environment) (now later : Z)
  (simulated : string) (answer : http Session.token_answer) (settled s : Session.t) :
  (Session.tokenRefreshInProgress s = false ->
   Session.getAccessToken env now later simulated answer settled (Session.clearTokenCache s)
   = Session.getAccessToken env now later simulated answer settled Session.initial /\
   fst (Session.getAccessToken env now later simulated answer settled
          (Session.clearTokenCache s))
   = match env, answer with
     | sandbox, _ => Ok (JStr simulated)
     | production, Http_ok data => Ok (Session.access_token data)
     | production, Http_error _ _ => Throw (Error "Failed to authenticate with M-Pesa API")
     end) /\
  (Session.tokenRefreshInProgress s = true ->
   Session.getAccessToken env now later simulated answer settled (Session.clearTokenCache s)
   = (Ok (Session.accessToken settled), settled)).
Proof.
  split; intros Fl; unfold Session.getAccessToken, Session.clearTokenCache; cbn; rewrite Fl.
  - split; [reflexivity|]. destruct env; [reflexivity|]. destruct answer; reflexivity.
  - reflexivity.
Qed.

Lemma cleared_cache_forces_a_refresh_witness :
  fst (Session.getAccessToken sandbox 0 1000 "sandbox_token_1_abc"
         (Http_error "timeout" None) Session.initial
         (Session.clearTokenCache (Session.mk (JStr "cached") (Some 4000000) false)))
  = Ok (JStr "sandbox_token_1_abc").
Proof.
  destruct (cleared_cache_forces_a_refresh sandbox 0 1000 "sandbox_token_1_abc"
              (Http_error "timeout" None) Session.initial
              (Session.mk (JStr "cached") (Some 4000000) false)) as [H _].
  destruct (H eq_refl) as [_ E]. exact E.
Defined.

(** ** The request posted to the gateway *)

Lemma substring_to_length (n : nat) (s : string) :
  String.length (substring_to n s) = Nat.min n (String.length s).
Proof.
  unfold substring_to. revert s. induction n as [|n IH]; intros [|c t]; simpl; auto.
Qed.

Lemma substring_to_prefix (n : nat) (s : string) :
  String.prefix (substring_to n s) s = true.
Proof.
  unfold substring_to. revert s. induction n as [|n IH]; intros [|c t]; simpl; auto.
  destruct (ascii_dec c c); [apply IH | congruence].
Qed.

Lemma prefix_refl (s : string) : String.prefix s s = true.
Proof.
  induction s as [|c t IH]; simpl; [reflexivity|].
  destruct (ascii_dec c c); [exact IH | congruence].
Qed.

Lemma truncate_spec (n : nat) (s : string) :
  String.length (truncate n s) = Nat.min n (String.length s) /\
  String.prefix (truncate n s) s = true.
Proof.
  unfold truncate. destruct (n <? String.length s)%nat eqn:E.
  - split; [apply substring_to_length | apply substring_to_prefix].
  - apply Nat.ltb_ge in E. split; [lia | apply prefix_refl].
Qed.

(** X18: the request that [initiatePayment] builds for the gateway is
    well formed whenever it is built: payer and phone are the same 12
    digits beginning with 254, the account reference is the first 12
    characters of the one requested and the description the first 13, the
    amount is the floor of the one requested and, when that is a finite
    number, an integer not below 1; payer of the bill and receiver are the
    shortcode. When it cannot be built (phone or amount refused) the call
    throws the message of that refusal. The check of the amount lets NaN
    through. *)
Theorem posted_request_is_well_formed (base64 : string -> string)
  (shortcode passkey timestamp : string) (r : PaymentRequest.t) :
  match StkPush.payload base64 shortcode passkey timestamp r with
  | Ok p =>
      StkPush.PartyA p = StkPush.PhoneNumber p /\
      String.length (StkPush.PhoneNumber p) = 12%nat /\
      all_digits (StkPush.PhoneNumber p) = true /\
      startsWith (StkPush.PhoneNumber p) "254" = true /\
      String.length (StkPush.AccountReference p)
        = Nat.min 12 (String.length (PaymentRequest.accountReference r)) /\
      String.prefix (StkPush.AccountReference p) (PaymentRequest.accountReference r) = true /\
      String.length (StkPush.TransactionDesc p)
        = Nat.min 13 (String.length (PaymentRequest.transactionDesc r)) /\
      String.prefix (StkPush.TransactionDesc p) (PaymentRequest.transactionDesc r) = true /\
      StkPush.Amount p = Math_floor (PaymentRequest.amount r) /\
      (forall q, PaymentRequest.amount r = Fin q ->
         StkPush.Amount p = of_Z (Qfloor q) /\ 1 <= Qfloor q) /\
      StkPush.BusinessShortCode p = shortcode /\ StkPush.PartyB p = shortcode
  | Throw x =>
      forall env o t, getAccessToken env o = Ok t ->
        initiatePayment env o r
        = Throw (Error (or_default (message_of x) "Failed to send STK push"))
  end /\
  checked_amount NaN = Ok NaN.
Proof.
  split; [|reflexivity].
  unfold StkPush.payload.
  destruct (formatPhoneNumber (PaymentRequest.phone r)) as [formattedPhone|x] eqn:F.
  - destruct (checked_amount (PaymentRequest.amount r)) as [amount|x] eqn:C.
    + cbn.
      destruct (formatPhoneNumber_cases (PaymentRequest.phone r))
        as [(_ & F' & L & P & D) | (_ & m & F')]; [|rewrite F' in F; discriminate F].
      rewrite F' in F. injection F as <-.
      destruct (truncate_spec 12 (PaymentRequest.accountReference r)) as [La Pa].
      destruct (truncate_spec 13 (PaymentRequest.transactionDesc r)) as [Ld Pd].
      unfold checked_amount in C.
      destruct (num_lt (Math_floor (PaymentRequest.amount r)) (of_Z 1)) eqn:N;
        [discriminate C|]. injection C as <-.
      repeat split; auto.
      * rewrite H. reflexivity.
      * rewrite H in N.
        destruct (Z_lt_le_dec (Qfloor q) 1) as [Lt|Le]; [|exact Le].
        exfalso. apply Qfloor_lt_iff in Lt. apply (num_lt_floor q 1) in Lt. congruence.
    + intros env o t T. unfold initiatePayment. rewrite T, F, C. reflexivity.
  - intros env o t T. unfold initiatePayment. rewrite T, F. reflexivity.
Qed.

Lemma posted_request_is_well_formed_witness :
  initiatePayment sandbox Sample.gateway_ok
    (PaymentRequest.mk "12345" (Fin 500) "RENT1" "Rent" "https://example.org/callback")
  = Throw (Error "Phone number must be 12 digits in 254XXXXXXXXX format").
Proof.
  destruct (posted_request_is_well_formed (fun s => s) "174379" "passkey" "20250101120000"
              (PaymentRequest.mk "12345" (Fin 500) "RENT1" "Rent"
                 "https://example.org/callback")) as [H _].
  change (StkPush.payload _ _ _ _ _)
    with (@Throw StkPush.t
            (Error "Phone number must be 12 digits in 254XXXXXXXXX format")) in H.
  exact (H sandbox Sample.gateway_ok (JStr "token") eq_refl).
Defined.

(** ** The landlord's update *)

(** X19: the route that updates a payment reaches the store only for a
    token that [jwt.verify] accepts, whose user has the role landlord,
    and for a status that is one of pending, completed, failed and
    refunded: every other request leaves the connection as it is. The
    route never throws. *)
Theorem only_landlords_update_payments (update_payment : jsval -> jsval -> Z -> db -> Z * db)
  (jwt_verify : string -> outcome user) (req : request Admin.update_body)
  (paymentId : Z) (w : world) :
  (exists res, fst (Admin.put_payment update_payment jwt_verify req paymentId w) = Ok res) /\
  (snd (Admin.put_payment update_payment jwt_verify req paymentId w) <> w ->
   exists h token u,
     authorization req = Some h /\ nth_error (split " " h) 1 = Some token /\
     jwt_verify token = Ok u /\ u_role u = "landlord" /\
     Admin.allowed (Admin.b_payment_status (body req)) = true).
Proof.
  unfold Admin.put_payment.
  set (next := fun u : user =>
         Admin.checkRole "landlord" inr u
           (res <- Admin.update_status update_payment paymentId (body req) ;; ret (inr res))).
  assert (Total : forall w', exists res,
            fst (Admin.update_status update_payment paymentId (body req) w') = Ok res).
  { intros w'. unfold Admin.update_status, try_catch.
    destruct (negb (Admin.allowed _)); [eexists; reflexivity|].
    unfold bind. destruct (execute _ _ w') as [[n|x] w'']; [|eexists; reflexivity].
    destruct (n =? 0); eexists; reflexivity. }
  destruct (authenticateToken_cases jwt_verify inl req next w)
    as [E | [(err & E) | (h & token & u & A & N & Ne & V & E)]].
  - rewrite E. split; [eexists; reflexivity|]. intros C. contradiction C. reflexivity.
  - rewrite E. split; [eexists; reflexivity|]. intros C. contradiction C. reflexivity.
  - rewrite E. unfold next, Admin.checkRole.
    destruct (String.eqb (u_role u) "landlord") eqn:Ro; cbn [negb].
    + apply String.eqb_eq in Ro. unfold bind.
      destruct (Total w) as [res Hres].
      destruct (Admin.update_status update_payment paymentId (body req) w)
        as [[r|x] w'] eqn:U; cbn in Hres; [|discriminate Hres].
      split; [eexists; reflexivity|]. cbn [snd ret]. intros C.
      exists h, token, u. repeat split; auto.
      destruct (Admin.allowed (Admin.b_payment_status (body req))) eqn:Al; [reflexivity|].
      exfalso. apply C. unfold Admin.update_status, try_catch in U. rewrite Al in U.
      cbn in U. injection U as _ <-. reflexivity.
    + split; [eexists; reflexivity|]. intros C. contradiction C. reflexivity.
Qed.

Lemma only_landlords_update_payments_witness :
  exists h token u,
    Some "Bearer abc" = Some h /\ nth_error (split " " h) 1 = Some token /\
    Cases.landlord_for token = Ok u /\ u_role u = "landlord" /\
    Admin.allowed (JStr "completed") = true.
Proof.
  destruct (only_landlords_update_payments Cases.mark_refunded Cases.landlord_for
              (mkRequest (Some "Bearer abc") (Admin.mkUpdate (JStr "completed") JUndefined))
              1 (Sample.world_with pending None)) as [_ H].
  apply H. vm_compute. discriminate.
Defined.

(** ** The receipt of the simulated payments *)

Lemma all_of_app (P : ascii -> bool) (a b : string) :
  Receipt.all_of P (a ++ b) = Receipt.all_of P a && Receipt.all_of P b.
Proof.
  induction a as [|c t IH]; simpl; [reflexivity|].
  rewrite IH, andb_assoc; reflexivity.
Qed.

Lemma all_of_digits (s : string) : Receipt.all_of is_digit s = all_digits s.
Proof. induction s as [|c t IH]; simpl; [reflexivity | rewrite IH; reflexivity]. Qed.

Lemma string_app_assoc (a b c : string) : ((a ++ b) ++ c = a ++ (b ++ c))%string.
Proof. induction a as [|x t IH]; simpl; [reflexivity | rewrite IH; reflexivity]. Qed.

Lemma string_app_nil (a : string) : (a ++ "")%string = a.
Proof. induction a as [|x t IH]; simpl; [reflexivity | rewrite IH; reflexivity]. Qed.

Lemma pick_range (r : Receipt.rng) (k : nat) (n : Z) :
  Receipt.unit_interval r -> 0 < n -> 0 <= Receipt.pick r k n < n.
Proof.
  intros U Hn. destruct (U k) as [A B]. unfold Receipt.pick.
  assert (N : (inject_Z 0 < inject_Z n)%Q) by (rewrite <- Zlt_Qlt; exact Hn).
  change (inject_Z 0) with 0%Q in N.
  split.
  - change 0 with (Qfloor 0). apply Qfloor_resp_le. nra.
  - apply Qfloor_lt_iff. nra.
Qed.

Lemma get_all_of (P : ascii -> bool) (s : string) :
  Receipt.all_of P s = true ->
  forall n, (n < String.length s)%nat -> exists c, String.get n s = Some c /\ P c = true.
Proof.
  induction s as [|c t IH]; simpl; intros A n L; [lia|].
  apply andb_prop in A. destruct A as [Pc At].
  destruct n as [|n]; [exists c; auto|].
  apply IH; [exact At | lia].
Qed.

Lemma charAt_all_of (P : ascii -> bool) (alphabet : string) (j : Z) :
  Receipt.all_of P alphabet = true ->
  0 <= j < Z.of_nat (String.length alphabet) ->
  exists c, Receipt.charAt alphabet j = String c EmptyString /\ P c = true.
Proof.
  intros A R. unfold Receipt.charAt.
  assert (E : (j <? 0) = false) by (apply Z.ltb_ge; lia). rewrite E.
  destruct (get_all_of P alphabet A (Z.to_nat j)) as (c & G & Pc); [lia|].
  rewrite G. exists c. auto.
Qed.

(** A loop of the generator, from any of its states: with fuel for the
    rounds that can remain it ends, having added between [base - i] and
    [base + span - 1 - i] characters of the alphabet. *)
Lemma draw_spec (P : ascii -> bool) (r : Receipt.rng) (base span : Z) (alphabet : string) :
  Receipt.unit_interval r -> 0 < span ->
  Receipt.all_of P alphabet = true -> (0 < String.length alphabet)%nat ->
  forall fuel i k receipt,
    i <= base + span - 1 ->
    (Z.to_nat (base + span - 1 - i) < fuel)%nat ->
    exists s k',
      Receipt.draw fuel r base span alphabet i k receipt = Some ((receipt ++ s)%string, k') /\
      Receipt.all_of P s = true /\
      Z.max 0 (base - i) <= Z.of_nat (String.length s) <= base + span - 1 - i.
Proof.
  intros U Hs A Ne. induction fuel as [|fuel IH]; intros i k receipt Hi Hf; [lia|].
  cbn [Receipt.draw].
  pose proof (pick_range r k span U Hs) as Pk.
  destruct (i <? base + Receipt.pick r k span) eqn:T.
  - apply Z.ltb_lt in T.
    destruct (charAt_all_of P alphabet
                (Receipt.pick r (k + 1) (Z.of_nat (String.length alphabet))) A) as (c & C & Pc).
    { apply pick_range; [exact U | lia]. }
    rewrite C.
    destruct (IH (i + 1) (k + 2)%nat (receipt ++ String c EmptyString)%string)
      as (s & k' & D & As & L); [lia | lia |].
    exists (String c s), k'. rewrite D, string_app_assoc. cbn [append].
    split; [reflexivity|]. split; [cbn; rewrite Pc, As; reflexivity|].
    cbn [String.length]. lia.
  - apply Z.ltb_ge in T. exists EmptyString, (k + 1)%nat.
    rewrite string_app_nil. split; [reflexivity|]. split; [reflexivity|].
    cbn [String.length]. lia.
Qed.

(** X20: with every [Math.random()] in [0, 1) the receipt generator ends
    (nine rounds of each loop are enough, although the bound of a loop is
    drawn again at each test) and the receipt is two or three capital
    letters, then six to eight digits, then two capital letters: 10 to 13
    characters in all. *)
Theorem generateMpesaReceiptNumber_shape (fuel : nat) (r : Receipt.rng) (k : nat) :
  Receipt.unit_interval r -> (9 <= fuel)%nat ->
  exists a d b k',
    Receipt.generateMpesaReceiptNumber fuel r k = Some ((a ++ d ++ b)%string, k') /\
    Receipt.all_upper a = true /\ (2 <= String.length a <= 3)%nat /\
    all_digits d = true /\ (6 <= String.length d <= 8)%nat /\
    Receipt.all_upper b = true /\ String.length b = 2%nat /\
    (10 <= String.length (a ++ d ++ b) <= 13)%nat.
Proof.
  intros U F. unfold Receipt.generateMpesaReceiptNumber.
  destruct (draw_spec Receipt.is_upper r 2 2 Receipt.letters U eq_refl eq_refl
              ltac:(cbn; lia) fuel 0 k EmptyString) as (a & k1 & Da & Aa & La);
    [lia | cbn; lia |].
  rewrite Da. cbn [append].
  destruct (draw_spec is_digit r 6 3 Receipt.numbers U eq_refl eq_refl
              ltac:(cbn; lia) fuel 0 k1 a) as (d & k2 & Dd & Ad & Ld);
    [lia | cbn; lia |].
  rewrite Dd. unfold Receipt.two_letters.
  destruct (charAt_all_of Receipt.is_upper Receipt.letters (Receipt.pick r k2 26) eq_refl)
    as (x & X & Px); [apply (pick_range r k2 26 U); lia |].
  destruct (charAt_all_of Receipt.is_upper Receipt.letters (Receipt.pick r (k2 + 1) 26) eq_refl)
    as (y & Y & Py); [apply (pick_range r (k2 + 1) 26 U); lia |].
  rewrite X, Y. cbn [append].
  exists a, d, (String x (String y EmptyString)), (k2 + 2)%nat.
  rewrite string_app_assoc.
  split; [reflexivity|]. split; [exact Aa|]. split; [lia|].
  split; [rewrite <- all_of_digits; exact Ad|]. split; [lia|].
  split; [unfold Receipt.all_upper; cbn; rewrite Px, Py; reflexivity|].
  split; [reflexivity|].
  rewrite !length_app. cbn [String.length]. lia.
Qed.

Lemma generateMpesaReceiptNumber_shape_witness :
  exists a d b k',
    Receipt.generateMpesaReceiptNumber 9 (fun _ => 1 # 2) 0 = Some ((a ++ d ++ b)%string, k') /\
    Receipt.all_upper a = true /\ (2 <= String.length a <= 3)%nat /\
    all_digits d = true /\ (6 <= String.length d <= 8)%nat /\
    Receipt.all_upper b = true /\ String.length b = 2%nat /\
    (10 <= String.length (a ++ d ++ b) <= 13)%nat.
Proof.
  apply generateMpesaReceiptNumber_shape; [|lia].
  intros k. unfold Qle, Qlt. simpl. lia.
Defined.
